(** * Fraud risk scoring: feature extraction, prediction and batch scoring

    A shallow embedding of [ml-service/fraud/feature_extractor.py],
    [ml-service/fraud/predict.py] and the persistence methods of
    [ml-service/fraud/train.py].

    Conventions of the embedding.
    - Python [float] values are exact rationals ([Q]); rounding is not
      modelled.  Results of numeric library calls that the program only
      stores and never inspects ([np.log1p], [Series.std], the MD5 bucket
      of an address, ...) are kept as uninterpreted terms ([npsym]).
    - A Python [dict] with string keys is a [gmap string _]; records are
      used for the dictionaries whose key set is fixed by the code.
    - A raised exception is the [Raise] result of the error monad [res];
      methods of [FraudPredictor] live in a state-and-error monad over the
      predictor object. *)

From Stdlib Require Import ZArith QArith Qround Qminmax Lqa String Ascii List Lia Bool.
From stdpp Require Import gmap strings list fin_maps pretty.

Local Open Scope string_scope.
Local Open Scope Z_scope.
Set Warnings "-register-all".

(** ** Python values *)

Module Py.

(** The value under a ['timestamp'] key: a number, or a text. *)
Inductive tsval : Type :=
| TsNum (q : Q)                      (* epoch seconds *)
| TsStr (s : string) (iso : option Q).
  (* a text, with the epoch seconds [datetime.fromisoformat(s).timestamp()]
     reads from it, [None] when that call raises *)

(** Uninterpreted results of numeric library calls. *)
Inductive npsym : Type :=
| Log1p (x : Q)                      (* np.log1p(x) *)
| SeriesStd (xs : list Q)            (* pd.Series(xs).std() *)
| MeanTimeDiff (ts : list (option tsval)).
  (* to_datetime(ts).diff().dt.total_seconds().mean() *)

Inductive pyval : Type :=
| VNone
| VBool (b : bool)
| VInt (z : Z)
| VFloat (q : Q)
| VStr (s : string)
| VList (l : list pyval)
| VDict (d : list (string * pyval))
| VNpFloat (q : Q)                   (* numpy.float64 scalar *)
| VNpInt (z : Z)                     (* numpy.int64 scalar *)
| VNpBool (b : bool)                 (* numpy.bool_ scalar *)
| VNpSym (t : npsym)                 (* numpy.float64 whose value is not inspected *)
| VFloatSym (t : npsym)              (* the same number as a Python float *)
| VMd5Bucket (ip : string).          (* int(md5(ip).hexdigest()[:8], 16) % 10000 *)

(** Exceptions, with the text [str(e)] gives. *)
Inductive exn : Type :=
| KeyError (key : string)
| TypeError (msg : string)
| ValueError (msg : string)
| AttributeError (msg : string)
| FileNotFoundError (msg : string)
| OSError (msg : string)             (* and its other subclasses *)
| EOFError (msg : string)
| PickleError (msg : string)
| LibraryError (msg : string).       (* raised inside a classifier or detector *)

Definition exn_str (e : exn) : string :=
  match e with
  | KeyError k => "'" +:+ k +:+ "'"
  | TypeError m | ValueError m | AttributeError m
  | FileNotFoundError m | OSError m | EOFError m | PickleError m
  | LibraryError m => m
  end.

Inductive res (A : Type) : Type :=
| Ok (a : A)
| Raise (e : exn).
Arguments Ok {A} a.
Arguments Raise {A} e.

#[export] Instance res_ret : MRet res := fun A a => Ok a.
#[export] Instance res_bind : MBind res := fun A B k m =>
  match m with Ok a => k a | Raise e => Raise e end.

(** The numeric reading of a value, for the values Python orders and
    multiplies as numbers. *)
Definition num_of (v : pyval) : option Q :=
  match v with
  | VBool b | VNpBool b => Some (if b then 1%Q else 0%Q)
  | VInt z | VNpInt z => Some (inject_Z z)
  | VFloat q | VNpFloat q => Some q
  | _ => None
  end.

Definition type_name (v : pyval) : string :=
  match v with
  | VNone => "NoneType" | VBool _ => "bool" | VInt _ => "int"
  | VFloat _ => "float" | VStr _ => "str" | VList _ => "list"
  | VDict _ => "dict" | VNpFloat _ | VNpSym _ => "numpy.float64"
  | VFloatSym _ => "float"
  | VNpInt _ => "numpy.int64" | VNpBool _ => "numpy.bool_"
  | VMd5Bucket _ => "int"
  end.

Definition Qgtb (a b : Q) : bool := negb (Qle_bool a b).
Definition Qgeb (a b : Q) : bool := Qle_bool b a.
Definition Qltb (a b : Q) : bool := negb (Qle_bool b a).

(** [v > c] for a numeric constant [c]: a [TypeError] unless [v] is a
    number.  (The uninterpreted numbers are only ever stored by the
    program; comparing one is outside the model and reads as not a
    number.) *)
Definition py_gt (v : pyval) (c : Q) : res bool :=
  match num_of v with
  | Some q => Ok (Qgtb q c)
  | None => Raise (TypeError ("'>' not supported between instances of '"
                              +:+ type_name v +:+ "' and 'int'"))
  end.

(** [v == 1]: never raises; [True == 1] and [1.0 == 1] hold. *)
Definition py_eq1 (v : pyval) : bool :=
  match num_of v with
  | Some q => Qeq_bool q 1
  | None => false
  end.

(** Truth value of [v] in a condition. *)
Definition truthy (v : pyval) : bool :=
  match v with
  | VNone => false
  | VBool b | VNpBool b => b
  | VInt z | VNpInt z => negb (z =? 0)
  | VFloat q | VNpFloat q => negb (Qeq_bool q 0)
  | VStr s => negb (String.eqb s "")
  | VList l => match l with [] => false | _ => true end
  | VDict d => match d with [] => false | _ => true end
  | VNpSym _ | VFloatSym _ => true
  | VMd5Bucket _ => true
  end.

End Py.
Export Py.

Abbreviation featmap := (gmap string pyval).

(** [d.get(k, dflt)] and [d.update(new)]. *)
Definition dget (d : featmap) (k : string) (dflt : pyval) : pyval :=
  default dflt (d !! k).

Definition dupdate (d new : featmap) : featmap := new ∪ d.

(** ** Input records

    A transaction and a history entry are dictionaries read with
    [.get]; an absent key is [None] here.  A key that is present holds a
    value of the type its field has: a timestamp is a number or a text,
    in a transaction and in a history entry alike (the entries of a
    history are earlier transactions); a JSON [null] under a key is not
    among the inputs of the model. *)

Record device_info : Type := {
  dev_type : option string;
  dev_browser : option string;
  dev_os : option string
}.

Record transaction : Type := {
  tx_id : option string;
  tx_user_id : option string;
  tx_amount : option Q;
  tx_is_first : option bool;
  tx_daily_count : option Z;
  tx_payment_method : option string;
  tx_timestamp : option tsval;
  tx_device_info : option device_info;
  tx_ip_address : option string;
  tx_session_duration : option Q
}.

Record hist_entry : Type := {
  h_amount : option Q;
  h_timestamp : option tsval;
  h_status : option string
}.

(** The process environment: the clock read by [datetime.now()], the
    fixed offset of the local time zone, in seconds, and whether
    [pd.to_datetime] converts a column of timestamps or raises. *)
Record env : Type := {
  now : Q;
  utc_offset : Z;
  to_datetime : list (option tsval) -> res unit
}.

(** ** [datetime.fromtimestamp] *)

Record datetime : Type := {
  dt_year : Z; dt_month : Z; dt_day : Z; dt_hour : Z;
  dt_weekday : Z                       (* Monday is 0 *)
}.

(** Days since 1970-01-01 to a proleptic Gregorian date. *)
Definition civil_from_days (days : Z) : Z * Z * Z :=
  let z := days + 719468 in
  let era := z / 146097 in
  let doe := z - era * 146097 in
  let yoe := (doe - doe / 1460 + doe / 36524 - doe / 146096) / 365 in
  let doy := doe - (365 * yoe + yoe / 4 - yoe / 100) in
  let mp := (5 * doy + 2) / 153 in
  let d := doy - (153 * mp + 2) / 5 + 1 in
  let m := if mp <? 10 then mp + 3 else mp - 9 in
  let y := yoe + era * 400 + (if m <=? 2 then 1 else 0) in
  (y, m, d).

Definition fromtimestamp (e : env) (ts : tsval) : res datetime :=
  match ts with
  | TsStr _ _ => Raise (TypeError "'str' object cannot be interpreted as an integer")
  | TsNum q =>
      let secs := Qfloor q + utc_offset e in
      let days := secs / 86400 in
      let '(y, m, d) := civil_from_days days in
      if (1 <=? y) && (y <=? 9999) then
        Ok {| dt_year := y; dt_month := m; dt_day := d;
              dt_hour := (secs mod 86400) / 3600;
              dt_weekday := (days + 3) mod 7 |}
      else Raise (ValueError "year is out of range")
  end.

(** ** The feature extractor ([FraudFeatureExtractor]) *)

Module FeatureExtractor.

Definition vnum (o : option Q) : pyval :=
  match o with Some q => VFloat q | None => VInt 0 end.

Definition qnum (o : option Q) : Q := default 0%Q o.

Definition flag (b : bool) : pyval := VInt (if b then 1 else 0).

(** [_extract_transaction_features] *)
Definition _extract_transaction_features (t : transaction) : featmap :=
  let amount := vnum (tx_amount t) in
  let payment_method := default "" (tx_payment_method t) in
  <[ "payment_method_digital" :=
       flag (bool_decide (payment_method ∈ ["khalti"; "esewa"])) ]>
  (<[ "payment_method_credit_card" :=
       flag (bool_decide (payment_method = "credit_card")) ]>
  (<[ "transaction_count_today" := VInt (default 0 (tx_daily_count t)) ]>
  (<[ "is_first_transaction" := VBool (default false (tx_is_first t)) ]>
  (<[ "amount_log" := VNpSym (Log1p (qnum (tx_amount t))) ]>
  (<[ "transaction_amount" := amount ]> ∅))))).

(** Column access [df[col]] on the frame built from the history: the
    column exists when some row has the key. *)
Definition column {A} (col : string) (f : hist_entry -> option A)
    (history : list hist_entry) : res (list (option A)) :=
  if existsb (fun h => bool_decide (is_Some (f h))) history
  then Ok (map f history)
  else Raise (KeyError col).

Definition present {A} (xs : list (option A)) : list A := omap id xs.

Definition Qsum (xs : list Q) : Q := fold_right Qplus 0%Q xs.

(** [Series.mean()], missing entries skipped. *)
Definition series_mean (xs : list (option Q)) : Q :=
  (Qsum (present xs) / inject_Z (Z.of_nat (length (present xs))))%Q.

(** [t.get('timestamp', 0)] as the number that is compared. *)
Definition seconds (ts : option tsval) : Q :=
  match ts with
  | Some (TsNum q) => q
  | _ => 0%Q
  end.

Definition is_text (ts : option tsval) : bool :=
  match ts with
  | Some (TsStr _ _) => true
  | _ => false
  end.

(** [t.get('timestamp', 0) > since] over the entries of the history, as
    the two list comprehensions evaluate it: a text cannot be compared
    with the number. *)
Definition compare_timestamps (history : list hist_entry) : res unit :=
  if existsb (fun h => is_text (h_timestamp h)) history
  then Raise (TypeError "'>' not supported between instances of 'str' and 'float'")
  else Ok tt.

Definition count_recent (history : list hist_entry) (since : Q) : nat :=
  length (filter (fun h => Qgtb (seconds (h_timestamp h)) since = true) history).

(** [_extract_user_behavior_features] *)
Definition _extract_user_behavior_features (e : env) (t : transaction)
    (history : list hist_entry) : res featmap :=
  match history with
  | [] => Ok ∅
  | _ =>
      amounts ← column "amount" h_amount history;
      let avg_amount := series_mean amounts in
      let current_amount := qnum (tx_amount t) in
      let features : featmap :=
        <[ "amount_deviation_ratio" :=
             if Qgtb avg_amount 0 then VNpFloat (current_amount / avg_amount)
             else VInt 10 ]>
        (<[ "total_transaction_count" := VInt (Z.of_nat (length history)) ]>
        (<[ "std_transaction_amount" := VNpSym (SeriesStd (present amounts)) ]>
        (<[ "avg_transaction_amount" := VNpFloat avg_amount ]> ∅))) in
      features ←
        (if existsb (fun h => bool_decide (is_Some (h_timestamp h))) history
         then _ ← to_datetime e (map h_timestamp history);
              Ok (<[ "avg_time_between_transactions" :=
                       if (1 <? Z.of_nat (length history))
                       then VNpSym (MeanTimeDiff (map h_timestamp history))
                       else VInt 0 ]> features)
         else Ok features);
      statuses ← column "status" h_status history;
      let failed := filter (fun s => s = Some "failed") statuses in
      let features : featmap :=
        <[ "previous_failure_rate" :=
             VNpFloat (inject_Z (Z.of_nat (length failed))
                       / inject_Z (Z.of_nat (length history))) ]> features in
      let last_hour := (now e - 3600)%Q in
      let last_24h := (now e - 86400)%Q in
      _ ← compare_timestamps history;
      let recent_hour := count_recent history last_hour in
      let recent_day := count_recent history last_24h in
      Ok (<[ "daily_velocity" := VFloat (inject_Z (Z.of_nat recent_day) / 24) ]>
         (<[ "hourly_velocity" := VFloat (inject_Z (Z.of_nat recent_hour) / 1) ]>
         (<[ "transactions_last_24h" := VInt (Z.of_nat recent_day) ]>
         (<[ "transactions_last_hour" := VInt (Z.of_nat recent_hour) ]> features))))
  end.

(** [_extract_temporal_features] *)
Definition _extract_temporal_features (e : env) (t : transaction) : res featmap :=
  let timestamp := default (TsNum (now e)) (tx_timestamp t) in
  dt ← fromtimestamp e timestamp;
  Ok (<[ "is_holiday_season" :=
           flag (bool_decide (dt_month dt ∈ [11; 12])) ]>
     (<[ "month" := VInt (dt_month dt) ]>
     (<[ "is_business_hours" :=
           flag ((9 <=? dt_hour dt) && (dt_hour dt <? 17)) ]>
     (<[ "is_night_hours" :=
           flag ((0 <=? dt_hour dt) && (dt_hour dt <? 6)) ]>
     (<[ "is_weekend" := flag (5 <=? dt_weekday dt) ]>
     (<[ "day_of_month" := VInt (dt_day dt) ]>
     (<[ "day_of_week" := VInt (dt_weekday dt) ]>
     (<[ "hour_of_day" := VInt (dt_hour dt) ]> ∅)))))))).

(** [s.split(sep)] and [sep.join(l)] *)
Fixpoint split_on (sep : ascii) (s : string) : list string :=
  match s with
  | EmptyString => [""]
  | String c r =>
      if Ascii.eqb c sep then "" :: split_on sep r
      else match split_on sep r with
           | w :: ws => String c w :: ws
           | [] => [String c ""]
           end
  end.

Fixpoint join (sep : string) (l : list string) : string :=
  match l with
  | [] => ""
  | [w] => w
  | w :: ws => w +:+ sep +:+ join sep ws
  end.

(** [_extract_technical_features] *)
Definition _extract_technical_features (t : transaction) : featmap :=
  let device := default {| dev_type := None; dev_browser := None; dev_os := None |}
                        (tx_device_info t) in
  let ip_address := default "" (tx_ip_address t) in
  let features : featmap :=
    <[ "os" := VStr (default "unknown" (dev_os device)) ]>
    (<[ "browser" := VStr (default "unknown" (dev_browser device)) ]>
    (<[ "device_type" := VStr (default "unknown" (dev_type device)) ]> ∅)) in
  let features : featmap :=
    if negb (String.eqb ip_address "")
    then <[ "ip_hash" := VMd5Bucket ip_address ]>
         (<[ "ip_prefix" := VStr (join "." (take 2 (split_on "." ip_address))) ]>
          features)
    else features in
  let session_duration := tx_session_duration t in
  <[ "short_session" := flag (Qltb (qnum session_duration) 60) ]>
  (<[ "session_duration" := vnum session_duration ]> features).

(** [_calculate_derived_features]: the pair is the running [risk_score]
    and the [derived] dictionary. *)
Definition _calculate_derived_features (features : featmap) : res featmap :=
  let risk_score := 0 in
  let derived : featmap := ∅ in
  c ← py_gt (dget features "amount_deviation_ratio" (VInt 1)) 3;
  let '(risk_score, derived) :=
    if c : bool then (risk_score + 30, <[ "high_amount_deviation" := VInt 1 ]> derived)
    else (risk_score, <[ "high_amount_deviation" := VInt 0 ]> derived) in
  c ← py_gt (dget features "hourly_velocity" (VInt 0)) 5;
  let '(risk_score, derived) :=
    if c : bool then (risk_score + 25, <[ "high_hourly_velocity" := VInt 1 ]> derived)
    else (risk_score, <[ "high_hourly_velocity" := VInt 0 ]> derived) in
  let '(risk_score, derived) :=
    if py_eq1 (dget features "is_night_hours" (VInt 0))
    then (risk_score + 15, <[ "night_transaction" := VInt 1 ]> derived)
    else (risk_score, <[ "night_transaction" := VInt 0 ]> derived) in
  let '(risk_score, derived) :=
    if py_eq1 (dget features "short_session" (VInt 0))
    then (risk_score + 20, <[ "short_session_flag" := VInt 1 ]> derived)
    else (risk_score, <[ "short_session_flag" := VInt 0 ]> derived) in
  c ← py_gt (dget features "previous_failure_rate" (VInt 0)) (3 # 10);
  let '(risk_score, derived) :=
    if c : bool then (risk_score + 25, <[ "high_failure_history" := VInt 1 ]> derived)
    else (risk_score, <[ "high_failure_history" := VInt 0 ]> derived) in
  c ← (if truthy (dget features "is_first_transaction" (VBool false))
       then py_gt (dget features "transaction_amount" (VInt 0)) 100
       else Ok false);
  let '(risk_score, derived) :=
    if c : bool then (risk_score + 35, <[ "new_user_high_amount" := VInt 1 ]> derived)
    else (risk_score, <[ "new_user_high_amount" := VInt 0 ]> derived) in
  Ok (<[ "composite_risk_score" := VInt (Z.min risk_score 100) ]> derived).

(** [extract_features]; an absent [user_history] is [None]. *)
Definition extract_features (e : env) (transaction_data : transaction)
    (user_history : option (list hist_entry)) : res featmap :=
  let features : featmap := ∅ in
  let features := dupdate features (_extract_transaction_features transaction_data) in
  features ←
    match user_history with
    | None | Some [] => Ok features
    | Some history =>
        b ← _extract_user_behavior_features e transaction_data history;
        Ok (dupdate features b)
    end;
  t ← _extract_temporal_features e transaction_data;
  let features := dupdate features t in
  let features := dupdate features (_extract_technical_features transaction_data) in
  d ← _calculate_derived_features features;
  Ok (dupdate features d).

End FeatureExtractor.


(** ** Classifiers, artifacts and the predictor object *)

(** A classifier is used through [predict_proba] (when it has one) and
    [predict], both applied to the one-row frame built from the feature
    dictionary.  [clf_predict_proba] is [float(model.predict_proba(df)[0][1])],
    [clf_predict] is [model.predict(df)[0]]. *)
Record classifier : Type := {
  clf_type_name : string;
  clf_predict_proba : option (featmap -> res Q);
  clf_predict : featmap -> res pyval
}.

(** What [FraudModelTrainer._save_model] pickles. *)
Record model_info : Type := {
  mi_model : classifier;
  mi_feature_names : list string;
  mi_trained_at : Q;                   (* [datetime.now().isoformat()] at saving *)
  mi_model_type : string;
  mi_config : pyval
}.

(** A pickled object. *)
Inductive pyobj : Type :=
| ObjClassifier (c : classifier)
| ObjModelInfo (i : model_info).

(** An [AnomalyDetector]: [det_detect] gives [(anomalies[0], scores[0])]
    for a fitted detector. *)
Record detector : Type := {
  is_fitted : bool;
  det_detect : featmap -> res (bool * Q)
}.

Record predictor_config : Type := {
  threshold : option Q;                (* [config['threshold']] *)
  risk_categories : list (string * Q);
  feature_config : list (string * bool)
}.

Definition default_config : predictor_config :=
  {| threshold := Some (8 # 10);
     risk_categories := [("LOW", 0%Q); ("MEDIUM", 3 # 10); ("HIGH", 7 # 10);
                         ("CRITICAL", 9 # 10)];
     feature_config := [("include_user_history", true);
                        ("include_temporal_features", true);
                        ("include_device_features", true)] |}.

Record predictor : Type := {
  config : predictor_config;
  model : option pyobj;
  model_loaded : bool;
  model_path : option string;
  feature_extractor : bool;            (* is a [FraudFeatureExtractor] held? *)
  anomaly_detector : option detector
}.

(** ** The monad of predictor methods: state and exceptions *)

Definition pm (A : Type) : Type := predictor -> res A * predictor.

#[export] Instance pm_ret : MRet pm := fun A a s => (Ok a, s).
#[export] Instance pm_bind : MBind pm := fun A B k m s =>
  match m s with
  | (Ok a, s') => k a s'
  | (Raise e, s') => (Raise e, s')
  end.

Definition self {A} (f : predictor -> A) : pm A := fun s => (Ok (f s), s).
Definition assign (f : predictor -> predictor) : pm unit := fun s => (Ok tt, f s).
Definition lift {A} (r : res A) : pm A := fun s => (r, s).
Definition raise {A} (e : exn) : pm A := fun s => (Raise e, s).

(** [try: body except Exception as e: handler(e)] *)
Definition try_except {A} (body : pm A) (handler : exn -> pm A) : pm A :=
  fun s =>
    match body s with
    | (Ok a, s') => (Ok a, s')
    | (Raise e, s') => handler e s'
    end.

(** A method that leaves the object as it found it. *)
Definition read_only {A} (m : pm A) : Prop := forall s, snd (m s) = s.

(** ** The predictor ([FraudPredictor]) *)

Module Predictor.

(** One sentence of an explanation: the f-string and the value it
    formats. *)
Record factor : Type := {
  template : string;
  arg : option pyval
}.

Record explanation : Type := {
  ex_method : option string;
  ex_factors : option (list factor);
  ex_contributions : option (list Q);
  ex_risk_factors : list string;
  ex_risk_score : option Z;
  ex_rules_applied : option nat;
  ex_confidence : Q;
  ex_summary : option string
}.

Definition is_number (v : pyval) : bool :=
  match v with
  | VNone | VStr _ | VList _ | VDict _ => false
  | _ => true
  end.

(** Formatting with a float format spec ([:.1f], [:.2f], [:.0%]). *)
Definition format_float (tpl : string) (v : pyval) : res factor :=
  if is_number v then Ok {| template := tpl; arg := Some v |}
  else match v with
       | VStr _ => Raise (ValueError "Unknown format code 'f' for object of type 'str'")
       | _ => Raise (TypeError ("unsupported format string passed to "
                                +:+ type_name v +:+ ".__format__"))
       end.

(** Formatting without a format spec never raises. *)
Definition format_plain (tpl : string) (v : pyval) : factor :=
  {| template := tpl; arg := Some v |}.

(** [l.append(x)] *)
Definition append {A} (l : list A) (x : A) : list A := (l ++ [x])%list.

Definition config_threshold : pm Q :=
  c ← self config;
  match threshold c with
  | Some t => mret t
  | None => raise (KeyError "threshold")
  end.

(** [_rule_based_prediction]: the pair is the running [risk_score] and
    [risk_factors]. *)
Definition _rule_based_prediction (features : featmap) : pm (bool * Q * explanation) :=
  let risk_factors : list string := [] in
  let risk_score := 0 in
  let amount_deviation := dget features "amount_deviation_ratio" (VInt 1) in
  c ← lift (py_gt amount_deviation 5);
  '(risk_score, risk_factors) ←
    (if c : bool then mret (risk_score + 40, append risk_factors "EXTREME_AMOUNT_DEVIATION")
     else c ← lift (py_gt amount_deviation 3);
          mret (if c : bool then (risk_score + 25, append risk_factors "HIGH_AMOUNT_DEVIATION")
                else (risk_score, risk_factors)));
  let hourly_velocity := dget features "hourly_velocity" (VInt 0) in
  c ← lift (py_gt hourly_velocity 10);
  '(risk_score, risk_factors) ←
    (if c : bool then mret (risk_score + 35, append risk_factors "EXTREME_TRANSACTION_VELOCITY")
     else c ← lift (py_gt hourly_velocity 5);
          mret (if c : bool then (risk_score + 20, append risk_factors "HIGH_TRANSACTION_VELOCITY")
                else (risk_score, risk_factors)));
  let '(risk_score, risk_factors) :=
    if py_eq1 (dget features "is_night_hours" (VInt 0))
    then (risk_score + 15, append risk_factors "NIGHT_TRANSACTION")
    else (risk_score, risk_factors) in
  let '(risk_score, risk_factors) :=
    if py_eq1 (dget features "short_session" (VInt 0))
    then (risk_score + 20, append risk_factors "SHORT_SESSION")
    else (risk_score, risk_factors) in
  c ← (if truthy (dget features "is_first_transaction" (VBool false))
       then lift (py_gt (dget features "transaction_amount" (VInt 0)) 100)
       else mret false);
  let '(risk_score, risk_factors) :=
    if c : bool then (risk_score + 30, append risk_factors "NEW_USER_HIGH_AMOUNT")
    else (risk_score, risk_factors) in
  let failure_rate := dget features "previous_failure_rate" (VInt 0) in
  c ← lift (py_gt failure_rate (5 # 10));
  let '(risk_score, risk_factors) :=
    if c : bool then (risk_score + 25, append risk_factors "HIGH_FAILURE_HISTORY")
    else (risk_score, risk_factors) in
  let probability := Qmin (inject_Z risk_score / 100) 1 in
  th ← config_threshold;
  let is_fraud := Qgeb probability th in
  let explanation :=
    {| ex_method := Some "rule_based";
       ex_factors := None;
       ex_contributions := None;
       ex_risk_factors := risk_factors;
       ex_risk_score := Some risk_score;
       ex_rules_applied := Some (length risk_factors);
       ex_confidence := probability * 100;
       ex_summary := None |} in
  mret (is_fraud, probability, explanation).

(** [_ensure_feature_columns] on the one-row frame. *)
Definition expected_columns : list string :=
  [ "transaction_amount"; "amount_log"; "hour_of_day"; "day_of_week";
    "is_weekend"; "is_night_hours"; "session_duration"; "short_session";
    "total_transaction_count"; "amount_deviation_ratio"; "hourly_velocity";
    "previous_failure_rate"; "composite_risk_score" ].

Definition _ensure_feature_columns (df : featmap) : featmap :=
  foldl (fun (df : featmap) col =>
           match df !! col with
           | None => <[ col := VInt 0 ]> df
           | Some _ => df
           end) df expected_columns.

(** [explain_prediction]: the triple is [factors], [contributions] and
    [risk_factors] of the explanation under construction. *)
Definition add_factor (ex : list factor * list Q * list string)
    (f : factor) (c : Q) (tag : string) : list factor * list Q * list string :=
  let '(factors, contributions, risk_factors) := ex in
  (append factors f, append contributions c, append risk_factors tag).

Definition explain_prediction (features : featmap) (probability : Q) : res explanation :=
  let ex : list factor * list Q * list string := ([], [], []) in
  ex ← (if py_eq1 (dget features "high_amount_deviation" (VInt 0)) then
          f ← format_float "Amount is {deviation:.1f}x higher than user's average"
                (dget features "amount_deviation_ratio" (VInt 1));
          Ok (add_factor ex f 30 "HIGH_AMOUNT_DEVIATION")
        else Ok ex);
  ex ← (if py_eq1 (dget features "high_hourly_velocity" (VInt 0)) then
          f ← format_float "High transaction frequency ({velocity:.1f}/hour)"
                (dget features "hourly_velocity" (VInt 0));
          Ok (add_factor ex f 25 "HIGH_TRANSACTION_VELOCITY")
        else Ok ex);
  let ex :=
    if py_eq1 (dget features "night_transaction" (VInt 0)) then
      add_factor ex
        (format_plain "Transaction occurred during unusual hours ({hour}:00)"
           (dget features "hour_of_day" (VInt 0)))
        15 "NIGHT_TRANSACTION"
    else ex in
  let ex :=
    if py_eq1 (dget features "short_session_flag" (VInt 0)) then
      add_factor ex
        (format_plain "Very short session duration ({duration}s)"
           (dget features "session_duration" (VInt 0)))
        20 "SHORT_SESSION"
    else ex in
  ex ← (if py_eq1 (dget features "high_failure_history" (VInt 0)) then
          f ← format_float "High previous failure rate ({failure_rate:.0%})"
                (dget features "previous_failure_rate" (VInt 0));
          Ok (add_factor ex f 25 "HIGH_FAILURE_HISTORY")
        else Ok ex);
  ex ← (if py_eq1 (dget features "new_user_high_amount" (VInt 0)) then
          f ← format_float "New user with high amount (${amount:.2f})"
                (dget features "transaction_amount" (VInt 0));
          Ok (add_factor ex f 35 "NEW_USER_HIGH_AMOUNT")
        else Ok ex);
  let ex :=
    if py_eq1 (dget features "device_anomaly" (VInt 0)) then
      add_factor ex {| template := "Unusual device or location pattern"; arg := None |}
        20 "DEVICE_ANOMALY"
    else ex in
  let '(factors, contributions, risk_factors) := ex in
  let total_contribution := FeatureExtractor.Qsum contributions in
  let contributions :=
    if Qgtb total_contribution 0
    then map (fun c => (c / total_contribution) * 100)%Q contributions
    else contributions in
  let nonzero := negb (Qeq_bool probability 0) in
  Ok {| ex_method := None;
        ex_factors := Some factors;
        ex_contributions := Some contributions;
        ex_risk_factors := risk_factors;
        ex_risk_score := None;
        ex_rules_applied := None;
        ex_confidence := if nonzero then probability * 100 else 0;
        ex_summary :=
          if nonzero then
            Some (if Qgeb probability (9 # 10) then "Very high fraud risk"
                  else if Qgeb probability (7 # 10) then "High fraud risk"
                  else if Qgeb probability (5 # 10) then "Moderate fraud risk"
                  else "Low fraud risk")
          else None |}.

(** The model branch of [predict]: what the held object answers for the
    frame.  An artifact that is not a classifier has neither method. *)
Definition model_probability (obj : pyobj) (feature_df : featmap) : res Q :=
  match obj with
  | ObjClassifier c =>
      match clf_predict_proba c with
      | Some predict_proba => predict_proba feature_df
      | None =>
          prediction ← clf_predict c feature_df;
          Ok (if py_eq1 prediction then 1%Q else 0%Q)
      end
  | ObjModelInfo _ => Raise (AttributeError "'dict' object has no attribute 'predict'")
  end.

(** [predict] *)
Definition predict (features : featmap) : pm (bool * Q * explanation) :=
  try_except
    (loaded ← self model_loaded;
     m ← self model;
     match (if loaded : bool then m else None) with
     | Some obj =>
         let feature_df := _ensure_feature_columns features in
         fraud_probability ← lift (model_probability obj feature_df);
         th ← config_threshold;
         let is_fraud := Qgeb fraud_probability th in
         explanation ← lift (explain_prediction features fraud_probability);
         mret (is_fraud, fraud_probability, explanation)
     | None => _rule_based_prediction features
     end)
    (fun _ => _rule_based_prediction features).

(** [_calculate_risk_score] *)
Definition _calculate_risk_score (features : featmap) (probability : Q) : res Q :=
  let base_score := (probability * 100)%Q in
  let amount := dget features "transaction_amount" (VInt 0) in
  c ← py_gt amount 1000;
  base_score ←
    (if c : bool then Ok (base_score * (12 # 10))%Q
     else c ← py_gt amount 500;
          Ok (if c : bool then (base_score * (11 # 10))%Q else base_score));
  let base_score :=
    if py_eq1 (dget features "is_first_transaction" (VInt 0))
    then (base_score * (13 # 10))%Q else base_score in
  Ok (Qmin base_score 100).

(** [_determine_risk_level] *)
Definition _determine_risk_level (risk_score : Q) : string :=
  if Qgeb risk_score 90 then "CRITICAL"
  else if Qgeb risk_score 70 then "HIGH"
  else if Qgeb risk_score 30 then "MEDIUM"
  else "LOW".

Record action : Type := {
  act_action : string;
  act_reason : string;
  act_steps : list string
}.

(** [_get_recommended_action] *)
Definition _get_recommended_action (is_fraud : bool) (risk_level : string) : action :=
  if is_fraud || String.eqb risk_level "CRITICAL" then
    {| act_action := "BLOCK"; act_reason := "High fraud probability";
       act_steps := ["Block transaction"; "Flag account"; "Notify security team"] |}
  else if String.eqb risk_level "HIGH" then
    {| act_action := "REVIEW"; act_reason := "Suspicious activity detected";
       act_steps := ["Require additional verification"; "Review manually";
                     "Monitor account"] |}
  else if String.eqb risk_level "MEDIUM" then
    {| act_action := "MONITOR"; act_reason := "Moderate risk detected";
       act_steps := ["Allow transaction"; "Monitor for patterns";
                     "Update risk profile"] |}
  else
    {| act_action := "ALLOW"; act_reason := "Low risk transaction";
       act_steps := ["Process normally"] |}.

(** [key.lower()] on ASCII letters, and [pattern in text]. *)
Definition lower_ascii (c : ascii) : ascii :=
  let n := nat_of_ascii c in
  if ((65 <=? n) && (n <=? 90))%nat then ascii_of_nat (n + 32) else c.

Fixpoint lower (s : string) : string :=
  match s with
  | EmptyString => EmptyString
  | String c r => String (lower_ascii c) (lower r)
  end.

Fixpoint contains (pattern text : string) : bool :=
  String.prefix pattern text ||
  match text with
  | EmptyString => false
  | String _ r => contains pattern r
  end.

Definition sensitive_patterns : list string :=
  ["password"; "token"; "secret"; "key"; "cvv"; "pin"].

Definition is_sensitive (key : string) : bool :=
  existsb (fun pattern => contains pattern (lower key)) sensitive_patterns.

(** [isinstance(value, (dict, list))] *)
Definition is_complex (value : pyval) : bool :=
  match value with
  | VDict _ | VList _ => true
  | _ => false
  end.

(** [hasattr(value, 'item')] holds of the numpy scalars; [value.item()]
    is the plain Python value. *)
Definition has_item (value : pyval) : bool :=
  match value with
  | VNpFloat _ | VNpInt _ | VNpBool _ | VNpSym _ => true
  | _ => false
  end.

Definition item (value : pyval) : pyval :=
  match value with
  | VNpFloat q => VFloat q
  | VNpInt z => VInt z
  | VNpBool b => VBool b
  | VNpSym t => VFloatSym t
  | _ => value
  end.

(** [_sanitize_features]: the loop over [features.items()]. *)
Definition _sanitize_features (features : featmap) : featmap :=
  map_fold (fun key value (sanitized : featmap) =>
              if is_complex value then sanitized
              else if is_sensitive key then <[ key := VStr "[REDACTED]" ]> sanitized
              else if has_item value then <[ key := item value ]> sanitized
              else <[ key := value ]> sanitized)
           ∅ features.

(** [_features_to_array]: the columns of numeric dtype, [None] when there
    is none. *)
Definition is_numeric_dtype (v : pyval) : bool :=
  match v with
  | VInt _ | VFloat _ | VNpFloat _ | VNpInt _ | VNpSym _ | VFloatSym _
  | VMd5Bucket _ => true
  | _ => false
  end.

Definition _features_to_array (features : featmap) : option featmap :=
  let numeric_cols : featmap :=
    filter (fun kv => is_numeric_dtype kv.2 = true) features in
  if (0 <? size numeric_cols)%nat then Some numeric_cols else None.

(** [AnomalyDetector.detect] *)
Definition detect (d : detector) (features : featmap) : res (bool * Q) :=
  if is_fitted d then det_detect d features
  else Raise (ValueError "Model must be trained before detection").

Import FeatureExtractor.

(** [_extract_basic_features], used when no feature extractor is held. *)
Definition _extract_basic_features (e : env) (t : transaction)
    (history : list hist_entry) : res featmap :=
  let features : featmap :=
    <[ "amount_log" := VNpSym (Log1p (qnum (tx_amount t))) ]>
    (<[ "transaction_amount" := vnum (tx_amount t) ]> ∅) in
  let payment_method := default "" (tx_payment_method t) in
  let features : featmap :=
    <[ "payment_method_digital" :=
         flag (bool_decide (payment_method ∈ ["khalti"; "esewa"])) ]>
    (<[ "payment_method_credit_card" :=
         flag (bool_decide (payment_method = "credit_card")) ]> features) in
  let timestamp := default (TsNum (now e)) (tx_timestamp t) in
  let timestamp :=
    match timestamp with
    | TsStr _ (Some parsed) => TsNum parsed
    | _ => timestamp
    end in
  dt ← fromtimestamp e timestamp;
  let features : featmap :=
    <[ "is_night_hours" := flag ((0 <=? dt_hour dt) && (dt_hour dt <? 6)) ]>
    (<[ "is_weekend" := flag (5 <=? dt_weekday dt) ]>
    (<[ "day_of_week" := VInt (dt_weekday dt) ]>
    (<[ "hour_of_day" := VInt (dt_hour dt) ]> features))) in
  let device := default {| dev_type := None; dev_browser := None; dev_os := None |}
                        (tx_device_info t) in
  let features : featmap :=
    <[ "browser_chrome" := flag (bool_decide (dev_browser device = Some "chrome")) ]>
    (<[ "device_type_mobile" := flag (bool_decide (dev_type device = Some "mobile")) ]>
     features) in
  let features : featmap :=
    <[ "short_session" := flag (Qltb (qnum (tx_session_duration t)) 60) ]>
    (<[ "session_duration" := vnum (tx_session_duration t) ]> features) in
  features ←
    match history with
    | [] =>
        Ok (<[ "previous_failure_rate" := VInt 0 ]>
           (<[ "daily_velocity" := VInt 0 ]>
           (<[ "hourly_velocity" := VInt 0 ]>
           (<[ "transactions_last_24h" := VInt 0 ]>
           (<[ "transactions_last_hour" := VInt 0 ]>
           (<[ "amount_deviation_ratio" := VInt 10 ]>
           (<[ "total_transaction_count" := VInt 0 ]>
           (<[ "is_first_transaction" := VInt 1 ]> features))))))))
    | _ =>
        let features : featmap :=
          <[ "total_transaction_count" := VInt (Z.of_nat (length history)) ]> features in
        let amounts :=
          filter (fun a => Qeq_bool a 0 = false) (present (map h_amount history)) in
        let features : featmap :=
          match amounts with
          | [] => <[ "amount_deviation_ratio" := VInt 10 ]> features
          | _ =>
              let avg := series_mean (map Some amounts) in
              <[ "amount_deviation_ratio" :=
                   if Qgtb avg 0 then VNpFloat (qnum (tx_amount t) / avg)
                   else VInt 10 ]>
              (<[ "avg_transaction_amount" := VNpFloat avg ]> features)
          end in
        _ ← compare_timestamps history;
        let recent_hour := count_recent history (now e - 3600) in
        let recent_day := count_recent history (now e - 86400) in
        let failures := filter (fun h => h_status h = Some "failed") history in
        Ok (<[ "previous_failure_rate" :=
                VFloat (inject_Z (Z.of_nat (length failures))
                        / inject_Z (Z.of_nat (length history))) ]>
           (<[ "daily_velocity" := VFloat (inject_Z (Z.of_nat recent_day) / 24) ]>
           (<[ "hourly_velocity" := VFloat (inject_Z (Z.of_nat recent_hour) / 1) ]>
           (<[ "transactions_last_24h" := VInt (Z.of_nat recent_day) ]>
           (<[ "transactions_last_hour" := VInt (Z.of_nat recent_hour) ]> features)))))
    end;
  let risk_score := 0 in
  c ← py_gt (dget features "amount_deviation_ratio" (VInt 1)) 3;
  let '(risk_score, features) :=
    if c : bool then (risk_score + 30, <[ "high_amount_deviation" := VInt 1 ]> features)
    else (risk_score, <[ "high_amount_deviation" := VInt 0 ]> features) in
  c ← py_gt (dget features "hourly_velocity" (VInt 0)) 5;
  let '(risk_score, features) :=
    if c : bool then (risk_score + 25, <[ "high_hourly_velocity" := VInt 1 ]> features)
    else (risk_score, <[ "high_hourly_velocity" := VInt 0 ]> features) in
  let '(risk_score, features) :=
    if py_eq1 (dget features "is_night_hours" (VInt 0))
    then (risk_score + 15, <[ "night_transaction" := VInt 1 ]> features)
    else (risk_score, <[ "night_transaction" := VInt 0 ]> features) in
  let '(risk_score, features) :=
    if py_eq1 (dget features "short_session" (VInt 0))
    then (risk_score + 20, <[ "short_session_flag" := VInt 1 ]> features)
    else (risk_score, <[ "short_session_flag" := VInt 0 ]> features) in
  c ← py_gt (dget features "previous_failure_rate" (VInt 0)) (3 # 10);
  let '(risk_score, features) :=
    if c : bool then (risk_score + 25, <[ "high_failure_history" := VInt 1 ]> features)
    else (risk_score, <[ "high_failure_history" := VInt 0 ]> features) in
  c ← (if py_eq1 (dget features "is_first_transaction" (VInt 0))
       then py_gt (dget features "transaction_amount" (VInt 0)) 100
       else Ok false);
  let '(risk_score, features) :=
    if c : bool then (risk_score + 35, <[ "new_user_high_amount" := VInt 1 ]> features)
    else (risk_score, <[ "new_user_high_amount" := VInt 0 ]> features) in
  Ok (<[ "composite_risk_score" := VInt (Z.min risk_score 100) ]> features).

(** ** [predict_batch] *)

Record prediction : Type := {
  p_is_fraud : bool;
  p_probability : Q;
  p_confidence : Q
}.

Record risk_assessment : Type := {
  ra_score : Q;
  ra_level : string;
  ra_factors : list string
}.

(** The [timestamp] of a result: the transaction's own, or the text of
    the clock reading. *)
Inductive result_timestamp : Type :=
| Given (ts : tsval)
| NowIso (clock : Q).

Record scored : Type := {
  r_transaction_id : string;
  r_user_id : option string;
  r_amount : option Q;
  r_timestamp : result_timestamp;
  r_prediction : prediction;
  r_risk_assessment : risk_assessment;
  r_explanation : explanation;
  r_recommended_action : action;
  r_features : featmap;
  r_anomaly_detection : option (bool * Q)
}.

(** One element of the list [predict_batch] returns. *)
Inductive batch_entry : Type :=
| Scored (r : scored)
| Failed (transaction_id : string) (error : string).   (* with [success: False] *)

(** [transaction.get('id', f'txn_{i}')] *)
Definition transaction_id (i : nat) (t : transaction) : string :=
  default ("txn_" +:+ pretty i) (tx_id t).

Definition with_anomaly (r : scored) (a : bool * Q) : scored :=
  {| r_transaction_id := r_transaction_id r; r_user_id := r_user_id r;
     r_amount := r_amount r; r_timestamp := r_timestamp r;
     r_prediction := r_prediction r; r_risk_assessment := r_risk_assessment r;
     r_explanation := r_explanation r;
     r_recommended_action := r_recommended_action r;
     r_features := r_features r; r_anomaly_detection := Some a |}.

(** The history [predict_batch] finds for a transaction. *)
Definition history_for (t : transaction)
    (user_history : option (gmap string (list hist_entry))) : list hist_entry :=
  match user_history, tx_user_id t with
  | Some uh, Some uid =>
      if (0 <? size uh)%nat && negb (String.eqb uid "")
      then default [] (uh !! uid) else []
  | _, _ => []
  end.

(** The features [predict_batch] extracts: by the feature extractor when
    one is held, by [_extract_basic_features] otherwise. *)
Definition features_for (e : env) (t : transaction) (history : list hist_entry)
    : pm featmap :=
  fx ← self feature_extractor;
  lift (if fx : bool then extract_features e t (Some history)
        else _extract_basic_features e t history).

(** The body of the [try] block for the [i]-th transaction. *)
Definition score_transaction (e : env) (i : nat) (t : transaction)
    (user_history : option (gmap string (list hist_entry))) : pm scored :=
  let user_id := tx_user_id t in
  let history := history_for t user_history in
  features ← features_for e t history;
  '(is_fraud, probability, explanation) ← predict features;
  risk_score ← lift (_calculate_risk_score features probability);
  let risk_level := _determine_risk_level risk_score in
  let result :=
    {| r_transaction_id := transaction_id i t;
       r_user_id := user_id;
       r_amount := tx_amount t;
       r_timestamp := match tx_timestamp t with
                      | Some ts => Given ts
                      | None => NowIso (now e)
                      end;
       r_prediction := {| p_is_fraud := is_fraud;
                          p_probability := probability;
                          p_confidence := Qmin (probability * 100) 100 |};
       r_risk_assessment := {| ra_score := risk_score;
                               ra_level := risk_level;
                               ra_factors := ex_risk_factors explanation |};
       r_explanation := explanation;
       r_recommended_action := _get_recommended_action is_fraud risk_level;
       r_features := _sanitize_features features;
       r_anomaly_detection := None |} in
  det ← self anomaly_detector;
  loaded ← self model_loaded;
  mret match det with
       | Some d =>
           if loaded : bool then
             match _features_to_array features with
             | Some feature_array =>
                 match detect d feature_array with
                 | Ok a => with_anomaly result a
                 | Raise _ => result
                 end
             | None => result
             end
           else result
       | None => result
       end.

(** The loop of [predict_batch]: [results] is the list built so far, [i]
    the index of the next transaction. *)
Fixpoint batch_loop (e : env) (i : nat) (transactions : list transaction)
    (user_history : option (gmap string (list hist_entry)))
    (results : list batch_entry) : pm (list batch_entry) :=
  match transactions with
  | [] => mret results
  | t :: rest =>
      r ← try_except
             (r ← score_transaction e i t user_history; mret (Scored r))
             (fun ex => mret (Failed (transaction_id i t) (exn_str ex)));
      batch_loop e (S i) rest user_history (append results r)
  end.

Definition predict_batch (e : env) (transactions : list transaction)
    (user_history : option (gmap string (list hist_entry))) : pm (list batch_entry) :=
  batch_loop e 0 transactions user_history [].

End Predictor.

(** ** Model persistence

    The file system holds files and directories under the path strings
    the program uses.  A file that [pickle.dump] has written is taken to
    be readable by the process, and [pickle.load] to give the dumped
    object back; any other file is one that cannot be loaded. *)

Module Persistence.

(** What a file holds: the pickle of an object, or bytes that
    [open(path, 'rb')] or [pickle.load] refuses, with the exception they
    raise. *)
Inductive content : Type :=
| Pickled (obj : pyobj)
| Unloadable (why : exn).

(** The file system as the process sees it, keyed by the paths the
    program uses: the files, the directories (a root apart), the paths the
    process may create or open for writing, and the exception of
    [pickle.dump] for an object it cannot serialize. *)
Record filesystem : Type := {
  files : gmap string content;
  dirs : gset string;
  writable : string -> bool;
  pickle_error : pyobj -> option exn
}.

Definition set_file (path : string) (c : content) (fs : filesystem) : filesystem :=
  {| files := <[ path := c ]> (files fs); dirs := dirs fs;
     writable := writable fs; pickle_error := pickle_error fs |}.

Definition add_dir (name : string) (fs : filesystem) : filesystem :=
  {| files := files fs; dirs := {[ name ]} ∪ dirs fs;
     writable := writable fs; pickle_error := pickle_error fs |}.

Fixpoint drop_while {A} (f : A -> bool) (l : list A) : list A :=
  match l with
  | [] => []
  | x :: r => if f x then drop_while f r else l
  end.

Definition is_sep (c : ascii) : bool := Ascii.eqb c "/".

(** [os.path.dirname] *)
Definition dirname (p : string) : string :=
  let head := drop_while (fun c => negb (is_sep c)) (rev (list_ascii_of_string p)) in
  let head := if forallb is_sep head then head else drop_while is_sep head in
  string_of_list_ascii (rev head).

(** A root is its own [dirname]. *)
Definition is_root (name : string) : bool :=
  negb (String.eqb name "") && String.eqb (dirname name) name.

Definition is_file (fs : filesystem) (path : string) : bool :=
  bool_decide (is_Some (files fs !! path)).

(** [os.path.isdir] and [os.path.exists] *)
Definition is_dir (fs : filesystem) (path : string) : bool :=
  is_root path || bool_decide (path ∈ dirs fs).

Definition path_exists (fs : filesystem) (path : string) : bool :=
  is_file fs path || is_dir fs path.

(** The directories [os.makedirs(name)] has to find or make, the
    outermost first: [name] after those of its [dirname]. *)
Fixpoint lineage (fuel : nat) (name : string) : list string :=
  match fuel with
  | O => []
  | S fuel =>
      if String.eqb name "" || is_root name then []
      else (lineage fuel (dirname name) ++ [name])%list
  end.

(** [os.mkdir] down the lineage: a directory that exists is passed, a
    file in the way or a directory that may not be created raises, and
    the directories made before stay. *)
Fixpoint mkdirs (fs : filesystem) (names : list string) : res unit * filesystem :=
  match names with
  | [] => (Ok tt, fs)
  | name :: rest =>
      if bool_decide (name ∈ dirs fs) then mkdirs fs rest
      else if is_file fs name then
        (Raise (OSError ("[Errno 17] File exists: '" +:+ name +:+ "'")), fs)
      else if writable fs name then mkdirs (add_dir name fs) rest
      else (Raise (OSError ("[Errno 13] Permission denied: '" +:+ name +:+ "'")), fs)
  end.

(** [os.makedirs(name, exist_ok=True)] refuses the empty name. *)
Definition makedirs (fs : filesystem) (name : string) : res unit * filesystem :=
  if String.eqb name "" then
    (Raise (FileNotFoundError "[Errno 2] No such file or directory: ''"), fs)
  else mkdirs fs (lineage (S (String.length name)) name).

(** [with open(path, 'wb') as f: pickle.dump(obj, f)].  Opening needs the
    directory of the path and truncates the file; a dump that raises
    leaves the empty file behind. *)
Definition dump (fs : filesystem) (path : string) (obj : pyobj)
    : res unit * filesystem :=
  if is_dir fs path then
    (Raise (OSError ("[Errno 21] Is a directory: '" +:+ path +:+ "'")), fs)
  else if negb (String.eqb (dirname path) "" || is_dir fs (dirname path)) then
    (Raise (FileNotFoundError
              ("[Errno 2] No such file or directory: '" +:+ path +:+ "'")), fs)
  else if negb (writable fs path) then
    (Raise (OSError ("[Errno 13] Permission denied: '" +:+ path +:+ "'")), fs)
  else
    match pickle_error fs obj with
    | Some ex => (Raise ex, set_file path (Unloadable (EOFError "Ran out of input")) fs)
    | None => (Ok tt, set_file path (Pickled obj) fs)
    end.

(** [with open(path, 'rb') as f: pickle.load(f)] *)
Definition load (fs : filesystem) (path : string) : res pyobj :=
  match files fs !! path with
  | Some (Pickled obj) => Ok obj
  | Some (Unloadable why) => Raise why
  | None =>
      if is_dir fs path then
        Raise (OSError ("[Errno 21] Is a directory: '" +:+ path +:+ "'"))
      else
        Raise (FileNotFoundError
                 ("[Errno 2] No such file or directory: '" +:+ path +:+ "'"))
  end.

Definition set_model (m : option pyobj) (s : predictor) : predictor :=
  {| config := config s; model := m; model_loaded := model_loaded s;
     model_path := model_path s; feature_extractor := feature_extractor s;
     anomaly_detector := anomaly_detector s |}.

Definition set_model_loaded (b : bool) (s : predictor) : predictor :=
  {| config := config s; model := model s; model_loaded := b;
     model_path := model_path s; feature_extractor := feature_extractor s;
     anomaly_detector := anomaly_detector s |}.

Definition set_model_path (p : string) (s : predictor) : predictor :=
  {| config := config s; model := model s; model_loaded := model_loaded s;
     model_path := Some p; feature_extractor := feature_extractor s;
     anomaly_detector := anomaly_detector s |}.

(** [FraudPredictor.load_model] *)
Definition load_model (fs : filesystem) (path : string) : pm bool :=
  try_except
    (obj ← lift (load fs path);
     _ ← assign (set_model (Some obj));
     _ ← assign (set_model_loaded true);
     _ ← assign (set_model_path path);
     mret true)
    (fun _ => _ ← assign (set_model_loaded false); mret false).

(** [FraudPredictor.save_model]: the answer and the file system after. *)
Definition save_model (fs : filesystem) (path : string) : pm (bool * filesystem) :=
  m ← self model;
  match m with
  | None => mret (false, fs)
  | Some obj =>
      match makedirs fs (dirname path) with
      | (Ok _, fs) =>
          match dump fs path obj with
          | (Ok _, fs) => mret (true, fs)
          | (Raise _, fs) => mret (false, fs)
          end
      | (Raise _, fs) => mret (false, fs)
      end
  end.

(** *** [FraudModelTrainer] *)

Record best_model : Type := {
  bm_model_type : string;
  bm_model : classifier;
  bm_feature_names : list string;
  bm_trained_at : Q;
  bm_model_path : string
}.

Record trainer : Type := {
  t_config : pyval;
  t_models : gmap string classifier;
  t_best_model : option best_model
}.

(** [FraudModelTrainer._save_model] *)
Definition _save_model (e : env) (tr : trainer) (fs : filesystem)
    (model : classifier) (path : string) (feature_names : list string)
    : bool * filesystem :=
  match makedirs fs (dirname path) with
  | (Ok _, fs) =>
      let model_info :=
        {| mi_model := model;
           mi_feature_names := feature_names;
           mi_trained_at := now e;
           mi_model_type := clf_type_name model;
           mi_config := t_config tr |} in
      match dump fs path (ObjModelInfo model_info) with
      | (Ok _, fs) => (true, fs)
      | (Raise _, fs) => (false, fs)
      end
  | (Raise _, fs) => (false, fs)
  end.

(** What [FraudModelTrainer.load_model] returns. *)
Inductive load_result : Type :=
| Loaded (model_type : string) (feature_names : list string)
         (trained_at : Q) (model : classifier)
| LoadError (error : string).

(** [FraudModelTrainer.load_model] *)
Definition trainer_load_model (fs : filesystem) (path : string) (tr : trainer)
    : load_result * trainer :=
  match (obj ← load fs path;
         match obj with
         | ObjModelInfo model_info => Ok model_info
         | ObjClassifier c =>
             Raise (TypeError ("'" +:+ clf_type_name c
                               +:+ "' object is not subscriptable"))
         end) with
  | Ok model_info =>
      let model := mi_model model_info in
      let feature_names := mi_feature_names model_info in
      let trained_at := mi_trained_at model_info in
      let model_type := mi_model_type model_info in
      (Loaded model_type feature_names trained_at model,
       {| t_config := t_config tr;
          t_models := <[ model_type := model ]> (t_models tr);
          t_best_model := Some {| bm_model_type := model_type;
                                  bm_model := model;
                                  bm_feature_names := feature_names;
                                  bm_trained_at := trained_at;
                                  bm_model_path := path |} |})
  | Raise ex => (LoadError (exn_str ex), tr)
  end.

End Persistence.

(** ** Sample inputs *)

Module Samples.

Import Predictor Persistence.

Definition empty_tx : transaction :=
  {| tx_id := None; tx_user_id := None; tx_amount := None;
     tx_is_first := None; tx_daily_count := None; tx_payment_method := None;
     tx_timestamp := None; tx_device_info := None;
     tx_ip_address := None; tx_session_duration := None |}.

(** The clock at 1970-01-12 13:46:40 UTC, local time being UTC. *)
Definition utc : env :=
  {| now := 1000000; utc_offset := 0; to_datetime := fun _ => Ok tt |}.

(** amount 999.99, first transaction, a 45 s session, at 02:00 local time. *)
Definition night_tx : transaction :=
  {| tx_id := None; tx_user_id := None; tx_amount := Some (99999 # 100);
     tx_is_first := Some true; tx_daily_count := None; tx_payment_method := None;
     tx_timestamp := Some (TsNum 7200); tx_device_info := None;
     tx_ip_address := None; tx_session_duration := Some 45%Q |}.

(** Three earlier transactions of the user: two completed, one failed. *)
Definition sample_history : list hist_entry :=
  [ {| h_amount := Some 50%Q; h_timestamp := Some (TsNum 996400);
       h_status := Some "completed" |};
    {| h_amount := Some 75%Q; h_timestamp := Some (TsNum 992800);
       h_status := Some "completed" |};
    {| h_amount := Some 1000%Q; h_timestamp := Some (TsNum 989200);
       h_status := Some "failed" |} ].

(** The features of [night_tx] for a first-time user and for a user with
    [sample_history]. *)
Definition features_of (h : option (list hist_entry)) : featmap :=
  match FeatureExtractor.extract_features utc night_tx h with
  | Ok fs => fs
  | Raise _ => ∅
  end.

Definition unfitted : detector :=
  {| is_fitted := false;
     det_detect := fun _ => Raise (ValueError "not fitted") |}.

(** A predictor constructed where no artifact is found. *)
Definition no_model : predictor :=
  {| config := default_config; model := None; model_loaded := false;
     model_path := None; feature_extractor := true;
     anomaly_detector := Some unfitted |}.

(** What the batch scoring of [night_tx] alone, without history, gives
    when no model is loaded. *)
Definition night_scored : option scored :=
  match fst (predict_batch utc [night_tx] None no_model) with
  | Ok [Scored r] => Some r
  | _ => None
  end.

(** A classifier whose inference fails on every frame. *)
Definition broken_clf : classifier :=
  {| clf_type_name := "RandomForestClassifier";
     clf_predict_proba :=
       Some (fun _ => Raise (LibraryError "X has 13 features, but the classifier is expecting 20"));
     clf_predict :=
       fun _ => Raise (LibraryError "X has 13 features, but the classifier is expecting 20") |}.

(** A classifier that answers 0.9 for every frame. *)
Definition steady_clf : classifier :=
  {| clf_type_name := "LogisticRegression";
     clf_predict_proba := Some (fun _ => Ok (9 # 10));
     clf_predict := fun _ => Ok (VNpInt 1) |}.

Definition with_model (c : classifier) : predictor :=
  {| config := default_config; model := Some (ObjClassifier c);
     model_loaded := true; model_path := Some "models/fraud_model.pkl";
     feature_extractor := true; anomaly_detector := Some unfitted |}.

(** An empty file system where every path can be written. *)
Definition empty_fs : filesystem :=
  {| files := ∅; dirs := ∅; writable := fun _ => true;
     pickle_error := fun _ => None |}.

(** Two trainers that differ in their configuration. *)
Definition tuned_trainer : trainer :=
  {| t_config := VDict [("test_size", VFloat (3 # 10)); ("random_state", VInt 7)];
     t_models := ∅; t_best_model := None |}.

Definition fresh_trainer : trainer :=
  {| t_config := VDict [("test_size", VFloat (2 # 10)); ("random_state", VInt 42)];
     t_models := ∅; t_best_model := None |}.

End Samples.


(** ** Notions used in the statements *)

Module Spec.

Import Predictor.

(** [pattern in text] holds exactly when [text] splits around [pattern]. *)
Definition substring_of (pattern text : string) : Prop :=
  exists before after, text = before +:+ pattern +:+ after.

(** The entry of the sanitized dictionary made from one entry. *)
Definition sanitized_entry (key : string) (value : pyval) : option pyval :=
  if is_complex value then None
  else if is_sensitive key then Some (VStr "[REDACTED]")
  else Some (item value).

(** What the [try]/[except] of the batch loop appends for transaction [t]
    at index [i]. *)
Definition entry_of e uh (p : predictor) (i : nat) (t : transaction) : batch_entry :=
  match fst (score_transaction e i t uh p) with
  | Ok r => Scored r
  | Raise ex => Failed (transaction_id i t) (exn_str ex)
  end.

(** The multipliers of the risk score. *)
Definition amount_multiplier (amount : Q) : Q :=
  if Qgtb amount 1000 then 12 # 10
  else if Qgtb amount 500 then 11 # 10
  else 1.

Definition first_multiplier (first : bool) : Q :=
  if first then 13 # 10 else 1.


(** Two predictors that differ at most in the recorded [model_path]. *)
Definition same_view (a b : predictor) : Prop :=
  config a = config b /\ model a = model b /\ model_loaded a = model_loaded b /\
  feature_extractor a = feature_extractor b /\
  anomaly_detector a = anomaly_detector b.

(** A method whose answer is the same for two such predictors. *)
Definition path_blind {A} (m : pm A) : Prop :=
  forall a b, same_view a b -> fst (m a) = fst (m b).

(** The lowercase form of an ASCII text: each of the 26 capital letters
    is replaced by its small letter, every other character is kept. *)
Definition lowercase_letter (c : ascii) : ascii :=
  match index 0 (String c "") "ABCDEFGHIJKLMNOPQRSTUVWXYZ" with
  | Some n => default c (String.get n "abcdefghijklmnopqrstuvwxyz")
  | None => c
  end.

Definition lowercase (s : string) : string :=
  string_of_list_ascii (map lowercase_letter (list_ascii_of_string s)).

(** A key is sensitive when its lowercase form contains one of the six
    patterns. *)
Definition sensitive (key : string) : Prop :=
  exists pattern,
    In pattern ["password"; "token"; "secret"; "key"; "cvv"; "pin"] /\
    substring_of pattern (lowercase key).

(** The plain Python value of a numpy scalar; any other value is itself. *)
Definition plain_value (value : pyval) : pyval :=
  match value with
  | VNpFloat q => VFloat q
  | VNpInt z => VInt z
  | VNpBool b => VBool b
  | VNpSym t => VFloatSym t
  | _ => value
  end.

(** The behaviour features [extract_features] merges in, none for an
    empty or absent history. *)
Definition behavior_features (e : env) (t : transaction)
    (h : option (list hist_entry)) : res featmap :=
  match h with
  | None | Some [] => Ok ∅
  | Some history => FeatureExtractor._extract_user_behavior_features e t history
  end.

(** The features before the derived ones are added. *)
Definition base_features (t : transaction) (behavior temporal : featmap) : featmap :=
  dupdate
    (dupdate
       (dupdate (dupdate ∅ (FeatureExtractor._extract_transaction_features t)) behavior)
       temporal)
    (FeatureExtractor._extract_technical_features t).

(** The derived dictionary for given outcomes of the six tests. *)
Definition weight (w : Z) (triggered : bool) : Z := if triggered then w else 0.

Definition composite (deviation velocity night short failures new_user : bool) : Z :=
  Z.min (weight 30 deviation + weight 25 velocity + weight 15 night
         + weight 20 short + weight 25 failures + weight 35 new_user) 100.

Definition derived_of (deviation velocity night short failures new_user : bool)
    : featmap :=
  <[ "composite_risk_score" :=
       VInt (composite deviation velocity night short failures new_user) ]>
  (<[ "new_user_high_amount" := FeatureExtractor.flag new_user ]>
  (<[ "high_failure_history" := FeatureExtractor.flag failures ]>
  (<[ "short_session_flag" := FeatureExtractor.flag short ]>
  (<[ "night_transaction" := FeatureExtractor.flag night ]>
  (<[ "high_hourly_velocity" := FeatureExtractor.flag velocity ]>
  (<[ "high_amount_deviation" := FeatureExtractor.flag deviation ]> ∅)))))).

(** The keys the prediction and explanation stages read, apart from the
    derived flags, and their values in a dictionary. *)
Definition read_keys : list string :=
  [ "amount_deviation_ratio"; "hourly_velocity"; "previous_failure_rate";
    "is_night_hours"; "short_session"; "is_first_transaction";
    "transaction_amount"; "hour_of_day"; "session_duration" ].

Definition reads (m : featmap) : list (option pyval) :=
  map (fun k => m !! k) read_keys.

(** The keys every extracted feature vector holds, among those the
    prediction and explanation stages read. *)
Definition always_present : list string :=
  [ "transaction_amount"; "is_first_transaction"; "hour_of_day";
    "is_night_hours"; "session_duration"; "short_session";
    "high_amount_deviation"; "high_hourly_velocity"; "night_transaction";
    "short_session_flag"; "high_failure_history"; "new_user_high_amount";
    "composite_risk_score" ].

(** The value a consumer reads for a key the dictionary lacks. *)
Definition neutral_defaults : list (string * pyval) :=
  [ ("amount_deviation_ratio", VInt 1); ("hourly_velocity", VInt 0);
    ("previous_failure_rate", VInt 0); ("is_night_hours", VInt 0);
    ("short_session", VInt 0); ("is_first_transaction", VBool false);
    ("transaction_amount", VInt 0); ("hour_of_day", VInt 0);
    ("session_duration", VInt 0); ("high_amount_deviation", VInt 0);
    ("high_hourly_velocity", VInt 0); ("night_transaction", VInt 0);
    ("short_session_flag", VInt 0); ("high_failure_history", VInt 0);
    ("new_user_high_amount", VInt 0); ("device_anomaly", VInt 0) ].

Definition is_night (dt : datetime) : bool :=
  (0 <=? dt_hour dt) && (dt_hour dt <? 6).

End Spec.
Import Spec.

(** ** Constructing a predictor, and [predict_fraud] *)

Module Standalone.

Import Predictor Persistence.

(** What the import at the head of [predict.py] has bound: the second
    class is imported after the first, in one [try]. *)
Inductive imported : Type :=
| NoComponent
| ExtractorOnly
| BothComponents.

(** Where the module runs: the classes it could import and
    [os.path.dirname(__file__)]. *)
Record installation : Type := {
  components : imported;
  module_dir : string
}.

Definition ends_with_sep (a : string) : bool :=
  match rev (list_ascii_of_string a) with
  | c :: _ => is_sep c
  | [] => false
  end.

(** [os.path.join(a, b)] for a relative [b] *)
Definition path_join (a b : string) : string :=
  if String.eqb a "" then b
  else if ends_with_sep a then a +:+ b
  else a +:+ "/" +:+ b.

Definition default_paths (inst : installation) : list string :=
  [ path_join (path_join (module_dir inst) "models") "fraud_model.pkl";
    path_join (module_dir inst) "fraud_model.pkl";
    "fraud_model.pkl" ].

(** [AnomalyDetector()]: an isolation forest that has not been trained. *)
Definition new_detector : detector :=
  {| is_fitted := false;
     det_detect := fun _ =>
       Raise (LibraryError "This StandardScaler instance is not fitted yet.") |}.

Definition set_feature_extractor (b : bool) (s : predictor) : predictor :=
  {| config := config s; model := model s; model_loaded := model_loaded s;
     model_path := model_path s; feature_extractor := b;
     anomaly_detector := anomaly_detector s |}.

Definition set_anomaly_detector (d : option detector) (s : predictor) : predictor :=
  {| config := config s; model := model s; model_loaded := model_loaded s;
     model_path := model_path s; feature_extractor := feature_extractor s;
     anomaly_detector := d |}.

(** The loop over the default paths: the first that exists is loaded. *)
Fixpoint load_first (fs : filesystem) (paths : list string) : pm unit :=
  match paths with
  | [] => mret tt
  | path :: rest =>
      if path_exists fs path then _ ← load_model fs path; mret tt
      else load_first fs rest
  end.

(** [_initialize_components] *)
Definition _initialize_components (inst : installation) (fs : filesystem)
    (model_path : option string) : pm unit :=
  _ ← match components inst with
      | NoComponent => mret tt       (* [NameError], caught *)
      | _ => assign (set_feature_extractor true)
      end;
  _ ← match components inst with
      | BothComponents => assign (set_anomaly_detector (Some new_detector))
      | _ => mret tt                 (* [NameError], caught *)
      end;
  match model_path with
  | Some path =>
      if negb (String.eqb path "") && path_exists fs path
      then _ ← load_model fs path; mret tt
      else load_first fs (default_paths inst)
  | None => load_first fs (default_paths inst)
  end.

(** [FraudPredictor(model_path)]: [__init__] with the default
    configuration. *)
Definition FraudPredictor (inst : installation) (fs : filesystem)
    (model_path : option string) : predictor :=
  let s := {| config := default_config; model := None; model_loaded := false;
              model_path := None; feature_extractor := false;
              anomaly_detector := None |} in
  snd (_initialize_components inst fs model_path s).

(** What [predict_fraud] returns: the entry of the batch, or the
    dictionary with ['error': 'Prediction failed']. *)
Inductive fraud_result : Type :=
| Result (r : scored)
| PredictionFailed (transaction_id : string).

(** [predict_fraud] *)
Definition predict_fraud (e : env) (inst : installation) (fs : filesystem)
    (transaction : transaction) (user_history : option (list hist_entry))
    : res fraud_result :=
  let predictor := FraudPredictor inst fs None in
  let histories : gmap string (list hist_entry) :=
    {[ default "unknown" (tx_user_id transaction) := default [] user_history ]} in
  results ← fst (predict_batch e [transaction] (Some histories) predictor);
  Ok match results with
     | Scored r :: _ => Result r
     | _ => PredictionFailed (default "unknown" (tx_id transaction))
     end.

End Standalone.

(** ** The anomaly detector ([AnomalyDetector]) *)

Module Anomaly.

(** [calculate_risk_level]; [threshold] is the attribute that [train]
    sets, absent before. *)
Definition calculate_risk_level (threshold : option Q) (score : Q) : res string :=
  match threshold with
  | None =>
      Raise (AttributeError "'AnomalyDetector' object has no attribute 'threshold'")
  | Some threshold =>
      Ok (if Qltb score (threshold - 1) then "CRITICAL"
          else if Qltb score (threshold - (5 # 10)) then "HIGH"
          else if Qltb score threshold then "MEDIUM"
          else if Qltb score (threshold + (5 # 10)) then "LOW"
          else "NORMAL")
  end.

End Anomaly.

(** ** The training report ([FraudModelTrainer.generate_training_report]) *)

Module Report.

(** An entry of [training_history], as [train] appends it: the metrics of
    [_calculate_metrics] ([roc_auc] only when the model gave
    probabilities), and the names in [feature_importance], which is
    [None] for a model without [feature_importances_]. *)
Record training : Type := {
  tr_model_type : string;
  tr_roc_auc : option Q;
  tr_accuracy : Q;
  tr_precision : Q;
  tr_recall : Q;
  tr_trained_at : Q;
  tr_fraud_ratio : Q;
  tr_feature_importance : option (list string)
}.

Record best_summary : Type := {
  bs_model_type : string;
  bs_roc_auc : Q;
  bs_accuracy : Q;
  bs_trained_at : Q
}.

Record comparison : Type := {
  cmp_model_type : string;
  cmp_roc_auc : Q;
  cmp_accuracy : Q;
  cmp_precision : Q;
  cmp_recall : Q;
  cmp_trained_at : Q
}.

Record report : Type := {
  rp_generated_at : Q;
  rp_total_trainings : nat;
  rp_best_model : option best_summary;
  rp_model_comparison : list comparison;
  rp_recommendations : list string;     (* the priorities *)
  rp_top_features : option (list string)
}.

Inductive report_result : Type :=
| NoHistory                              (* ['success': False] *)
| Report (r : report).

Definition roc_auc (t : training) : Q := default 0%Q (tr_roc_auc t).

(** The loop that finds the best training. *)
Definition find_best (history : list training) : Q * option training :=
  fold_left
    (fun '(best_roc_auc, best_training) training =>
       if Qgtb (roc_auc training) best_roc_auc
       then (roc_auc training, Some training)
       else (best_roc_auc, best_training))
    history (0%Q, None).

(** [generate_training_report] *)
Definition generate_training_report (e : env) (training_history : list training)
    : res report_result :=
  match training_history with
  | [] => Ok NoHistory
  | _ =>
      let best_training := snd (find_best training_history) in
      best_model ←
        match best_training with
        | Some b =>
            match tr_roc_auc b with
            | Some roc =>
                Ok (Some {| bs_model_type := tr_model_type b;
                            bs_roc_auc := roc;
                            bs_accuracy := tr_accuracy b;
                            bs_trained_at := tr_trained_at b |})
            | None => Raise (KeyError "roc_auc")
            end
        | None => Ok None
        end;
      let model_comparison :=
        map (fun t => {| cmp_model_type := tr_model_type t;
                         cmp_roc_auc := roc_auc t;
                         cmp_accuracy := tr_accuracy t;
                         cmp_precision := tr_precision t;
                         cmp_recall := tr_recall t;
                         cmp_trained_at := tr_trained_at t |})
            training_history in
      let recommendations : list string :=
        match best_model with
        | Some b => if Qltb (bs_roc_auc b) (8 # 10) then ["HIGH"] else []
        | None => []
        end in
      let recommendations :=
        match best_training with
        | Some b =>
            if Qltb (tr_fraud_ratio b) (1 # 10)
            then (recommendations ++ ["MEDIUM"])%list else recommendations
        | None => recommendations
        end in
      top_features ←
        match best_training with
        | Some b =>
            match tr_feature_importance b with
            | Some names => Ok (Some (take 5 names))
            | None => Raise (TypeError "'NoneType' object is not subscriptable")
            end
        | None => Ok None
        end;
      Ok (Report {| rp_generated_at := now e;
                    rp_total_trainings := length training_history;
                    rp_best_model := best_model;
                    rp_model_comparison := model_comparison;
                    rp_recommendations := recommendations;
                    rp_top_features := top_features |})
  end.

End Report.

(** ** Further notions used in the statements *)

Module SpecMore.

Import Predictor Persistence Standalone.

(** How severe a recommended action is. *)
Definition action_rank (a : string) : nat :=
  if String.eqb a "BLOCK" then 3
  else if String.eqb a "REVIEW" then 2
  else if String.eqb a "MONITOR" then 1
  else 0.

(** The action recommended for a fraud verdict and a risk score. *)
Definition action_for (is_fraud : bool) (risk_score : Q) : string :=
  act_action (_get_recommended_action is_fraud (_determine_risk_level risk_score)).


(** The keys read by the rules, the risk score and the explanation, and
    what an extracted feature vector holds there. *)
Definition consumer_keys : list string :=
  [ "amount_deviation_ratio"; "hourly_velocity"; "previous_failure_rate";
    "is_night_hours"; "short_session"; "is_first_transaction";
    "transaction_amount"; "hour_of_day"; "session_duration";
    "high_amount_deviation"; "high_hourly_velocity"; "night_transaction";
    "short_session_flag"; "high_failure_history"; "new_user_high_amount";
    "composite_risk_score"; "device_anomaly" ].

Definition consumer_values (r v f : option pyval) (dt : datetime) (t : transaction)
    (ratio velocity failure_rate : Q) : list (option pyval) :=
  let night := is_night dt in
  let short := Qltb (FeatureExtractor.qnum (tx_session_duration t)) 60 in
  let deviation := Qgtb ratio 3 in
  let fast := Qgtb velocity 5 in
  let failures := Qgtb failure_rate (3 # 10) in
  let new_user :=
    default false (tx_is_first t)
    && Qgtb (FeatureExtractor.qnum (tx_amount t)) 100 in
  [ r; v; f; Some (FeatureExtractor.flag night); Some (FeatureExtractor.flag short);
    Some (VBool (default false (tx_is_first t)));
    Some (FeatureExtractor.vnum (tx_amount t)); Some (VInt (dt_hour dt));
    Some (FeatureExtractor.vnum (tx_session_duration t));
    Some (FeatureExtractor.flag deviation); Some (FeatureExtractor.flag fast);
    Some (FeatureExtractor.flag night); Some (FeatureExtractor.flag short);
    Some (FeatureExtractor.flag failures); Some (FeatureExtractor.flag new_user);
    Some (VInt (composite deviation fast night short failures new_user));
    None ].

(** The tags of the explanation for given outcomes of the six tests. *)
Definition triggered_tags (deviation fast night short failures new_user : bool)
    : list string :=
  ((if deviation then ["HIGH_AMOUNT_DEVIATION"] else [])
   ++ (if fast then ["HIGH_TRANSACTION_VELOCITY"] else [])
   ++ (if night then ["NIGHT_TRANSACTION"] else [])
   ++ (if short then ["SHORT_SESSION"] else [])
   ++ (if failures then ["HIGH_FAILURE_HISTORY"] else [])
   ++ (if new_user then ["NEW_USER_HIGH_AMOUNT"] else []))%list.

(** Two predictors that differ at most in the anomaly detector and the
    remembered path, and a method whose answer is the same for both. *)
Definition same_scoring_view (a b : predictor) : Prop :=
  config a = config b /\ model a = model b /\ model_loaded a = model_loaded b /\
  feature_extractor a = feature_extractor b.

Definition detector_blind {A} (m : pm A) : Prop :=
  forall a b, same_scoring_view a b -> fst (m a) = fst (m b).

(** A scored transaction without its [anomaly_detection] entry. *)
Definition forget_anomaly (r : scored) : scored :=
  {| r_transaction_id := r_transaction_id r; r_user_id := r_user_id r;
     r_amount := r_amount r; r_timestamp := r_timestamp r;
     r_prediction := r_prediction r; r_risk_assessment := r_risk_assessment r;
     r_explanation := r_explanation r;
     r_recommended_action := r_recommended_action r;
     r_features := r_features r; r_anomaly_detection := None |}.

(** What [extract_features] does once the history has been read: it
    raises exactly when the timestamp of the transaction is refused. *)
Definition outcome_after_history (e : env) (t : transaction)
    (h : option (list hist_entry)) : Prop :=
  match fromtimestamp e (default (TsNum (now e)) (tx_timestamp t)) with
  | Ok _ => exists fs, FeatureExtractor.extract_features e t h = Ok fs
  | Raise ex => FeatureExtractor.extract_features e t h = Raise ex
  end.

(** The history [predict_fraud] scores a transaction with. *)
Definition supplied_history (t : transaction) (user_history : option (list hist_entry))
    : list hist_entry :=
  match tx_user_id t with
  | Some uid => if String.eqb uid "" then [] else default [] user_history
  | None => []
  end.

(** How severe the risk level of an anomaly score is. *)
Definition anomaly_rank (level : string) : nat :=
  if String.eqb level "CRITICAL" then 4
  else if String.eqb level "HIGH" then 3
  else if String.eqb level "MEDIUM" then 2
  else if String.eqb level "LOW" then 1
  else 0.

(** A history has a column when some entry has the key. *)
Definition has_column {A} (f : hist_entry -> option A) (history : list hist_entry)
    : bool :=
  existsb (fun h => bool_decide (is_Some (f h))) history.

End SpecMore.
Import SpecMore.

(** ** Further sample inputs *)

Module MoreSamples.

Import Predictor Persistence Standalone.

(** A predictor that holds neither a model nor a feature extractor. *)
Definition bare : predictor :=
  {| config := default_config; model := None; model_loaded := false;
     model_path := None; feature_extractor := false;
     anomaly_detector := None |}.

Definition blank_explanation : explanation :=
  {| ex_method := None; ex_factors := None; ex_contributions := None;
     ex_risk_factors := []; ex_risk_score := None; ex_rules_applied := None;
     ex_confidence := 0; ex_summary := None |}.

Definition blank_scored : scored :=
  {| r_transaction_id := ""; r_user_id := None; r_amount := None;
     r_timestamp := NowIso 0;
     r_prediction := {| p_is_fraud := false; p_probability := 0;
                        p_confidence := 0 |};
     r_risk_assessment := {| ra_score := 0; ra_level := ""; ra_factors := [] |};
     r_explanation := blank_explanation;
     r_recommended_action := _get_recommended_action false "";
     r_features := ∅; r_anomaly_detection := None |}.

(** What [bare] makes of [Samples.night_tx]. *)
Definition bare_scored : scored :=
  match fst (score_transaction Samples.utc 0 Samples.night_tx None bare) with
  | Ok r => r
  | Raise _ => blank_scored
  end.

(** Features with the night flag alone, and their explanation. *)
Definition flagged : featmap := {[ "night_transaction" := VInt 1 ]}.

Definition flagged_explanation : explanation :=
  match explain_prediction flagged (1 # 2) with
  | Ok x => x
  | Raise _ => blank_explanation
  end.

(** amount 50 at 12:00 local time after a session of two minutes. *)
Definition quiet_tx : transaction :=
  {| tx_id := None; tx_user_id := None; tx_amount := Some 50%Q;
     tx_is_first := None; tx_daily_count := None; tx_payment_method := None;
     tx_timestamp := Some (TsNum 43200); tx_device_info := None;
     tx_ip_address := None; tx_session_duration := Some 120%Q |}.

Definition quiet_features : featmap :=
  match FeatureExtractor.extract_features Samples.utc quiet_tx (Some []) with
  | Ok fs => fs
  | Raise _ => ∅
  end.

Definition noon : datetime :=
  {| dt_year := 1970; dt_month := 1; dt_day := 1; dt_hour := 12;
     dt_weekday := 3 |}.

(** The transaction of the example in [predict.py]: its timestamp is the
    text of [datetime.now().isoformat()]. *)
Definition text_tx : transaction :=
  {| tx_id := Some "test_txn_1"; tx_user_id := Some "user_123";
     tx_amount := Some (99999 # 100);
     tx_is_first := None; tx_daily_count := None;
     tx_payment_method := Some "credit_card";
     tx_timestamp := Some (TsStr "1970-01-12T13:46:40" (Some 1000000%Q));
     tx_device_info := Some {| dev_type := Some "mobile";
                               dev_browser := Some "chrome";
                               dev_os := Some "android" |};
     tx_ip_address := Some "192.168.1.100";
     tx_session_duration := Some 45%Q |}.

(** The latest entry of [Samples.sample_history]. *)
Definition latest : hist_entry :=
  {| h_amount := Some 50%Q; h_timestamp := Some (TsNum 996400);
     h_status := Some "completed" |}.

(** Features with capital letters in sensitive keys, numpy scalars, a
    list and a dictionary, and their sanitized copy. *)
Definition mixed_features : featmap :=
  <[ "User_PASSWORD" := VStr "hunter2" ]>
  (<[ "apiKey" := VInt 7 ]>
  (<[ "amount_log" := VNpFloat (5 # 2) ]>
  (<[ "count" := VNpInt 3 ]>
  (<[ "is_new" := VNpBool true ]>
  (<[ "tags" := VList [VInt 1] ]>
  (<[ "device" := VDict [("type", VStr "mobile")] ]>
  (<[ "amount" := VFloat 10 ]> ∅))))))).

Definition mixed_sanitized : featmap :=
  <[ "User_PASSWORD" := VStr "[REDACTED]" ]>
  (<[ "apiKey" := VStr "[REDACTED]" ]>
  (<[ "amount_log" := VFloat (5 # 2) ]>
  (<[ "count" := VInt 3 ]>
  (<[ "is_new" := VBool true ]>
  (<[ "amount" := VFloat 10 ]> ∅))))).

(** A history without amounts for the user of [text_tx], a transaction
    without id whose timestamp is a text, and a batch of three. *)
Definition amountless : gmap string (list hist_entry) :=
  {[ "user_123" := [ {| h_amount := None; h_timestamp := None;
                        h_status := Some "completed" |} ] ]}.

Definition unnamed_text_tx : transaction :=
  {| tx_id := None; tx_user_id := None; tx_amount := Some 20%Q;
     tx_is_first := None; tx_daily_count := None; tx_payment_method := None;
     tx_timestamp := Some (TsStr "yesterday" None); tx_device_info := None;
     tx_ip_address := None; tx_session_duration := None |}.

Definition mixed_batch : list transaction :=
  [ Samples.night_tx; text_tx; unnamed_text_tx ].



(** A file system that holds an artifact, where nothing can be pickled. *)
Definition stale_fs : filesystem :=
  {| files := {[ "models/fraud_model.pkl" :=
                   Pickled (ObjClassifier Samples.steady_clf) ]};
     dirs := {[ "models" ]};
     writable := fun _ => true;
     pickle_error := fun _ => Some (PickleError "Can't pickle local object") |}.

(** An installation where both classes were imported. *)
Definition installed : installation :=
  {| components := BothComponents; module_dir := "/srv/ml-service/fraud" |}.

End MoreSamples.

(** * Properties *)

(** Equations between closed terms, settled by evaluation. *)
Ltac by_evaluation :=
  match goal with
  | |- ?x = ?y => exact (@eq_refl _ y <: x = y)
  end.

(** ** Comparisons and the error monad *)

Section Basics.

Lemma Qgtb_true (a b : Q) : Qgtb a b = true <-> (b < a)%Q.
Proof.
  unfold Qgtb. rewrite negb_true_iff, <- not_true_iff_false, Qle_bool_iff.
  split; [apply Qnot_le_lt | apply Qlt_not_le].
Qed.

Lemma Qgeb_true (a b : Q) : Qgeb a b = true <-> (b <= a)%Q.
Proof. unfold Qgeb. apply Qle_bool_iff. Qed.

Lemma Qgeb_false (a b : Q) : Qgeb a b = false <-> (a < b)%Q.
Proof.
  unfold Qgeb. rewrite <- not_true_iff_false, Qle_bool_iff.
  split; [apply Qnot_le_lt | apply Qlt_not_le].
Qed.

Lemma Qltb_true (a b : Q) : Qltb a b = true <-> (a < b)%Q.
Proof.
  unfold Qltb. rewrite negb_true_iff, <- not_true_iff_false, Qle_bool_iff.
  split; [apply Qnot_le_lt | apply Qlt_not_le].
Qed.

Lemma py_gt_num (v : pyval) (q c : Q) :
  num_of v = Some q -> py_gt v c = Ok (Qgtb q c).
Proof. intros H. unfold py_gt. now rewrite H. Qed.

Lemma py_gt_ok (v : pyval) (c : Q) (b : bool) :
  py_gt v c = Ok b -> exists q, num_of v = Some q /\ b = Qgtb q c.
Proof.
  unfold py_gt. destruct (num_of v) as [q|]; [|discriminate].
  intros [= <-]. eauto.
Qed.

End Basics.

(** ** Sanitized features *)

Section Sanitize.

Import Predictor.

Lemma append_String (c : ascii) (a b : string) :
  String c a +:+ b = String c (a +:+ b).
Proof. reflexivity. Qed.

Lemma prefix_split (p s : string) :
  String.prefix p s = true <-> exists after, s = p +:+ after.
Proof.
  revert s. induction p as [|c p IH]; intros s.
  - destruct s; simpl; split; eauto.
  - destruct s as [|d s]; simpl.
    + split; [discriminate | intros [a Ha]; discriminate].
    + destruct (ascii_dec c d) as [->|Hne].
      * rewrite IH. split; intros [a Ha]; exists a;
          rewrite append_String in *; congruence.
      * split; [discriminate | intros [a Ha]; rewrite append_String in Ha; congruence].
Qed.

Lemma contains_spec (p s : string) :
  contains p s = true <-> substring_of p s.
Proof.
  unfold substring_of. induction s as [|d s IH]; cbn [contains].
  - rewrite orb_false_r, prefix_split. split.
    + intros [a Ha]. exists "", a. exact Ha.
    + intros [b [a Ha]]. destruct b; [eauto | discriminate].
  - rewrite orb_true_iff, prefix_split, IH. split.
    + intros [[a Ha] | [b [a Ha]]].
      * exists "", a. exact Ha.
      * exists (String d b), a. rewrite append_String. now rewrite Ha.
    + intros [b [a Ha]]. destruct b as [|d' b].
      * left. eauto.
      * right. exists b, a. rewrite append_String in Ha. congruence.
Qed.

Lemma lower_ascii_lowercase (c : ascii) : lower_ascii c = lowercase_letter c.
Proof.
  destruct c as [[] [] [] [] [] [] [] []]; vm_compute; reflexivity.
Qed.

Lemma lower_lowercase (key : string) : lower key = lowercase key.
Proof.
  unfold lowercase. induction key as [|c key IH]; [reflexivity|].
  cbn [lower list_ascii_of_string map string_of_list_ascii].
  now rewrite IH, lower_ascii_lowercase.
Qed.

Lemma is_sensitive_spec (key : string) :
  is_sensitive key = true <-> sensitive key.
Proof.
  unfold is_sensitive, sensitive. rewrite existsb_exists, <- lower_lowercase.
  split; intros [p [Hin H]]; exists p; split; auto; now apply contains_spec.
Qed.

Lemma item_plain_value (value : pyval) : item value = plain_value value.
Proof. now destruct value. Qed.

Lemma item_no_item (v : pyval) : has_item v = false -> item v = v.
Proof. now destruct v. Qed.

Lemma sanitize_lookup (features : featmap) (key : string) :
  _sanitize_features features !! key = features !! key ≫= sanitized_entry key.
Proof.
  unfold _sanitize_features.
  apply (map_fold_weak_ind
           (fun (r : featmap) (m : featmap) => r !! key = m !! key ≫= sanitized_entry key));
    clear features.
  { now rewrite !lookup_empty. }
  intros j y m r Hj IH. unfold sanitized_entry in *.
  rewrite (lookup_insert m). destruct (decide (j = key)) as [->|Hne]; simpl.
  - rewrite Hj in IH. simpl in IH.
    destruct (is_complex y); [exact IH|].
    destruct (is_sensitive key); [now rewrite lookup_insert_eq|].
    destruct (has_item y) eqn:Hi; rewrite lookup_insert_eq; [reflexivity|].
    now rewrite item_no_item.
  - destruct (is_complex y); [exact IH|].
    destruct (is_sensitive j); [now rewrite lookup_insert_ne|].
    destruct (has_item y); now rewrite lookup_insert_ne.
Qed.

End Sanitize.

(** ** Methods that only read the predictor *)

Section ReadOnly.

Import Predictor.

Lemma read_only_ret {A} (a : A) : read_only (mret a).
Proof. intros s. reflexivity. Qed.

Lemma read_only_self {A} (f : predictor -> A) : read_only (self f).
Proof. intros s. reflexivity. Qed.

Lemma read_only_lift {A} (r : res A) : read_only (lift r).
Proof. intros s. reflexivity. Qed.

Lemma read_only_raise {A} (e : exn) : read_only (@raise A e).
Proof. intros s. reflexivity. Qed.

Lemma read_only_bind {A B} (m : pm A) (k : A -> pm B) :
  read_only m -> (forall a, read_only (k a)) -> read_only (m ≫= k).
Proof.
  intros Hm Hk s. unfold mbind, pm_bind. specialize (Hm s).
  destruct (m s) as [[a|e] s']; simpl in *; subst; [apply Hk | reflexivity].
Qed.

Lemma read_only_try_except {A} (body : pm A) (handler : exn -> pm A) :
  read_only body -> (forall e, read_only (handler e)) ->
  read_only (try_except body handler).
Proof.
  intros Hb Hh s. unfold try_except. specialize (Hb s).
  destruct (body s) as [[a|e] s']; simpl in *; subst; [reflexivity | apply Hh].
Qed.

Ltac read_only_step :=
  first
    [ apply read_only_ret | apply read_only_self | apply read_only_lift
    | apply read_only_raise
    | apply read_only_bind; [|intros ?]
    | apply read_only_try_except; [|intros ?]
    | match goal with
      | |- read_only (match ?x with _ => _ end) => destruct x
      end ].

Ltac read_only_tac := repeat read_only_step.

Lemma config_threshold_read_only : read_only config_threshold.
Proof. unfold config_threshold. read_only_tac. Qed.

Lemma rule_based_read_only (features : featmap) :
  read_only (_rule_based_prediction features).
Proof.
  unfold _rule_based_prediction.
  repeat first [ apply config_threshold_read_only | read_only_step ].
Qed.

Lemma predict_read_only (features : featmap) : read_only (predict features).
Proof.
  unfold predict.
  repeat first [ apply config_threshold_read_only | apply rule_based_read_only
               | read_only_step ].
Qed.

Lemma features_for_read_only e t history : read_only (features_for e t history).
Proof. unfold features_for. read_only_tac. Qed.

Lemma score_transaction_read_only e i t uh :
  read_only (score_transaction e i t uh).
Proof.
  unfold score_transaction.
  repeat first [ apply predict_read_only | apply features_for_read_only
               | read_only_step ].
Qed.

(** The answers of the scoring methods do not depend on [model_path]. *)

Lemma path_blind_ret {A} (a : A) : path_blind (mret a).
Proof. intros s1 s2 _. reflexivity. Qed.

Lemma path_blind_lift {A} (r : res A) : path_blind (lift r).
Proof. intros s1 s2 _. reflexivity. Qed.

Lemma path_blind_raise {A} (e : exn) : path_blind (@raise A e).
Proof. intros s1 s2 _. reflexivity. Qed.

Lemma path_blind_self {A} (f : predictor -> A) :
  (forall a b, same_view a b -> f a = f b) -> path_blind (self f).
Proof. intros Hf a b Hab. cbn. f_equal. now apply Hf. Qed.

Lemma path_blind_bind {A B} (m : pm A) (k : A -> pm B) :
  read_only m -> path_blind m -> (forall x, path_blind (k x)) ->
  path_blind (m ≫= k).
Proof.
  intros Hro Hm Hk a b Hab. unfold mbind, pm_bind.
  pose proof (Hro a) as Ha. pose proof (Hro b) as Hb. specialize (Hm a b Hab).
  destruct (m a) as [ra sa], (m b) as [rb sb]; simpl in *; subst.
  destruct rb; [now apply Hk | reflexivity].
Qed.

Lemma path_blind_try_except {A} (body : pm A) (handler : exn -> pm A) :
  read_only body -> path_blind body -> (forall e, path_blind (handler e)) ->
  path_blind (try_except body handler).
Proof.
  intros Hro Hm Hk a b Hab. unfold try_except.
  pose proof (Hro a) as Ha. pose proof (Hro b) as Hb. specialize (Hm a b Hab).
  destruct (body a) as [ra sa], (body b) as [rb sb]; simpl in *; subst.
  destruct rb; [reflexivity | now apply Hk].
Qed.

Ltac read_only_known :=
  repeat first
    [ apply config_threshold_read_only | apply rule_based_read_only
    | apply predict_read_only | apply features_for_read_only
    | read_only_step ].

Ltac path_blind_step :=
  first
    [ apply path_blind_ret | apply path_blind_lift | apply path_blind_raise
    | apply path_blind_self; intros ? ? (? & ? & ? & ? & ?); assumption
    | apply path_blind_bind; [read_only_known | | intros ?]
    | apply path_blind_try_except; [read_only_known | | intros ?]
    | match goal with
      | |- path_blind (match ?x with _ => _ end) => destruct x
      end ].

Lemma config_threshold_path_blind : path_blind config_threshold.
Proof. unfold config_threshold. repeat path_blind_step. Qed.

Lemma rule_based_path_blind (features : featmap) :
  path_blind (_rule_based_prediction features).
Proof.
  unfold _rule_based_prediction.
  repeat first [ apply config_threshold_path_blind | path_blind_step ].
Qed.

Lemma predict_path_blind (features : featmap) : path_blind (predict features).
Proof.
  unfold predict.
  repeat first [ apply config_threshold_path_blind | apply rule_based_path_blind
               | path_blind_step ].
Qed.

Lemma score_transaction_path_blind e i t uh :
  path_blind (score_transaction e i t uh).
Proof.
  unfold score_transaction, features_for.
  repeat first [ apply predict_path_blind | path_blind_step ].
Qed.

Lemma batch_loop_spec e uh (p : predictor) (txs : list transaction) :
  forall (i : nat) (results : list batch_entry),
    batch_loop e i txs uh results p =
    (Ok (results ++ imap (fun j t => entry_of e uh p (i + j) t) txs)%list, p).
Proof.
  induction txs as [|t rest IH]; intros i results; cbn [batch_loop imap].
  - unfold mret, pm_ret. now rewrite app_nil_r.
  - unfold mbind, pm_bind, try_except at 1.
    pose proof (score_transaction_read_only e i t uh p) as Hro.
    unfold entry_of at 1. rewrite Nat.add_0_r.
    destruct (score_transaction e i t uh p) as [[r|ex] s'] eqn:Hs;
      simpl in Hro; subst s'; cbn; rewrite IH; unfold append;
      rewrite <- app_assoc; cbn [app]; do 4 f_equal;
      apply imap_ext; intros j x _; cbn; f_equal; lia.
Qed.

End ReadOnly.

(** ** Scored results *)

Section Scored.

Import Predictor.

(** What a scored result holds: the scores of the extracted features and
    their sanitized copy. *)
Lemma scored_inv e i t uh (p p' : predictor) (r : scored) :
  score_transaction e i t uh p = (Ok r, p') ->
  exists features is_fraud probability explanation risk_score,
    features_for e t (history_for t uh) p = (Ok features, p) /\
    predict features p = (Ok (is_fraud, probability, explanation), p) /\
    _calculate_risk_score features probability = Ok risk_score /\
    r_prediction r = {| p_is_fraud := is_fraud; p_probability := probability;
                        p_confidence := Qmin (probability * 100) 100 |} /\
    r_risk_assessment r = {| ra_score := risk_score;
                             ra_level := _determine_risk_level risk_score;
                             ra_factors := ex_risk_factors explanation |} /\
    r_recommended_action r =
      _get_recommended_action is_fraud (_determine_risk_level risk_score) /\
    r_explanation r = explanation /\
    r_features r = _sanitize_features features.
Proof.
  unfold score_transaction, mbind at 1 2 3 4 5, pm_bind, lift at 1, self, mret, pm_ret.
  pose proof (features_for_read_only e t (history_for t uh) p) as Hf.
  destruct (features_for e t (history_for t uh) p) as [[fs|] s] eqn:Hfs;
    simpl in Hf; subst s; [|discriminate].
  pose proof (predict_read_only fs p) as Hp.
  destruct (predict fs p) as [[[[b q] x]|] s] eqn:Hpr;
    simpl in Hp; subst s; [|discriminate].
  destruct (_calculate_risk_score fs q) as [rs|] eqn:Hrs; [|discriminate].
  intros [= <- <-]. exists fs, b, q, x, rs.
  repeat split; auto;
    repeat match goal with
           | |- context [match ?d with _ => _ end] => destruct d
           end; reflexivity.
Qed.

(** C10.  In the sanitized copy of a feature dictionary, an entry whose
    value is a dict or a list is absent; of the remaining entries, one
    whose lowercase key contains 'password', 'token', 'secret', 'key',
    'cvv' or 'pin' maps to '[REDACTED]' and any other keeps its value, a
    numpy scalar as the plain Python value; no other key appears.  The
    lowercase key is the key with its capital letters made small, so that
    'User_PASSWORD' and 'apiKey' are redacted; the plain value of a numpy
    float, integer or boolean is the float, integer or boolean.  The
    [features] of a scored batch result is this copy of the features that
    were extracted. *)
Theorem sanitized_features_spec :
  (forall (features : featmap) (key : string),
      match features !! key with
      | None => _sanitize_features features !! key = None
      | Some value =>
          if is_complex value
          then _sanitize_features features !! key = None
          else (sensitive key ->
                _sanitize_features features !! key = Some (VStr "[REDACTED]")) /\
               (~ sensitive key ->
                _sanitize_features features !! key = Some (plain_value value))
      end) /\
  (forall value, is_complex value = true <->
                 (exists d, value = VDict d) \/ (exists l, value = VList l)) /\
  _sanitize_features MoreSamples.mixed_features = MoreSamples.mixed_sanitized /\
  (forall e i t uh (p p' : predictor) (r : scored),
      score_transaction e i t uh p = (Ok r, p') ->
      exists features,
        features_for e t (history_for t uh) p = (Ok features, p) /\
        r_features r = _sanitize_features features).
Proof.
  split; [|split; [|split]].
  - intros features key. rewrite sanitize_lookup.
    destruct (features !! key) as [value|]; [|reflexivity].
    cbn. unfold sanitized_entry. destruct (is_complex value); [reflexivity|].
    rewrite item_plain_value.
    destruct (is_sensitive key) eqn:Hs.
    + apply is_sensitive_spec in Hs. split; [reflexivity | tauto].
    + split; [|reflexivity]. intros H. apply is_sensitive_spec in H. congruence.
  - intros value. destruct value; cbn; split; try discriminate; eauto;
      intros [[? [=]] | [? [=]]].
  - by_evaluation.
  - intros e i t uh p p' r H.
    destruct (scored_inv _ _ _ _ _ _ _ H) as (fs & ? & ? & ? & ? & Hf & _ & _ & _ & _ & _ & _ & Hr).
    eauto.
Qed.

End Scored.

(** ** Batch scoring *)

Section Batch.

Import Predictor.

(** C6.  [predict_batch] always returns, with exactly one entry per input
    transaction and in input order; the entry at position [i] is the scored
    result of the [i]-th transaction or, when scoring it raised, the entry
    carrying that transaction's id -- its ['id'], or [txn_] followed by
    the position when it has none -- and the text of the exception.
    Entries of other positions do not depend on that failure, and the
    predictor is left as it was.  In a batch of three whose second
    transaction has a history without amounts and whose third has a text
    for a timestamp, the first entry is scored and the others are
    [test_txn_1] with ['amount'] and [txn_2] with the message of the
    [TypeError]. *)
Theorem predict_batch_one_entry_per_transaction e txs uh (p : predictor) :
  (exists results,
      predict_batch e txs uh p = (Ok results, p) /\
      length results = length txs /\
      forall i t, txs !! i = Some t ->
        match fst (score_transaction e i t uh p) with
        | Ok r => results !! i = Some (Scored r)
        | Raise ex =>
            results !! i
            = Some (Failed match tx_id t with
                           | Some id => id
                           | None => "txn_" +:+ pretty i
                           end
                           (exn_str ex))
        end) /\
  exn_str (KeyError "amount") = "'amount'" /\
  (forall message,
      exn_str (TypeError message) = message /\
      exn_str (ValueError message) = message /\
      exn_str (AttributeError message) = message) /\
  exists r,
    predict_batch Samples.utc MoreSamples.mixed_batch (Some MoreSamples.amountless)
      Samples.no_model
    = (Ok [ Scored r;
            Failed "test_txn_1" "'amount'";
            Failed "txn_2" "'str' object cannot be interpreted as an integer" ],
       Samples.no_model).
Proof.
  split; [|split; [reflexivity|split; [intros; repeat split|]]].
  - unfold predict_batch. rewrite batch_loop_spec. cbn [app].
    eexists; split; [reflexivity|]. split.
    + apply length_imap.
    + intros i t Hi. rewrite list_lookup_imap, Hi. cbn. unfold entry_of.
      destruct (fst (score_transaction e i t uh p)); [reflexivity|].
      unfold transaction_id. now destruct (tx_id t).
  - exists (match fst (score_transaction Samples.utc 0 Samples.night_tx
                         (Some MoreSamples.amountless) Samples.no_model) with
            | Ok r => r
            | Raise _ => MoreSamples.blank_scored
            end).
    by_evaluation.
Qed.

Lemma read_only_twice {A} (m : pm A) (s : predictor) :
  read_only m ->
  (a ← m; b ← m; mret (a, b)) s =
  (match fst (m s) with Ok a => Ok (a, a) | Raise ex => Raise ex end, s).
Proof.
  intros Hro. unfold mbind, pm_bind. pose proof (Hro s) as H.
  destruct (m s) as [[a|ex] s'] eqn:Hm; simpl in H; subst s'; [|reflexivity].
  rewrite Hm. reflexivity.
Qed.

(** C9.  Scoring twice in a row, with the same transaction(s), the same
    history and the same clock, gives the same assessment both times and
    leaves the predictor unchanged: for one transaction
    ([score_transaction]) and for a batch ([predict_batch]). *)
Theorem scoring_twice_gives_identical_results e txs uh (p : predictor) :
  (forall i t,
      (a ← score_transaction e i t uh; b ← score_transaction e i t uh; mret (a, b)) p =
      (match fst (score_transaction e i t uh p) with
       | Ok r => Ok (r, r)
       | Raise ex => Raise ex
       end, p)) /\
  exists results,
    (a ← predict_batch e txs uh; b ← predict_batch e txs uh; mret (a, b)) p =
    (Ok (results, results), p).
Proof.
  split.
  - intros i t. apply read_only_twice, score_transaction_read_only.
  - eexists. unfold predict_batch, mbind, pm_bind.
    rewrite batch_loop_spec, batch_loop_spec. reflexivity.
Qed.

(** C7.  When the predictor holds a loaded model and invoking it on the
    frame of [features] raises, [predict] returns what
    [_rule_based_prediction] returns for [features], and the predictor
    (model, [model_loaded], configuration, ...) is unchanged. *)
Theorem predict_falls_back_on_inference_error
    (p : predictor) (features : featmap) (obj : pyobj) (ex : exn) :
  model_loaded p = true ->
  model p = Some obj ->
  model_probability obj (_ensure_feature_columns features) = Raise ex ->
  predict features p = _rule_based_prediction features p /\
  snd (predict features p) = p.
Proof.
  intros Hl Hm Hex. split; [|apply predict_read_only].
  unfold predict, try_except, mbind, pm_bind, self, lift.
  rewrite Hl, Hm, Hex. reflexivity.
Qed.

Lemma predict_falls_back_witness :
  predict ∅ (Samples.with_model Samples.broken_clf) =
    _rule_based_prediction ∅ (Samples.with_model Samples.broken_clf) /\
  snd (predict ∅ (Samples.with_model Samples.broken_clf)) =
    Samples.with_model Samples.broken_clf.
Proof.
  apply (predict_falls_back_on_inference_error
           (Samples.with_model Samples.broken_clf) ∅
           (ObjClassifier Samples.broken_clf)
           (LibraryError "X has 13 features, but the classifier is expecting 20"));
    reflexivity.
Defined.

(** The clock is an input: the same transaction and history scored at a
    later time fall out of the velocity windows. *)
Example clock_matters :
  Samples.features_of (Some Samples.sample_history) !! "transactions_last_24h"
    = Some (VInt 3) /\
  (fs ← FeatureExtractor.extract_features
          {| now := 2000000; utc_offset := 0; to_datetime := fun _ => Ok tt |}
          Samples.night_tx
          (Some Samples.sample_history);
   Ok (fs !! "transactions_last_24h")) = Ok (Some (VInt 0)).
Proof. split; vm_compute; reflexivity. Qed.

End Batch.

(** ** Risk score, risk level and ranges *)

Section RiskScore.

Import Predictor.

Lemma level_cases (r : Q) :
  (_determine_risk_level r = "CRITICAL" <-> (90 <= r)%Q) /\
  (_determine_risk_level r = "HIGH" <-> (70 <= r /\ r < 90)%Q) /\
  (_determine_risk_level r = "MEDIUM" <-> (30 <= r /\ r < 70)%Q) /\
  (_determine_risk_level r = "LOW" <-> (r < 30)%Q).
Proof.
  unfold _determine_risk_level.
  destruct (Qgeb r 90) eqn:H90; [apply Qgeb_true in H90 | apply Qgeb_false in H90];
  (destruct (Qgeb r 70) eqn:H70; [apply Qgeb_true in H70 | apply Qgeb_false in H70]);
  (destruct (Qgeb r 30) eqn:H30; [apply Qgeb_true in H30 | apply Qgeb_false in H30]);
  repeat split; intros; try discriminate; try reflexivity; try lra.
Qed.

(** C4.  With [a] the transaction amount and [first] the first-transaction
    flag read from the features, the risk score is
    [probability * 100], times 1.2 when [a > 1000] and otherwise times 1.1
    when [a > 500], times 1.3 when [first], capped at 100; and the level is
    CRITICAL iff the score is at least 90, HIGH iff it is in [70, 90),
    MEDIUM iff it is in [30, 70), LOW iff it is below 30. *)
Theorem risk_score_and_level (features : featmap) (probability a : Q) :
  num_of (dget features "transaction_amount" (VInt 0)) = Some a ->
  let first := py_eq1 (dget features "is_first_transaction" (VInt 0)) in
  exists risk_score,
    _calculate_risk_score features probability = Ok risk_score /\
    (risk_score ==
       Qmin (probability * 100 * amount_multiplier a * first_multiplier first) 100)%Q /\
    (_determine_risk_level risk_score = "CRITICAL" <-> (90 <= risk_score)%Q) /\
    (_determine_risk_level risk_score = "HIGH"
       <-> (70 <= risk_score /\ risk_score < 90)%Q) /\
    (_determine_risk_level risk_score = "MEDIUM"
       <-> (30 <= risk_score /\ risk_score < 70)%Q) /\
    (_determine_risk_level risk_score = "LOW" <-> (risk_score < 30)%Q).
Proof.
  intros Ha first. unfold _calculate_risk_score.
  rewrite !(py_gt_num _ a) by exact Ha.
  unfold amount_multiplier, first_multiplier, mbind, res_bind. fold first.
  destruct (Qgtb a 1000); [|destruct (Qgtb a 500)]; destruct first;
    (eexists; split; [reflexivity|]; split; [|apply level_cases]);
    apply Q.min_compat; try reflexivity; ring.
Qed.

Lemma risk_score_and_level_witness :
  exists risk_score,
    _calculate_risk_score
      (<[ "is_first_transaction" := VBool true ]>
         (<[ "transaction_amount" := VFloat (99999 # 100) ]> ∅)) (65 # 100)
      = Ok risk_score /\
    (risk_score ==
       Qmin ((65 # 100) * 100 * amount_multiplier (99999 # 100)
             * first_multiplier true) 100)%Q /\
    (_determine_risk_level risk_score = "CRITICAL" <-> (90 <= risk_score)%Q) /\
    (_determine_risk_level risk_score = "HIGH"
       <-> (70 <= risk_score /\ risk_score < 90)%Q) /\
    (_determine_risk_level risk_score = "MEDIUM"
       <-> (30 <= risk_score /\ risk_score < 70)%Q) /\
    (_determine_risk_level risk_score = "LOW" <-> (risk_score < 30)%Q).
Proof.
  exact (risk_score_and_level
           (<[ "is_first_transaction" := VBool true ]>
              (<[ "transaction_amount" := VFloat (99999 # 100) ]> ∅))
           (65 # 100) (99999 # 100) eq_refl).
Defined.




End RiskScore.

Section Ranges.

Import Predictor.






End Ranges.

(** ** Extracted features *)

Section Extraction.

Import FeatureExtractor.

Lemma dupdate_lookup (d new : featmap) (k : string) :
  dupdate d new !! k = match new !! k with Some v => Some v | None => d !! k end.
Proof.
  unfold dupdate. rewrite lookup_union.
  destruct (new !! k), (d !! k); reflexivity.
Qed.

Lemma dupdate_empty (d : featmap) : dupdate d ∅ = d.
Proof. unfold dupdate. apply (left_id_L ∅ (∪)). Qed.

Lemma derived_inv (features d : featmap) :
  _calculate_derived_features features = Ok d ->
  exists deviation velocity failures new_user,
    py_gt (dget features "amount_deviation_ratio" (VInt 1)) 3 = Ok deviation /\
    py_gt (dget features "hourly_velocity" (VInt 0)) 5 = Ok velocity /\
    py_gt (dget features "previous_failure_rate" (VInt 0)) (3 # 10) = Ok failures /\
    (if truthy (dget features "is_first_transaction" (VBool false))
     then py_gt (dget features "transaction_amount" (VInt 0)) 100
     else Ok false) = Ok new_user /\
    d = derived_of deviation velocity
          (py_eq1 (dget features "is_night_hours" (VInt 0)))
          (py_eq1 (dget features "short_session" (VInt 0)))
          failures new_user.
Proof.
  unfold _calculate_derived_features, mbind, res_bind.
  destruct (py_gt (dget features "amount_deviation_ratio" _) _) as [c1|]; [|discriminate].
  destruct (py_gt (dget features "hourly_velocity" _) _) as [c2|];
    [|destruct c1; discriminate].
  destruct (py_gt (dget features "previous_failure_rate" _) _) as [c5|];
    [|destruct c1, c2, (py_eq1 (dget features "is_night_hours" _)),
        (py_eq1 (dget features "short_session" _)); discriminate].
  destruct (if truthy _ then _ else _) as [c6|];
    [|destruct c1, c2, c5, (py_eq1 (dget features "is_night_hours" _)),
        (py_eq1 (dget features "short_session" _)); discriminate].
  intros H. exists c1, c2, c5, c6. repeat split; try reflexivity.
  destruct c1, c2, c5, c6, (py_eq1 (dget features "is_night_hours" _)),
    (py_eq1 (dget features "short_session" _)); injection H as <-; reflexivity.
Qed.

Lemma extract_features_inv e t h (fs : featmap) :
  extract_features e t h = Ok fs ->
  exists behavior temporal d,
    behavior_features e t h = Ok behavior /\
    _extract_temporal_features e t = Ok temporal /\
    _calculate_derived_features (base_features t behavior temporal) = Ok d /\
    fs = dupdate (base_features t behavior temporal) d.
Proof.
  unfold extract_features, base_features, mbind, res_bind.
  assert (exists b, behavior_features e t h = b /\
            match h with
            | None | Some [] => Ok (dupdate ∅ (_extract_transaction_features t))
            | Some history =>
                match _extract_user_behavior_features e t history with
                | Ok b => Ok (dupdate (dupdate ∅ (_extract_transaction_features t)) b)
                | Raise ex => Raise ex
                end
            end =
            match b with
            | Ok b => Ok (dupdate (dupdate ∅ (_extract_transaction_features t)) b)
            | Raise ex => Raise ex
            end) as (b & Hb & ->).
  { eexists; split; [reflexivity|].
    destruct h as [[|x l]|]; cbn; rewrite ?dupdate_empty; reflexivity. }
  destruct b as [beh|]; [|discriminate].
  destruct (_extract_temporal_features e t) as [tmp|]; [|discriminate].
  destruct (_calculate_derived_features _) as [d|] eqn:Hd; [|discriminate].
  intros [= <-]. exists beh, tmp, d. auto.
Qed.

Lemma reads_dupdate (d new : featmap) :
  reads (dupdate d new) =
  zip_with (fun n o => match n with Some v => Some v | None => o end)
           (reads new) (reads d).
Proof. unfold reads. cbn [map read_keys]. now rewrite !dupdate_lookup. Qed.

Lemma reads_empty : reads ∅ = replicate 9 None.
Proof. reflexivity. Qed.

Lemma reads_transaction (t : transaction) :
  reads (_extract_transaction_features t) =
  [ None; None; None; None; None;
    Some (VBool (default false (tx_is_first t))); Some (vnum (tx_amount t));
    None; None ].
Proof. reflexivity. Qed.

Lemma reads_technical (t : transaction) :
  reads (_extract_technical_features t) =
  [ None; None; None; None;
    Some (flag (Qltb (qnum (tx_session_duration t)) 60)); None; None; None;
    Some (vnum (tx_session_duration t)) ].
Proof.
  unfold _extract_technical_features.
  destruct (negb (String.eqb _ "")); reflexivity.
Qed.

Lemma temporal_inv e t (temporal : featmap) :
  _extract_temporal_features e t = Ok temporal ->
  exists dt,
    fromtimestamp e (default (TsNum (now e)) (tx_timestamp t)) = Ok dt /\
    reads temporal =
    [ None; None; None; Some (flag (is_night dt)); None; None; None;
      Some (VInt (dt_hour dt)); None ].
Proof.
  unfold _extract_temporal_features, mbind, res_bind.
  destruct (fromtimestamp e _) as [dt|]; [|discriminate].
  intros [= <-]. exists dt. split; reflexivity.
Qed.

Lemma reads_derived (c1 c2 c3 c4 c5 c6 : bool) :
  reads (derived_of c1 c2 c3 c4 c5 c6) = replicate 9 None.
Proof. reflexivity. Qed.

(** The behaviour features of a non-empty history: the three rates are
    numbers, the deviation ratio being the sentinel 10 when the mean
    amount is not positive. *)
Lemma behavior_inv e t (x : hist_entry) (l : list hist_entry) (behavior : featmap) :
  _extract_user_behavior_features e t (x :: l) = Ok behavior ->
  exists amounts velocity failure_rate,
    column "amount" h_amount (x :: l) = Ok amounts /\
    reads behavior =
    [ Some (if Qgtb (series_mean amounts) 0
            then VNpFloat (qnum (tx_amount t) / series_mean amounts)
            else VInt 10);
      Some (VFloat velocity); Some (VNpFloat failure_rate);
      None; None; None; None; None; None ].
Proof.
  unfold _extract_user_behavior_features, mbind, res_bind.
  destruct (column "amount" h_amount (x :: l)) as [amounts|]; [|discriminate].
  destruct (existsb _ (x :: l));
    [destruct (to_datetime e _) as [[]|]; [|discriminate]|];
    (destruct (column "status" h_status (x :: l)) as [statuses|]; [|discriminate]);
    (destruct (compare_timestamps (x :: l)) as [[]|]; [|discriminate]);
    intros [= <-]; exists amounts; do 2 eexists; (split; reflexivity).
Qed.

(** What a successful run on a non-empty history has found and built. *)
Lemma behavior_ok e t (x : hist_entry) (l : list hist_entry) (behavior : featmap) :
  _extract_user_behavior_features e t (x :: l) = Ok behavior ->
  exists amounts statuses,
    column "amount" h_amount (x :: l) = Ok amounts /\
    column "status" h_status (x :: l) = Ok statuses /\
    (existsb (fun h => bool_decide (is_Some (h_timestamp h))) (x :: l) = true ->
     to_datetime e (map h_timestamp (x :: l)) = Ok tt) /\
    compare_timestamps (x :: l) = Ok tt /\
    behavior =
    <[ "daily_velocity" :=
         VFloat (inject_Z (Z.of_nat (count_recent (x :: l) (now e - 86400))) / 24) ]>
    (<[ "hourly_velocity" :=
         VFloat (inject_Z (Z.of_nat (count_recent (x :: l) (now e - 3600))) / 1) ]>
    (<[ "transactions_last_24h" :=
         VInt (Z.of_nat (count_recent (x :: l) (now e - 86400))) ]>
    (<[ "transactions_last_hour" :=
         VInt (Z.of_nat (count_recent (x :: l) (now e - 3600))) ]>
    (<[ "previous_failure_rate" :=
         VNpFloat (inject_Z (Z.of_nat (length (filter (fun s => s = Some "failed")
                                                 statuses)))
                   / inject_Z (Z.of_nat (length (x :: l)))) ]>
      (let features : featmap :=
         <[ "amount_deviation_ratio" :=
              if Qgtb (series_mean amounts) 0
              then VNpFloat (qnum (tx_amount t) / series_mean amounts)
              else VInt 10 ]>
         (<[ "total_transaction_count" := VInt (Z.of_nat (length (x :: l))) ]>
         (<[ "std_transaction_amount" := VNpSym (SeriesStd (present amounts)) ]>
         (<[ "avg_transaction_amount" := VNpFloat (series_mean amounts) ]> ∅))) in
       if existsb (fun h => bool_decide (is_Some (h_timestamp h))) (x :: l)
       then <[ "avg_time_between_transactions" :=
                 if (1 <? Z.of_nat (length (x :: l)))
                 then VNpSym (MeanTimeDiff (map h_timestamp (x :: l)))
                 else VInt 0 ]> features
       else features))))).
Proof.
  unfold _extract_user_behavior_features, mbind, res_bind.
  destruct (column "amount" h_amount (x :: l)) as [amounts|]; [|discriminate].
  destruct (existsb _ (x :: l));
    [destruct (to_datetime e _) as [[]|]; [|discriminate]|];
    (destruct (column "status" h_status (x :: l)) as [statuses|]; [|discriminate]);
    (destruct (compare_timestamps (x :: l)) as [[]|]; [|discriminate]);
    intros [= <-]; exists amounts, statuses; repeat split; discriminate.
Qed.

Lemma py_eq1_flag (b : bool) : py_eq1 (flag b) = b.
Proof. now destruct b. Qed.

Lemma num_of_vnum (o : option Q) : num_of (vnum o) = Some (qnum o).
Proof. now destruct o. Qed.

(** The reads of the features before derivation. *)
Lemma base_reads e t h (behavior temporal : featmap) :
  behavior_features e t h = Ok behavior ->
  _extract_temporal_features e t = Ok temporal ->
  exists (r v f : option pyval) ratio velocity failure_rate dt,
    num_of (default (VInt 1) r) = Some ratio /\
    num_of (default (VInt 0) v) = Some velocity /\
    num_of (default (VInt 0) f) = Some failure_rate /\
    (match h with
     | None | Some [] => True
     | Some history =>
         exists amounts,
           column "amount" h_amount history = Ok amounts /\
           r = Some (if Qgtb (series_mean amounts) 0
                     then VNpFloat (qnum (tx_amount t) / series_mean amounts)
                     else VInt 10) /\
           is_Some v /\ is_Some f
     end) /\
    fromtimestamp e (default (TsNum (now e)) (tx_timestamp t)) = Ok dt /\
    reads (base_features t behavior temporal) =
    [ r; v; f; Some (flag (is_night dt));
      Some (flag (Qltb (qnum (tx_session_duration t)) 60));
      Some (VBool (default false (tx_is_first t))); Some (vnum (tx_amount t));
      Some (VInt (dt_hour dt)); Some (vnum (tx_session_duration t)) ].
Proof.
  intros Hb Ht. destruct (temporal_inv _ _ _ Ht) as (dt & Hdt & Rt).
  assert (exists (r v f : option pyval) ratio velocity failure_rate,
             num_of (default (VInt 1) r) = Some ratio /\
             num_of (default (VInt 0) v) = Some velocity /\
             num_of (default (VInt 0) f) = Some failure_rate /\
             (match h with
              | None | Some [] => True
              | Some history =>
                  exists amounts,
                    column "amount" h_amount history = Ok amounts /\
                    r = Some (if Qgtb (series_mean amounts) 0
                              then VNpFloat (qnum (tx_amount t) / series_mean amounts)
                              else VInt 10) /\
                    is_Some v /\ is_Some f
              end) /\
             reads behavior = [r; v; f; None; None; None; None; None; None])
    as (r & v & f & ratio & vel & fr & Hr & Hv & Hf & Hh & Rb).
  { destruct h as [[|x l]|]; cbn [behavior_features] in Hb.
    - injection Hb as <-. exists None, None, None. do 3 eexists.
      repeat split; reflexivity.
    - destruct (behavior_inv _ _ _ _ _ Hb) as (am & q2 & q3 & Ham & R).
      eexists _, _, _,
        (if Qgtb (series_mean am) 0
         then (qnum (tx_amount t) / series_mean am)%Q else 10%Q), q2, q3.
      split; [|split; [|split; [|split; [|exact R]]]]; try reflexivity.
      + destruct (Qgtb (series_mean am) 0); reflexivity.
      + exists am. repeat split; eauto.
    - injection Hb as <-. exists None, None, None. do 3 eexists.
      repeat split; reflexivity. }
  exists r, v, f, ratio, vel, fr, dt. repeat split; try assumption.
  unfold base_features.
  rewrite !reads_dupdate, reads_empty, reads_transaction, Rb, Rt, reads_technical.
  destruct r, v, f; reflexivity.
Qed.

(** C3.  In every extracted feature vector, [composite_risk_score] is the
    sum, capped at 100, of 30 when [amount_deviation_ratio > 3], 25 when
    [hourly_velocity > 5], 15 when the hour of the transaction is in
    [0, 6), 20 when [session_duration < 60], 25 when
    [previous_failure_rate > 0.3] and 35 when the transaction is a first
    one with [amount > 100]; the three rates are the features of that name
    (1, 0 and 0 when absent). *)
Theorem composite_risk_score_is_capped_weighted_sum e t h (fs : featmap) :
  extract_features e t h = Ok fs ->
  exists ratio velocity failure_rate dt,
    num_of (dget fs "amount_deviation_ratio" (VInt 1)) = Some ratio /\
    num_of (dget fs "hourly_velocity" (VInt 0)) = Some velocity /\
    num_of (dget fs "previous_failure_rate" (VInt 0)) = Some failure_rate /\
    fromtimestamp e (default (TsNum (now e)) (tx_timestamp t)) = Ok dt /\
    fs !! "composite_risk_score" =
    Some (VInt (composite
                  (Qgtb ratio 3)
                  (Qgtb velocity 5)
                  (is_night dt)
                  (Qltb (qnum (tx_session_duration t)) 60)
                  (Qgtb failure_rate (3 # 10))
                  (default false (tx_is_first t) && Qgtb (qnum (tx_amount t)) 100))).
Proof.
  intros H.
  destruct (extract_features_inv _ _ _ _ H) as (beh & tmp & d & Hb & Ht & Hd & ->).
  destruct (base_reads _ _ _ _ _ Hb Ht)
    as (r & v & f & ratio & vel & fr & dt & Hr & Hv & Hf & _ & Hdt & R).
  unfold reads in R. cbn [map read_keys] in R.
  injection R as R1 R2 R3 R4 R5 R6 R7 _ _.
  destruct (derived_inv _ _ Hd) as (c1 & c2 & c5 & c6 & H1 & H2 & H5 & H6 & ->).
  unfold dget in H1, H2, H5, H6 |- *.
  rewrite !dupdate_lookup.
  rewrite R1, R2, R3, R4, R5, R6, R7 in *. cbn [default from_option id] in *.
  rewrite py_eq1_flag, py_eq1_flag.
  rewrite (py_gt_num _ _ _ Hr) in H1. rewrite (py_gt_num _ _ _ Hv) in H2.
  rewrite (py_gt_num _ _ _ Hf) in H5.
  rewrite (py_gt_num _ _ _ (num_of_vnum _)) in H6.
  injection H1 as <-. injection H2 as <-. injection H5 as <-.
  assert (c6 = default false (tx_is_first t) && Qgtb (qnum (tx_amount t)) 100) as ->.
  { cbn [truthy] in H6. destruct (default false (tx_is_first t)); now injection H6. }
  exists ratio, vel, fr, dt.
  change (derived_of _ _ _ _ _ _ !! "amount_deviation_ratio") with (@None pyval).
  change (derived_of _ _ _ _ _ _ !! "hourly_velocity") with (@None pyval).
  change (derived_of _ _ _ _ _ _ !! "previous_failure_rate") with (@None pyval).
  repeat split; try assumption.
Qed.

Lemma derived_lookups (c1 c2 c3 c4 c5 c6 : bool) :
  let d := derived_of c1 c2 c3 c4 c5 c6 in
  d !! "high_amount_deviation" = Some (flag c1) /\
  d !! "high_hourly_velocity" = Some (flag c2) /\
  d !! "night_transaction" = Some (flag c3) /\
  d !! "short_session_flag" = Some (flag c4) /\
  d !! "high_failure_history" = Some (flag c5) /\
  d !! "new_user_high_amount" = Some (flag c6) /\
  d !! "composite_risk_score" = Some (VInt (composite c1 c2 c3 c4 c5 c6)).
Proof. repeat split; reflexivity. Qed.

Lemma derived_other (c1 c2 c3 c4 c5 c6 : bool) (k : string) :
  In k read_keys -> derived_of c1 c2 c3 c4 c5 c6 !! k = None.
Proof.
  cbn [In read_keys]. intros Hk.
  repeat (destruct Hk as [<- | Hk]); try reflexivity. contradiction.
Qed.

(** The keys of an extracted feature vector: the ones always there, and
    the three rates of a user with a history. *)
Lemma extracted_keys e t h (fs : featmap) :
  extract_features e t h = Ok fs ->
  (forall k, In k always_present -> is_Some (fs !! k)) /\
  (forall (x : hist_entry) (l : list hist_entry),
      h = Some (x :: l) ->
      exists amounts,
        column "amount" h_amount (x :: l) = Ok amounts /\
        fs !! "amount_deviation_ratio" =
          Some (if Qgtb (series_mean amounts) 0
                then VNpFloat (qnum (tx_amount t) / series_mean amounts)
                else VInt 10) /\
        is_Some (fs !! "hourly_velocity") /\
        is_Some (fs !! "previous_failure_rate")).
Proof.
  intros H.
  destruct (extract_features_inv _ _ _ _ H) as (beh & tmp & d & Hb & Ht & Hd & ->).
  destruct (base_reads _ _ _ _ _ Hb Ht)
    as (r & v & f & ratio & vel & fr & dt & _ & _ & _ & Hh & _ & R).
  unfold reads in R. cbn [map read_keys] in R.
  injection R as R1 R2 R3 R4 R5 R6 R7 R8 R9.
  destruct (derived_inv _ _ Hd) as (c1 & c2 & c5 & c6 & _ & _ & _ & _ & ->).
  match goal with
  | |- context [derived_of _ _ ?a ?b _ _] => generalize a, b; intros c3 c4
  end.
  destruct (derived_lookups c1 c2 c3 c4 c5 c6)
    as (D1 & D2 & D3 & D4 & D5 & D6 & D7).
  pose proof (derived_other c1 c2 c3 c4 c5 c6) as N.
  split.
  - intros k Hk. rewrite dupdate_lookup.
    cbn [In always_present] in Hk.
    repeat (destruct Hk as [<- | Hk]);
      rewrite ?D1, ?D2, ?D3, ?D4, ?D5, ?D6, ?D7; eauto;
      try (rewrite N by (cbn; tauto));
      rewrite ?R4, ?R5, ?R6, ?R7, ?R8, ?R9; eauto.
    contradiction.
  - intros x l ->. destruct Hh as (am & Ham & -> & Hv & Hf).
    exists am. rewrite !dupdate_lookup, !N by (cbn; tauto).
    rewrite R1, R2, R3. auto.
Qed.

Lemma composite_risk_score_witness :
  exists ratio velocity failure_rate dt,
    num_of (dget (Samples.features_of (Some Samples.sample_history))
                 "amount_deviation_ratio" (VInt 1)) = Some ratio /\
    num_of (dget (Samples.features_of (Some Samples.sample_history))
                 "hourly_velocity" (VInt 0)) = Some velocity /\
    num_of (dget (Samples.features_of (Some Samples.sample_history))
                 "previous_failure_rate" (VInt 0)) = Some failure_rate /\
    fromtimestamp Samples.utc
      (default (TsNum (now Samples.utc)) (tx_timestamp Samples.night_tx)) = Ok dt /\
    Samples.features_of (Some Samples.sample_history) !! "composite_risk_score" =
    Some (VInt (composite
                  (Qgtb ratio 3)
                  (Qgtb velocity 5)
                  (is_night dt)
                  (Qltb (qnum (tx_session_duration Samples.night_tx)) 60)
                  (Qgtb failure_rate (3 # 10))
                  (default false (tx_is_first Samples.night_tx)
                   && Qgtb (qnum (tx_amount Samples.night_tx)) 100))).
Proof.
  exact (composite_risk_score_is_capped_weighted_sum
           Samples.utc Samples.night_tx (Some Samples.sample_history)
           (Samples.features_of (Some Samples.sample_history))
           (@eq_refl _ (Ok (Samples.features_of (Some Samples.sample_history)))
            <: extract_features Samples.utc Samples.night_tx
                 (Some Samples.sample_history)
               = Ok (Samples.features_of (Some Samples.sample_history)))).
Defined.

Example sample_composite_scores :
  Samples.features_of None !! "composite_risk_score" = Some (VInt 70) /\
  Samples.features_of (Some Samples.sample_history) !! "composite_risk_score"
    = Some (VInt 95).
Proof. split; vm_compute; reflexivity. Qed.

End Extraction.

(** ** Missing keys read as neutral values *)

Section Defaults.

Import Predictor.

Lemma dget_insert (fs : featmap) (k k' : string) (d d' : pyval) :
  dget (<[ k := d ]> fs) k' d' = if decide (k = k') then d else dget fs k' d'.
Proof. unfold dget. rewrite (lookup_insert fs). now destruct (decide (k = k')). Qed.

Lemma dget_missing (fs : featmap) (k : string) (d : pyval) :
  fs !! k = None -> dget fs k d = d.
Proof. intros H. unfold dget. now rewrite H. Qed.

Lemma dget_insert_eq (fs : featmap) (k : string) (d d' : pyval) :
  dget (<[ k := d ]> fs) k d' = d.
Proof. unfold dget. now rewrite lookup_insert_eq. Qed.

Lemma dget_insert_ne (fs : featmap) (k k' : string) (d d' : pyval) :
  k <> k' -> dget (<[ k := d ]> fs) k' d' = dget fs k' d'.
Proof. intros. unfold dget. now rewrite lookup_insert_ne. Qed.

Ltac neutral H :=
  rewrite ?dget_insert_eq; rewrite ?dget_insert_ne by discriminate;
  rewrite ?(dget_missing _ _ _ H); exact eq_refl.

(** For the prediction and explanation stages a dictionary without a key
    is the dictionary with the key at its neutral value. *)
Lemma consumers_neutral (fs : featmap) (k : string) (d : pyval)
    (p : predictor) (probability : Q) :
  In (k, d) neutral_defaults ->
  fs !! k = None ->
  _rule_based_prediction (<[ k := d ]> fs) p = _rule_based_prediction fs p /\
  explain_prediction (<[ k := d ]> fs) probability = explain_prediction fs probability /\
  _calculate_risk_score (<[ k := d ]> fs) probability
    = _calculate_risk_score fs probability.
Proof.
  cbn [In neutral_defaults]. intros Hk H.
  repeat (destruct Hk as [[= <- <-] | Hk]); try contradiction;
    (split; [unfold _rule_based_prediction
            |split; [unfold explain_prediction | unfold _calculate_risk_score]]);
    neutral H.
Qed.

(** The frame given to the model has every expected column, a missing
    one filled with 0. *)
Lemma ensure_lookup (df : featmap) (k : string) :
  _ensure_feature_columns df !! k =
  match df !! k with
  | Some v => Some v
  | None => if bool_decide (k ∈ expected_columns) then Some (VInt 0) else None
  end.
Proof.
  unfold _ensure_feature_columns. generalize expected_columns as cols.
  intros cols. revert df. induction cols as [|c cols IH]; intros df; cbn [foldl].
  - destruct (df !! k); [reflexivity|]. now rewrite bool_decide_eq_false_2 by set_solver.
  - rewrite IH. destruct (df !! c) eqn:Hc.
    + destruct (df !! k) eqn:Hk; [reflexivity|].
      assert (k <> c) by congruence.
      destruct (bool_decide (k ∈ cols)) eqn:Hin.
      * apply bool_decide_eq_true in Hin.
        now rewrite bool_decide_eq_true_2 by set_solver.
      * apply bool_decide_eq_false in Hin.
        now rewrite bool_decide_eq_false_2 by set_solver.
    + rewrite (lookup_insert df). destruct (decide (c = k)) as [->|Hne].
      * rewrite Hc. now rewrite bool_decide_eq_true_2 by set_solver.
      * destruct (df !! k); [reflexivity|].
        destruct (bool_decide (k ∈ cols)) eqn:Hin.
        -- apply bool_decide_eq_true in Hin.
           now rewrite bool_decide_eq_true_2 by set_solver.
        -- apply bool_decide_eq_false in Hin.
           now rewrite bool_decide_eq_false_2 by set_solver.
Qed.

(** The extraction built into the predictor gives a first-time user the
    sentinel. *)
Lemma basic_first_time_sentinel e t (fs : featmap) :
  _extract_basic_features e t [] = Ok fs ->
  fs !! "amount_deviation_ratio" = Some (VInt 10) /\
  fs !! "is_first_transaction" = Some (VInt 1).
Proof.
  unfold _extract_basic_features, mbind, res_bind.
  destruct (fromtimestamp e _) as [dt|]; [|discriminate].
  cbv zeta.
  match goal with
  | |- context [<[ "previous_failure_rate" := ?v ]> ?m] =>
      set (features := <[ "previous_failure_rate" := v ]> m)
  end.
  assert (features !! "amount_deviation_ratio" = Some (VInt 10)) as H1
    by (vm_compute; reflexivity).
  assert (features !! "is_first_transaction" = Some (VInt 1)) as H2
    by (vm_compute; reflexivity).
  clearbody features.
  repeat (match goal with
          | |- context [py_gt ?a ?b] => destruct (py_gt a b) as [[|]|]
          | |- context [py_eq1 ?v] => destruct (py_eq1 v)
          end; try discriminate);
    intros [= <-]; rewrite !lookup_insert_ne by discriminate;
    split; assumption.
Qed.

End Defaults.

(** ** Feature keys *)

Section FeatureKeys.

Import FeatureExtractor Predictor.

(** C2, as the code has it.  Every extracted feature vector holds the keys
    written unconditionally ([always_present]); for a user with a history
    it also holds the three rates, [amount_deviation_ratio] being the
    current amount over the mean, or the sentinel 10 when that mean is not
    positive.  A key the vector lacks is read by the prediction and
    explanation stages as its neutral value ([neutral_defaults]), and the
    frame given to a model has every expected column, a missing one as 0.
    The extraction built into the predictor sets the sentinel 10 for a
    user without history. *)
Theorem feature_keys_and_neutral_defaults :
  (forall e t h (fs : featmap),
      extract_features e t h = Ok fs ->
      (forall k, In k always_present -> is_Some (fs !! k)) /\
      (forall (x : hist_entry) (l : list hist_entry),
          h = Some (x :: l) ->
          exists amounts,
            column "amount" h_amount (x :: l) = Ok amounts /\
            fs !! "amount_deviation_ratio" =
              Some (if Qgtb (series_mean amounts) 0
                    then VNpFloat (qnum (tx_amount t) / series_mean amounts)
                    else VInt 10) /\
            is_Some (fs !! "hourly_velocity") /\
            is_Some (fs !! "previous_failure_rate"))) /\
  (forall (fs : featmap) k d (p : predictor) (probability : Q),
      In (k, d) neutral_defaults ->
      fs !! k = None ->
      _rule_based_prediction (<[ k := d ]> fs) p = _rule_based_prediction fs p /\
      explain_prediction (<[ k := d ]> fs) probability
        = explain_prediction fs probability /\
      _calculate_risk_score (<[ k := d ]> fs) probability
        = _calculate_risk_score fs probability) /\
  (forall (df : featmap) k,
      In k expected_columns ->
      is_Some (_ensure_feature_columns df !! k) /\
      (df !! k = None -> _ensure_feature_columns df !! k = Some (VInt 0))) /\
  (forall e t (fs : featmap),
      _extract_basic_features e t [] = Ok fs ->
      fs !! "amount_deviation_ratio" = Some (VInt 10)).
Proof.
  split; [|split; [|split]].
  - apply extracted_keys.
  - apply consumers_neutral.
  - intros df k Hk. rewrite ensure_lookup.
    rewrite bool_decide_eq_true_2 by now apply list_elem_of_In.
    destruct (df !! k); split; eauto; discriminate.
  - intros e t fs H. now apply basic_first_time_sentinel in H.
Qed.

(** For a first-time user the extracted vector has no
    [amount_deviation_ratio] (nor the other two rates, nor
    [device_anomaly]), so the sentinel 10 is not there. *)
Lemma first_time_user_has_no_sentinel :
  extract_features Samples.utc Samples.night_tx None
    = Ok (Samples.features_of None) /\
  extract_features Samples.utc Samples.night_tx (Some [])
    = Ok (Samples.features_of None) /\
  Samples.features_of None !! "amount_deviation_ratio" = None /\
  Samples.features_of None !! "amount_deviation_ratio" <> Some (VInt 10) /\
  Samples.features_of None !! "hourly_velocity" = None /\
  Samples.features_of None !! "previous_failure_rate" = None /\
  Samples.features_of None !! "device_anomaly" = None.
Proof.
  assert (Samples.features_of None !! "amount_deviation_ratio" = None) as H
    by by_evaluation.
  split; [by_evaluation|]. split; [by_evaluation|].
  split; [exact H|]. split; [rewrite H; discriminate|].
  split; [by_evaluation|]. split; by_evaluation.
Qed.

End FeatureKeys.

(** ** The night-time first transaction of 999.99 *)

Section NightTransaction.

Import Predictor.

Lemma night_scored_facts :
  option_map
    (fun r =>
       (ex_method (r_explanation r), ex_risk_factors (r_explanation r),
        ex_risk_score (r_explanation r),
        Qeq_bool (p_probability (r_prediction r)) (65 # 100),
        p_is_fraud (r_prediction r),
        Qeq_bool (ra_score (r_risk_assessment r)) (9295 # 100),
        ra_level (r_risk_assessment r),
        act_action (r_recommended_action r)))
    Samples.night_scored
  = Some (Some "rule_based",
          ["NIGHT_TRANSACTION"; "SHORT_SESSION"; "NEW_USER_HIGH_AMOUNT"],
          Some 65, true, false, true, "CRITICAL", "BLOCK").
Proof. by_evaluation. Qed.

(** C1, as the code has it.  A predictor without a loaded model (holding a
    feature extractor, threshold 0.8) scores the transaction {amount 999.99,
    first, 45 s session, 02:00} with no history on the rule-based path: the
    rules NIGHT_TRANSACTION (+15), SHORT_SESSION (+20) and
    NEW_USER_HIGH_AMOUNT (+30) trigger and no other, the rule score is 65,
    the probability 0.65, [is_fraud] false; the assessed risk score is
    65 x 1.1 x 1.3 = 92.95, the level CRITICAL and the action BLOCK. *)
Theorem night_first_transaction_assessment (p : predictor) :
  model_loaded p = false ->
  feature_extractor p = true ->
  threshold (config p) = Some (8 # 10) ->
  exists r,
    predict_batch Samples.utc [Samples.night_tx] None p = (Ok [Scored r], p) /\
    ex_method (r_explanation r) = Some "rule_based" /\
    ex_risk_factors (r_explanation r)
      = ["NIGHT_TRANSACTION"; "SHORT_SESSION"; "NEW_USER_HIGH_AMOUNT"] /\
    ex_risk_score (r_explanation r) = Some 65 /\
    (p_probability (r_prediction r) == 65 # 100)%Q /\
    p_is_fraud (r_prediction r) = false /\
    (ra_score (r_risk_assessment r) == 9295 # 100)%Q /\
    ra_level (r_risk_assessment r) = "CRITICAL" /\
    act_action (r_recommended_action r) = "BLOCK".
Proof.
  destruct p as [[th rc fc] m l path fx det].
  cbn [model_loaded feature_extractor config threshold].
  intros -> -> ->.
  set (p := {| config := _; model := m |}).
  assert (Some (entry_of Samples.utc None p 0 Samples.night_tx)
          = option_map Scored Samples.night_scored) as E
    by (destruct det; by_evaluation).
  pose proof night_scored_facts as F.
  destruct Samples.night_scored as [r|]; [|discriminate].
  cbn [option_map] in E, F. apply (inj Some) in E.
  injection F as F1 F2 F3 F4 F5 F6 F7 F8.
  exists r. split.
  - unfold predict_batch. rewrite batch_loop_spec. cbn [imap app Nat.add].
    now rewrite E.
  - apply Qeq_bool_iff in F4. apply Qeq_bool_iff in F6. auto 10.
Qed.

Lemma night_first_transaction_witness :
  exists r,
    predict_batch Samples.utc [Samples.night_tx] None Samples.no_model
      = (Ok [Scored r], Samples.no_model) /\
    ex_method (r_explanation r) = Some "rule_based" /\
    ex_risk_factors (r_explanation r)
      = ["NIGHT_TRANSACTION"; "SHORT_SESSION"; "NEW_USER_HIGH_AMOUNT"] /\
    ex_risk_score (r_explanation r) = Some 65 /\
    (p_probability (r_prediction r) == 65 # 100)%Q /\
    p_is_fraud (r_prediction r) = false /\
    (ra_score (r_risk_assessment r) == 9295 # 100)%Q /\
    ra_level (r_risk_assessment r) = "CRITICAL" /\
    act_action (r_recommended_action r) = "BLOCK".
Proof.
  apply (night_first_transaction_assessment Samples.no_model); reflexivity.
Defined.

(** The rule score is not 70, the probability not 0.70, the level not HIGH
    and the action not REVIEW. *)
Lemma night_first_transaction_is_not_review :
  exists r,
    predict_batch Samples.utc [Samples.night_tx] None Samples.no_model
      = (Ok [Scored r], Samples.no_model) /\
    ex_risk_score (r_explanation r) <> Some 70 /\
    ~ (p_probability (r_prediction r) == 70 # 100)%Q /\
    ra_level (r_risk_assessment r) <> "HIGH" /\
    act_action (r_recommended_action r) <> "REVIEW".
Proof.
  assert (Some (entry_of Samples.utc None Samples.no_model 0 Samples.night_tx)
          = option_map Scored Samples.night_scored) as E
    by by_evaluation.
  pose proof night_scored_facts as F.
  destruct Samples.night_scored as [r|]; [|discriminate].
  cbn [option_map] in E, F. apply (inj Some) in E.
  injection F as F1 F2 F3 F4 F5 F6 F7 F8.
  exists r. split.
  - unfold predict_batch. rewrite batch_loop_spec. cbn [imap app Nat.add].
    now rewrite E.
  - clear E. apply Qeq_bool_iff in F4.
    rewrite F3, F7, F8. split; [discriminate|]. split; [|split; discriminate].
    intros H. rewrite F4 in H. discriminate H.
Qed.

End NightTransaction.

(** ** Saving and loading models *)

Section RoundTrip.

Import Predictor Persistence.

Lemma mkdirs_inv (names : list string) :
  forall fs r fs',
    mkdirs fs names = (r, fs') ->
    files fs' = files fs /\ dirs fs ⊆ dirs fs' /\
    writable fs' = writable fs /\ pickle_error fs' = pickle_error fs /\
    (r = Ok tt -> forall name, In name names -> name ∈ dirs fs').
Proof.
  induction names as [|name rest IH]; intros fs r fs'; cbn [mkdirs].
  - intros [= <- <-]. repeat split; [set_solver | intros _ ? []].
  - destruct (bool_decide (name ∈ dirs fs)) eqn:Hd.
    + apply bool_decide_eq_true in Hd. intros H.
      destruct (IH _ _ _ H) as (Hf & Hs & Hw & Hp & Hall).
      repeat split; try assumption.
      intros Hr other [<- | Hin]; [set_solver | now apply Hall].
    + destruct (is_file fs name); [intros [= <- <-]; repeat split;
                                   [set_solver | discriminate]|].
      destruct (writable fs name);
        [|intros [= <- <-]; repeat split; [set_solver | discriminate]].
      intros H. destruct (IH _ _ _ H) as (Hf & Hs & Hw & Hp & Hall).
      cbn [files dirs writable pickle_error add_dir] in *.
      repeat split; try assumption; [set_solver|].
      intros Hr other [<- | Hin]; [set_solver | now apply Hall].
Qed.

(** [os.makedirs] touches no file and removes no directory; when it
    returns, the name is a directory. *)
Lemma makedirs_inv fs name r fs' :
  makedirs fs name = (r, fs') ->
  files fs' = files fs /\ dirs fs ⊆ dirs fs' /\
  writable fs' = writable fs /\ pickle_error fs' = pickle_error fs /\
  (name = "" -> fs' = fs /\ r <> Ok tt) /\
  (r = Ok tt -> is_dir fs' name = true).
Proof.
  unfold makedirs. destruct (String.eqb_spec name "") as [->|Hne].
  - intros [= <- <-]. repeat split; [set_solver | discriminate | discriminate].
  - intros H. destruct (mkdirs_inv _ _ _ _ H) as (Hf & Hs & Hw & Hp & Hall).
    repeat split; try assumption; try contradiction.
    intros Hr. unfold is_dir. cbn [lineage] in Hall.
    destruct (String.eqb name "") eqn:E;
      [apply String.eqb_eq in E; contradiction|].
    cbn [orb] in Hall. destruct (is_root name); [reflexivity|].
    cbn [orb]. apply bool_decide_eq_true. apply (Hall Hr).
    apply in_or_app. right. now left.
Qed.

(** [dump] changes the file at the path only; when it raises, the file is
    as before or has been left empty. *)
Lemma dump_inv fs path obj r fs' :
  dump fs path obj = (r, fs') ->
  dirs fs' = dirs fs /\
  (forall other, other <> path -> files fs' !! other = files fs !! other) /\
  (r = Ok tt -> files fs' !! path = Some (Pickled obj)) /\
  (r <> Ok tt ->
   fs' = fs \/
   exists ex, pickle_error fs obj = Some ex /\
     files fs' !! path = Some (Unloadable (EOFError "Ran out of input"))).
Proof.
  unfold dump.
  destruct (is_dir fs path); [intros [= <- <-]; repeat split; auto; discriminate|].
  destruct (negb _); [intros [= <- <-]; repeat split; auto; discriminate|].
  destruct (negb _); [intros [= <- <-]; repeat split; auto; discriminate|].
  destruct (pickle_error fs obj) as [ex|]; intros [= <- <-]; cbn [files dirs set_file].
  - repeat split; try discriminate.
    + intros other Ho. apply lookup_insert_ne. congruence.
    + intros _. right. exists ex. split; [reflexivity | apply lookup_insert_eq].
  - repeat split.
    + intros other Ho. apply lookup_insert_ne. congruence.
    + intros _. apply lookup_insert_eq.
    + intros H. now contradiction H.
Qed.

Lemma save_model_inv fs fs' path (p p' : predictor) :
  save_model fs path p = (Ok (true, fs'), p') ->
  p' = p /\
  exists obj,
    model p = Some obj /\ files fs' !! path = Some (Pickled obj).
Proof.
  unfold save_model, mbind, pm_bind, self, mret, pm_ret.
  destruct (model p) as [obj|]; [|discriminate].
  destruct (makedirs fs (dirname path)) as [[[]|] fs1]; [|discriminate].
  destruct (dump fs1 path obj) as [[[]|] fs2] eqn:Hd; [|discriminate].
  intros [= <- <-]. split; [reflexivity|]. exists obj. split; [reflexivity|].
  now apply (dump_inv _ _ _ _ _ Hd).
Qed.

Lemma load_model_stored fs path obj (q : predictor) :
  files fs !! path = Some (Pickled obj) ->
  load_model fs path q =
  (Ok true, set_model_path path (set_model_loaded true (set_model (Some obj) q))).
Proof.
  intros H. unfold load_model, try_except, mbind, pm_bind, lift, load, assign.
  rewrite H. reflexivity.
Qed.

Lemma predict_batch_path_blind e txs uh : path_blind (predict_batch e txs uh).
Proof.
  intros a b Hab. unfold predict_batch. rewrite !batch_loop_spec.
  cbn [fst app]. f_equal. apply imap_ext. intros j t _. unfold entry_of.
  now rewrite (score_transaction_path_blind e (0 + j) t uh a b Hab).
Qed.

Lemma trainer_save_inv e tr fs fs' model path names :
  _save_model e tr fs model path names = (true, fs') ->
  files fs' !! path =
  Some (Pickled
          (ObjModelInfo {| mi_model := model; mi_feature_names := names;
                           mi_trained_at := now e;
                           mi_model_type := clf_type_name model;
                           mi_config := t_config tr |})).
Proof.
  unfold _save_model.
  destruct (makedirs fs (dirname path)) as [[[]|] fs1]; [|discriminate].
  cbv zeta.
  destruct (dump fs1 path _) as [[[]|] fs2] eqn:Hd; [|discriminate].
  intros [= <-]. now apply (dump_inv _ _ _ _ _ Hd).
Qed.

(** C5, as the code has it.  After a successful [FraudPredictor.save_model]
    the file holds the pickle of the model the predictor held, and
    [load_model] from the same path succeeds in any predictor and installs
    that very object, marked as loaded, leaving the configuration and the
    components of the loading predictor as they were.  A loading predictor
    that agrees with the saving one on the configuration, the feature
    extractor and the anomaly detector then predicts, singly and in batch,
    as the saving one does with its model in use -- as the saving one
    itself, when its model was marked as loaded.  After a successful
    [FraudModelTrainer._save_model], the trainer's [load_model] returns
    and installs the classifier, the feature names, the training time and
    the model type that were saved; the configuration of the loading
    trainer is left as it was (the saved one is not read back). *)
Theorem save_then_load_round_trip :
  (forall fs fs' path (p p' : predictor),
      save_model fs path p = (Ok (true, fs'), p') ->
      p' = p /\
      exists obj,
        model p = Some obj /\
        files fs' !! path = Some (Pickled obj) /\
        forall q : predictor,
        exists q',
          load_model fs' path q = (Ok true, q') /\
          model q' = Some obj /\ model_loaded q' = true /\
          model_path q' = Some path /\ config q' = config q /\
          feature_extractor q' = feature_extractor q /\
          anomaly_detector q' = anomaly_detector q /\
          (config q = config p ->
           feature_extractor q = feature_extractor p ->
           anomaly_detector q = anomaly_detector p ->
           forall e txs uh features,
             fst (predict features q')
               = fst (predict features (set_model_loaded true p)) /\
             fst (predict_batch e txs uh q')
               = fst (predict_batch e txs uh (set_model_loaded true p)) /\
             (model_loaded p = true ->
              fst (predict features q') = fst (predict features p) /\
              fst (predict_batch e txs uh q') = fst (predict_batch e txs uh p)))) /\
  (forall e (tr tr2 : trainer) fs fs' model path names,
      _save_model e tr fs model path names = (true, fs') ->
      trainer_load_model fs' path tr2 =
      (Loaded (clf_type_name model) names (now e) model,
       {| t_config := t_config tr2;
          t_models := <[ clf_type_name model := model ]> (t_models tr2);
          t_best_model := Some {| bm_model_type := clf_type_name model;
                                  bm_model := model;
                                  bm_feature_names := names;
                                  bm_trained_at := now e;
                                  bm_model_path := path |} |})).
Proof.
  split.
  - intros fs fs' path p p' H.
    destruct (save_model_inv _ _ _ _ _ H) as (-> & obj & Hm & Hfile).
    split; [reflexivity|]. exists obj. do 2 (split; [assumption|]). intros q.
    eexists. split; [apply (load_model_stored _ _ _ q Hfile)|].
    do 6 (split; [reflexivity|]). intros Hc Hf Hd e txs uh features.
    assert (same_view
              (set_model_path path (set_model_loaded true (set_model (Some obj) q)))
              (set_model_loaded true p))
      as Hv by (repeat split; cbn; congruence).
    split; [now apply predict_path_blind|].
    split; [now apply predict_batch_path_blind|].
    intros Hl.
    assert (same_view
              (set_model_path path (set_model_loaded true (set_model (Some obj) q))) p)
      as Hv' by (repeat split; cbn; congruence).
    split; [now apply predict_path_blind | now apply predict_batch_path_blind].
  - intros e tr tr2 fs fs' model path names H.
    apply trainer_save_inv in H.
    unfold trainer_load_model, mbind, res_bind, load. rewrite H. reflexivity.
Qed.

(** A trainer that loads the artifact of a differently configured trainer
    keeps its own configuration, and the answer of [load_model] carries
    none; a predictor that loads that artifact holds a dictionary, not a
    classifier, and answers by the rules instead of the 0.9 of the saved
    classifier. *)
Lemma trainer_artifact_round_trip_loses_config :
  exists fs',
    _save_model Samples.utc Samples.tuned_trainer Samples.empty_fs
      Samples.steady_clf "models/fraud_model.pkl" ["transaction_amount"]
      = (true, fs') /\
    (exists info,
        files fs' !! "models/fraud_model.pkl" = Some (Pickled (ObjModelInfo info)) /\
        mi_config info = t_config Samples.tuned_trainer) /\
    (exists tr',
        trainer_load_model fs' "models/fraud_model.pkl" Samples.fresh_trainer
          = (Loaded "LogisticRegression" ["transaction_amount"] (now Samples.utc)
               Samples.steady_clf, tr') /\
        t_config tr' = t_config Samples.fresh_trainer /\
        t_config tr' <> t_config Samples.tuned_trainer) /\
    (exists q' answer,
        load_model fs' "models/fraud_model.pkl" Samples.no_model = (Ok true, q') /\
        fst (predict (Samples.features_of None) q') = Ok answer /\
        ex_method (snd answer) = Some "rule_based" /\
        fst (predict (Samples.features_of None)
               (Samples.with_model Samples.steady_clf)) <> Ok answer).
Proof.
  destruct (_save_model Samples.utc Samples.tuned_trainer Samples.empty_fs
              Samples.steady_clf "models/fraud_model.pkl" ["transaction_amount"])
    as [ok fs'] eqn:Hs.
  assert (fst (_save_model Samples.utc Samples.tuned_trainer Samples.empty_fs
                 Samples.steady_clf "models/fraud_model.pkl" ["transaction_amount"])
          = true) as E by by_evaluation.
  rewrite Hs in E. cbn [fst] in E. subst ok.
  pose proof (trainer_save_inv _ _ _ _ _ _ _ Hs) as Hf.
  exists fs'. split; [reflexivity|]. split; [|split].
  - eexists. split; [exact Hf | reflexivity].
  - eexists. split.
    + unfold trainer_load_model, mbind, res_bind, load. rewrite Hf. reflexivity.
    + split; [reflexivity | discriminate].
  - do 2 eexists. split; [apply (load_model_stored _ _ _ _ Hf)|].
    split; [vm_compute; reflexivity|].
    split; [reflexivity|]. vm_compute. discriminate.
Qed.

(** A saved classifier is found again; a bare file name cannot be saved
    to; and a predictor that holds a model without using it (a later
    [load_model] failed) saves it, so that the reloaded predictor answers
    by the model where the saving one answers by the rules. *)
Example predictor_round_trip_sample :
  (exists fs' q',
      save_model Samples.empty_fs "models/fraud_model.pkl"
        (Samples.with_model Samples.steady_clf)
        = (Ok (true, fs'), Samples.with_model Samples.steady_clf) /\
      load_model fs' "models/fraud_model.pkl" Samples.no_model = (Ok true, q') /\
      model q' = Some (ObjClassifier Samples.steady_clf)) /\
  save_model Samples.empty_fs "fraud_model.pkl"
    (Samples.with_model Samples.steady_clf)
    = (Ok (false, Samples.empty_fs), Samples.with_model Samples.steady_clf) /\
  (exists fs' q' b b' x x',
      save_model Samples.empty_fs "models/fraud_model.pkl"
        (set_model_loaded false (Samples.with_model Samples.steady_clf))
        = (Ok (true, fs'),
           set_model_loaded false (Samples.with_model Samples.steady_clf)) /\
      load_model fs' "models/fraud_model.pkl"
        (set_model_loaded false (Samples.with_model Samples.steady_clf))
        = (Ok true, q') /\
      fst (predict ∅ q') = Ok (b, 9 # 10, x) /\
      fst (predict ∅ (set_model_loaded false (Samples.with_model Samples.steady_clf)))
        = Ok (b', Qmin (inject_Z 0 / 100) 1, x')).
Proof.
  split; [|split].
  - destruct (save_model Samples.empty_fs "models/fraud_model.pkl"
                (Samples.with_model Samples.steady_clf)) as [r s] eqn:Hs.
    assert (exists fs', r = Ok (true, fs') /\ s = Samples.with_model Samples.steady_clf)
      as (fs' & -> & ->).
    { apply (f_equal (fun x => (match fst x with
                                | Ok (b, _) => b | Raise _ => false end, snd x)))
        in Hs.
      vm_compute in Hs. injection Hs as Hb <-.
      destruct r as [[[] fs']|]; try discriminate. eauto. }
    destruct (save_model_inv _ _ _ _ _ Hs) as (_ & obj & Hm & Hf).
    injection Hm as <-.
    exists fs'. eexists. split; [reflexivity|].
    split; [apply (load_model_stored _ _ _ _ Hf) | reflexivity].
  - by_evaluation.
  - destruct (save_model Samples.empty_fs "models/fraud_model.pkl"
                (set_model_loaded false (Samples.with_model Samples.steady_clf)))
      as [r s] eqn:Hs.
    assert (exists fs', r = Ok (true, fs') /\
              s = set_model_loaded false (Samples.with_model Samples.steady_clf))
      as (fs' & -> & ->).
    { apply (f_equal (fun x => (match fst x with
                                | Ok (b, _) => b | Raise _ => false end, snd x)))
        in Hs.
      vm_compute in Hs. injection Hs as Hb <-.
      destruct r as [[[] fs']|]; try discriminate. eauto. }
    destruct (save_model_inv _ _ _ _ _ Hs) as (_ & obj & Hm & Hf).
    injection Hm as <-.
    exists fs'. do 5 eexists. split; [reflexivity|].
    split; [apply (load_model_stored _ _ _ _ Hf)|].
    split; vm_compute; reflexivity.
Qed.

End RoundTrip.

(** * Further properties *)

(** ** Risk level and recommended action *)

Section Actions.

Import Predictor.

Lemma action_for_cases (is_fraud : bool) (r : Q) :
  action_for is_fraud r =
  if is_fraud || Qgeb r 90 then "BLOCK"
  else if Qgeb r 70 then "REVIEW"
  else if Qgeb r 30 then "MONITOR"
  else "ALLOW".
Proof.
  unfold action_for, _get_recommended_action, _determine_risk_level.
  destruct is_fraud, (Qgeb r 90), (Qgeb r 70), (Qgeb r 30); reflexivity.
Qed.

(** X1.  The recommended action as a function of the verdict and the
    risk score: BLOCK exactly for a fraud verdict or a score of 90 or
    more; otherwise REVIEW from 70, MONITOR from 30, and ALLOW below 30. *)
Theorem recommended_action_by_score (is_fraud : bool) (r : Q) :
  (action_for is_fraud r = "BLOCK" <-> is_fraud = true \/ (90 <= r)%Q) /\
  (action_for is_fraud r = "REVIEW"
     <-> is_fraud = false /\ (70 <= r)%Q /\ (r < 90)%Q) /\
  (action_for is_fraud r = "MONITOR"
     <-> is_fraud = false /\ (30 <= r)%Q /\ (r < 70)%Q) /\
  (action_for is_fraud r = "ALLOW" <-> is_fraud = false /\ (r < 30)%Q).
Proof.
  rewrite action_for_cases.
  destruct is_fraud; cbn [orb];
  destruct (Qgeb r 90) eqn:H90; [apply Qgeb_true in H90 | apply Qgeb_false in H90 | apply Qgeb_true in H90 | apply Qgeb_false in H90];
  (destruct (Qgeb r 70) eqn:H70; [apply Qgeb_true in H70 | apply Qgeb_false in H70]);
  (destruct (Qgeb r 30) eqn:H30; [apply Qgeb_true in H30 | apply Qgeb_false in H30]);
  repeat split; intros; try discriminate; try reflexivity; auto;
    try (destruct H as [H|H]; [discriminate H | lra]);
    try (destruct H as (H & ? & ?); first [discriminate H | lra]);
    try (destruct H as (H & ?); first [discriminate H | lra]); try lra.
Qed.


Lemma risk_score_shape (features : featmap) :
  (exists ex, forall p, _calculate_risk_score features p = Raise ex) \/
  (exists m, (1 <= m)%Q /\
     forall p, exists r,
       _calculate_risk_score features p = Ok r /\ (r == Qmin (p * 100 * m) 100)%Q).
Proof.
  unfold _calculate_risk_score, mbind, res_bind.
  destruct (py_gt (dget features "transaction_amount" (VInt 0)) 1000) as [[|]|ex];
    [| destruct (py_gt (dget features "transaction_amount" (VInt 0)) 500)
         as [[|]|ex] |];
    try (left; exists ex; reflexivity);
    destruct (py_eq1 (dget features "is_first_transaction" (VInt 0)));
    right.
  - exists ((12 # 10) * (13 # 10))%Q. split; [discriminate|].
    intros p. eexists. split; [reflexivity|]. apply Q.min_compat; [ring|reflexivity].
  - exists (12 # 10)%Q. split; [discriminate|].
    intros p. eexists. split; [reflexivity|]. reflexivity.
  - exists ((11 # 10) * (13 # 10))%Q. split; [discriminate|].
    intros p. eexists. split; [reflexivity|]. apply Q.min_compat; [ring|reflexivity].
  - exists (11 # 10)%Q. split; [discriminate|].
    intros p. eexists. split; [reflexivity|]. reflexivity.
  - exists (13 # 10)%Q. split; [discriminate|].
    intros p. eexists. split; [reflexivity|]. apply Q.min_compat; [ring|reflexivity].
  - exists 1%Q. split; [discriminate|].
    intros p. eexists. split; [reflexivity|]. apply Q.min_compat; [ring|reflexivity].
Qed.

Lemma action_rank_monotone (f1 f2 : bool) (r1 r2 : Q) :
  (f1 = true -> f2 = true) -> (r1 <= r2)%Q ->
  (action_rank (action_for f1 r1) <= action_rank (action_for f2 r2))%nat.
Proof.
  intros Hf Hr. rewrite !action_for_cases.
  destruct f1; [rewrite (Hf eq_refl); cbn; lia|].
  destruct f2; cbn [orb];
    [destruct (Qgeb r1 90), (Qgeb r1 70), (Qgeb r1 30); cbn; lia|].
  destruct (Qgeb r1 90) eqn:A1; [apply Qgeb_true in A1 | apply Qgeb_false in A1];
  (destruct (Qgeb r1 70) eqn:A2; [apply Qgeb_true in A2 | apply Qgeb_false in A2]);
  (destruct (Qgeb r1 30) eqn:A3; [apply Qgeb_true in A3 | apply Qgeb_false in A3]);
  (destruct (Qgeb r2 90) eqn:B1; [apply Qgeb_true in B1 | apply Qgeb_false in B1]);
  (destruct (Qgeb r2 70) eqn:B2; [apply Qgeb_true in B2 | apply Qgeb_false in B2]);
  (destruct (Qgeb r2 30) eqn:B3; [apply Qgeb_true in B3 | apply Qgeb_false in B3]);
  cbn; try lia; exfalso; lra.
Qed.

(** X2.  For the same features a higher probability never gives a lower
    risk score, nor a milder recommended action. *)
Theorem higher_probability_never_milder
    (features : featmap) (th p1 p2 r1 r2 : Q) :
  (p1 <= p2)%Q ->
  _calculate_risk_score features p1 = Ok r1 ->
  _calculate_risk_score features p2 = Ok r2 ->
  (r1 <= r2)%Q /\
  (action_rank (action_for (Qgeb p1 th) r1)
   <= action_rank (action_for (Qgeb p2 th) r2))%nat.
Proof.
  intros Hp H1 H2.
  assert (r1 <= r2)%Q as Hr.
  { destruct (risk_score_shape features) as [[ex He] | (m & Hm & Hs)].
    - rewrite He in H1. discriminate.
    - destruct (Hs p1) as (x1 & E1 & Q1), (Hs p2) as (x2 & E2 & Q2).
      rewrite H1 in E1. rewrite H2 in E2.
      injection E1 as <-. injection E2 as <-. rewrite Q1, Q2.
      apply Q.min_le_compat_r.
      apply Qmult_le_compat_r; [|lra].
      apply Qmult_le_compat_r; [exact Hp | discriminate]. }
  split; [exact Hr|].
  apply action_rank_monotone; [|exact Hr].
  rewrite !Qgeb_true. intros H. lra.
Qed.

Lemma higher_probability_never_milder_witness :
  (Qmin ((65 # 100) * 100) 100 <= Qmin ((9 # 10) * 100) 100)%Q /\
  (action_rank (action_for (Qgeb (65 # 100) (8 # 10)) (Qmin ((65 # 100) * 100) 100))
   <= action_rank (action_for (Qgeb (9 # 10) (8 # 10))
                       (Qmin ((9 # 10) * 100) 100)))%nat.
Proof.
  refine (higher_probability_never_milder ∅ (8 # 10) (65 # 100) (9 # 10)
            _ _ _ _ _).
  - discriminate.
  - reflexivity.
  - reflexivity.
Defined.

End Actions.

(** ** Sanitizing and padding feature dictionaries *)

Section Dictionaries.

Import Predictor.

Lemma sanitized_entry_again (key : string) (value v : pyval) :
  sanitized_entry key value = Some v -> sanitized_entry key v = Some v.
Proof.
  unfold sanitized_entry.
  destruct (is_complex value) eqn:Hc; [discriminate|].
  destruct (is_sensitive key); intros [= <-]; [reflexivity|].
  destruct value; try discriminate; reflexivity.
Qed.

(** X3.  Sanitizing twice is sanitizing once, and sanitizing adds no key. *)
Theorem sanitize_features_idempotent (features : featmap) :
  _sanitize_features (_sanitize_features features) = _sanitize_features features /\
  dom (_sanitize_features features) ⊆ dom features.
Proof.
  split.
  - apply map_eq. intros k. rewrite !sanitize_lookup.
    destruct (features !! k) as [value|]; [|reflexivity]. cbn.
    destruct (sanitized_entry k value) as [v|] eqn:Hv; [|reflexivity].
    cbn. now apply sanitized_entry_again in Hv.
  - intros k. rewrite !elem_of_dom, sanitize_lookup.
    destruct (features !! k); [eauto|]. cbn. intros [? [=]].
Qed.

(** X4.  The frame given to a model keeps every entry of the features,
    holds every expected column, adds nothing but expected columns at 0,
    and padding it again changes nothing. *)
Theorem ensure_feature_columns_pads (df : featmap) :
  (forall k v, df !! k = Some v -> _ensure_feature_columns df !! k = Some v) /\
  (forall k, In k expected_columns -> is_Some (_ensure_feature_columns df !! k)) /\
  (forall k v, df !! k = None -> _ensure_feature_columns df !! k = Some v ->
               In k expected_columns /\ v = VInt 0) /\
  _ensure_feature_columns (_ensure_feature_columns df) = _ensure_feature_columns df.
Proof.
  split; [|split; [|split]].
  - intros k v H. now rewrite ensure_lookup, H.
  - intros k Hk. rewrite ensure_lookup.
    rewrite bool_decide_eq_true_2 by now apply list_elem_of_In.
    destruct (df !! k); eauto.
  - intros k v H. rewrite ensure_lookup, H.
    destruct (bool_decide (k ∈ expected_columns)) eqn:Hin; [|discriminate].
    apply bool_decide_eq_true in Hin. intros [= <-].
    split; [now apply list_elem_of_In | reflexivity].
  - apply map_eq. intros k. rewrite !ensure_lookup.
    destruct (df !! k); [reflexivity|].
    destruct (bool_decide (k ∈ expected_columns)); reflexivity.
Qed.

End Dictionaries.

(** ** Explanations *)

Section Explanations.

Import FeatureExtractor Predictor.

(** X5.  An explanation lists one sentence and one contribution for each
    risk factor, and the contributions, when there are any, are shares
    that sum to 100. *)
Theorem explanation_contributions_sum_to_100
    (features : featmap) (probability : Q) (x : explanation) :
  explain_prediction features probability = Ok x ->
  exists factors contributions,
    ex_factors x = Some factors /\
    ex_contributions x = Some contributions /\
    length factors = length (ex_risk_factors x) /\
    length contributions = length (ex_risk_factors x) /\
    (ex_risk_factors x = [] \/ (Qsum contributions == 100)%Q).
Proof.
  unfold explain_prediction, mbind, res_bind.
  repeat (match goal with
          | |- context [py_eq1 ?v] => destruct (py_eq1 v)
          | |- context [format_float ?a ?b] => destruct (format_float a b)
          end; try discriminate);
    intros [= <-]; do 2 eexists;
    (split; [reflexivity|]); (split; [reflexivity|]);
    (split; [reflexivity|]); (split; [reflexivity|]);
    first [left; reflexivity | right; reflexivity].
Qed.

Lemma explanation_contributions_witness :
  exists factors contributions,
    ex_factors MoreSamples.flagged_explanation = Some factors /\
    ex_contributions MoreSamples.flagged_explanation = Some contributions /\
    length factors = length (ex_risk_factors MoreSamples.flagged_explanation) /\
    length contributions
      = length (ex_risk_factors MoreSamples.flagged_explanation) /\
    (ex_risk_factors MoreSamples.flagged_explanation = [] \/
     (Qsum contributions == 100)%Q).
Proof.
  apply (explanation_contributions_sum_to_100 MoreSamples.flagged (1 # 2)).
  by_evaluation.
Defined.

End Explanations.

(** ** What the consumers find in an extracted feature vector *)

Section ExtractedView.

Import FeatureExtractor Predictor.

Lemma no_device_anomaly e t h (fs : featmap) :
  extract_features e t h = Ok fs -> fs !! "device_anomaly" = None.
Proof.
  intros H.
  destruct (extract_features_inv _ _ _ _ H) as (beh & tmp & d & Hb & Ht & Hd & ->).
  destruct (derived_inv _ _ Hd) as (c1 & c2 & c5 & c6 & _ & _ & _ & _ & ->).
  assert (beh !! "device_anomaly" = None) as B.
  { destruct h as [[|x l]|]; cbn [behavior_features] in Hb;
      try (injection Hb as <-; reflexivity).
    destruct (behavior_ok _ _ _ _ _ Hb) as (amounts & statuses & _ & _ & _ & _ & ->).
    cbv zeta.
    match goal with
    | |- context [if ?b then <[ "avg_time_between_transactions" := _ ]> _ else _] =>
        destruct b
    end; reflexivity. }
  assert (tmp !! "device_anomaly" = None) as T.
  { revert Ht. unfold _extract_temporal_features, mbind, res_bind.
    destruct (fromtimestamp e _); [|discriminate]. intros [= <-]. reflexivity. }
  assert (_extract_technical_features t !! "device_anomaly" = None) as C.
  { unfold _extract_technical_features.
    destruct (negb (String.eqb _ "")); reflexivity. }
  unfold base_features. rewrite !dupdate_lookup, B, T, C. reflexivity.
Qed.

Lemma extracted_view e t h (fs : featmap) :
  extract_features e t h = Ok fs ->
  exists (r v f : option pyval) ratio velocity failure_rate dt,
    num_of (default (VInt 1) r) = Some ratio /\
    num_of (default (VInt 0) v) = Some velocity /\
    num_of (default (VInt 0) f) = Some failure_rate /\
    fromtimestamp e (default (TsNum (now e)) (tx_timestamp t)) = Ok dt /\
    map (fun k => fs !! k) consumer_keys
      = consumer_values r v f dt t ratio velocity failure_rate.
Proof.
  intros H. pose proof (no_device_anomaly _ _ _ _ H) as Hda.
  destruct (extract_features_inv _ _ _ _ H) as (beh & tmp & d & Hb & Ht & Hd & ->).
  destruct (base_reads _ _ _ _ _ Hb Ht)
    as (r & v & f & ratio & vel & fr & dt & Hr & Hv & Hf & _ & Hdt & R).
  unfold reads in R. cbn [map read_keys] in R.
  injection R as R1 R2 R3 R4 R5 R6 R7 R8 R9.
  destruct (derived_inv _ _ Hd) as (c1 & c2 & c5 & c6 & H1 & H2 & H5 & H6 & ->).
  unfold dget in H1, H2, H5, H6, Hda |- *.
  rewrite R1, R2, R3, R4, R5, R6, R7 in *. cbn [default from_option id] in *.
  rewrite py_eq1_flag, py_eq1_flag in Hda |- *.
  rewrite (py_gt_num _ _ _ Hr) in H1. rewrite (py_gt_num _ _ _ Hv) in H2.
  rewrite (py_gt_num _ _ _ Hf) in H5.
  rewrite (py_gt_num _ _ _ (num_of_vnum _)) in H6.
  injection H1 as <-. injection H2 as <-. injection H5 as <-.
  assert (c6 = default false (tx_is_first t) && Qgtb (qnum (tx_amount t)) 100) as ->.
  { cbn [truthy] in H6. destruct (default false (tx_is_first t)); now injection H6. }
  exists r, v, f, ratio, vel, fr, dt. repeat split; try assumption.
  match goal with
  | |- context [derived_of ?a ?b ?c ?d ?e' ?g] =>
      destruct (derived_lookups a b c d e' g) as (D1 & D2 & D3 & D4 & D5 & D6 & D7);
      pose proof (derived_other a b c d e' g) as N
  end.
  unfold consumer_values. cbn [map consumer_keys].
  rewrite Hda. rewrite !dupdate_lookup.
  rewrite D1, D2, D3, D4, D5, D6, D7.
  rewrite !N by (cbn; tauto).
  rewrite R1, R2, R3, R4, R5, R6, R7, R8, R9. reflexivity.
Qed.

End ExtractedView.

Section ExplainExtracted.

Import FeatureExtractor Predictor.

Lemma num_is_number (v : pyval) (q : Q) : num_of v = Some q -> is_number v = true.
Proof. destruct v; try discriminate; reflexivity. Qed.

Lemma format_float_number (tpl : string) (v : pyval) :
  is_number v = true ->
  format_float tpl v = Ok {| template := tpl; arg := Some v |}.
Proof. intros H. unfold format_float. now rewrite H. Qed.

Ltac view_equations H :=
  unfold consumer_values in H; cbn [map consumer_keys] in H;
  injection H as V1 V2 V3 V4 V5 V6 V7 V8 V9 V10 V11 V12 V13 V14 V15 V16 V17.

(** X6.  Explaining an extracted feature vector never raises, and its
    risk factors are exactly the tags of the six tests of the extractor
    that hold for the transaction: deviation ratio above 3, hourly velocity
    above 5, night hours, a session under 60 s, failure rate above 0.3, and
    a first transaction above 100.  DEVICE_ANOMALY is never among them. *)
Theorem explanation_of_extracted_features e t h (fs : featmap) (probability : Q) :
  extract_features e t h = Ok fs ->
  exists ratio velocity failure_rate dt x,
    num_of (dget fs "amount_deviation_ratio" (VInt 1)) = Some ratio /\
    num_of (dget fs "hourly_velocity" (VInt 0)) = Some velocity /\
    num_of (dget fs "previous_failure_rate" (VInt 0)) = Some failure_rate /\
    fromtimestamp e (default (TsNum (now e)) (tx_timestamp t)) = Ok dt /\
    explain_prediction fs probability = Ok x /\
    ex_risk_factors x =
      triggered_tags (Qgtb ratio 3) (Qgtb velocity 5) (is_night dt)
        (Qltb (qnum (tx_session_duration t)) 60)
        (Qgtb failure_rate (3 # 10))
        (default false (tx_is_first t) && Qgtb (qnum (tx_amount t)) 100) /\
    ~ In "DEVICE_ANOMALY" (ex_risk_factors x).
Proof.
  intros H.
  destruct (extracted_view _ _ _ _ H)
    as (r & v & f & ratio & vel & fr & dt & Hr & Hv & Hf & Hdt & V).
  view_equations V.
  exists ratio, vel, fr, dt.
  unfold explain_prediction, dget.
  rewrite V1, V2, V3, V7, V8, V9, V10, V11, V12, V13, V14, V15, V17.
  cbn [default from_option id]. rewrite !py_eq1_flag.
  rewrite (format_float_number _ _ (num_is_number _ _ Hr)).
  rewrite (format_float_number _ _ (num_is_number _ _ Hv)).
  rewrite (format_float_number _ _ (num_is_number _ _ Hf)).
  rewrite (format_float_number _ _ (num_is_number _ _ (num_of_vnum _))).
  unfold mbind, res_bind.
  destruct (Qgtb ratio 3), (Qgtb vel 5), (is_night dt),
    (Qltb (qnum (tx_session_duration t)) 60), (Qgtb fr (3 # 10)),
    (default false (tx_is_first t) && Qgtb (qnum (tx_amount t)) 100);
    (eexists; repeat (split; [first [assumption | reflexivity]|]);
     cbn; intuition discriminate).
Qed.

Lemma explanation_of_extracted_witness :
  exists ratio velocity failure_rate dt x,
    num_of (dget (Samples.features_of None) "amount_deviation_ratio" (VInt 1))
      = Some ratio /\
    num_of (dget (Samples.features_of None) "hourly_velocity" (VInt 0))
      = Some velocity /\
    num_of (dget (Samples.features_of None) "previous_failure_rate" (VInt 0))
      = Some failure_rate /\
    fromtimestamp Samples.utc
      (default (TsNum (now Samples.utc)) (tx_timestamp Samples.night_tx)) = Ok dt /\
    explain_prediction (Samples.features_of None) (1 # 2) = Ok x /\
    ex_risk_factors x =
      triggered_tags (Qgtb ratio 3) (Qgtb velocity 5) (is_night dt)
        (Qltb (qnum (tx_session_duration Samples.night_tx)) 60)
        (Qgtb failure_rate (3 # 10))
        (default false (tx_is_first Samples.night_tx)
         && Qgtb (qnum (tx_amount Samples.night_tx)) 100) /\
    ~ In "DEVICE_ANOMALY" (ex_risk_factors x).
Proof.
  apply (explanation_of_extracted_features Samples.utc Samples.night_tx None).
  by_evaluation.
Defined.

End ExplainExtracted.

(** ** Scoring an extracted feature vector *)

Section ScoreExtracted.

Import FeatureExtractor Predictor.

Ltac view_equations H :=
  unfold consumer_values in H; cbn [map consumer_keys] in H;
  injection H as V1 V2 V3 V4 V5 V6 V7 V8 V9 V10 V11 V12 V13 V14 V15 V16 V17.

Lemma truthy_VBool (b : bool) : truthy (VBool b) = b.
Proof. reflexivity. Qed.

Lemma py_eq1_VBool (b : bool) : py_eq1 (VBool b) = b.
Proof. now destruct b. Qed.

(** The rules never fail on an extracted feature vector. *)
Lemma rule_based_on_extracted e t h (fs : featmap) (p : predictor) (th : Q) :
  extract_features e t h = Ok fs ->
  threshold (config p) = Some th ->
  exists r, _rule_based_prediction fs p = (Ok r, p).
Proof.
  intros H Hth.
  destruct (extracted_view _ _ _ _ H)
    as (r & v & f & ratio & vel & fr & dt & Hr & Hv & Hf & Hdt & V).
  view_equations V.
  unfold _rule_based_prediction, config_threshold, dget.
  rewrite V1, V2, V3, V4, V5, V6, V7. cbn [default from_option id].
  rewrite !py_eq1_flag, truthy_VBool.
  rewrite !(py_gt_num _ _ _ Hr), !(py_gt_num _ _ _ Hv), !(py_gt_num _ _ _ Hf).
  rewrite !(py_gt_num _ _ _ (num_of_vnum _)).
  unfold mbind, pm_bind, lift, self, mret, pm_ret.
  destruct (Qgtb ratio 5), (Qgtb ratio 3), (Qgtb vel 10), (Qgtb vel 5),
    (is_night dt), (Qltb (qnum (tx_session_duration t)) 60),
    (default false (tx_is_first t)), (Qgtb (qnum (tx_amount t)) 100),
    (Qgtb fr (5 # 10)); cbv beta iota; rewrite Hth; eexists; reflexivity.
Qed.

Lemma predict_on_extracted e t h (fs : featmap) (p : predictor) (th : Q) :
  extract_features e t h = Ok fs ->
  threshold (config p) = Some th ->
  exists r, predict fs p = (Ok r, p).
Proof.
  intros H Hth. destruct (rule_based_on_extracted _ _ _ _ p _ H Hth) as [rb Hrb].
  assert (config_threshold p = (Ok th, p)) as Hc.
  { unfold config_threshold, mbind, pm_bind, self. now rewrite Hth. }
  unfold predict, try_except, mbind, pm_bind, self, lift.
  destruct (model_loaded p); [|rewrite Hrb; eauto].
  destruct (model p) as [obj|]; [|rewrite Hrb; eauto].
  destruct (model_probability obj _); [|rewrite Hrb; eauto].
  rewrite Hc.
  destruct (explain_prediction fs _); [|rewrite Hrb; eauto].
  unfold mret, pm_ret. eauto.
Qed.

Lemma risk_score_on_extracted e t h (fs : featmap) (q : Q) :
  extract_features e t h = Ok fs ->
  exists r, _calculate_risk_score fs q = Ok r.
Proof.
  intros H.
  destruct (extracted_view _ _ _ _ H)
    as (r & v & f & ratio & vel & fr & dt & Hr & Hv & Hf & Hdt & V).
  view_equations V.
  unfold _calculate_risk_score, dget. rewrite V6, V7.
  cbn [default from_option id].
  rewrite !(py_gt_num _ _ _ (num_of_vnum _)). unfold mbind, res_bind.
  destruct (Qgtb (qnum (tx_amount t)) 1000), (Qgtb (qnum (tx_amount t)) 500); eauto.
Qed.

Lemma features_for_extractor e t history (p : predictor) :
  feature_extractor p = true ->
  features_for e t history p = (extract_features e t (Some history), p).
Proof.
  intros Hfx. unfold features_for, mbind, pm_bind, self, lift. now rewrite Hfx.
Qed.

Lemma score_on_extracted e i t uh (p : predictor) (th : Q) :
  feature_extractor p = true ->
  threshold (config p) = Some th ->
  match extract_features e t (Some (history_for t uh)) with
  | Ok fs =>
      exists r, score_transaction e i t uh p = (Ok r, p) /\
                r_features r = _sanitize_features fs
  | Raise ex => score_transaction e i t uh p = (Raise ex, p)
  end.
Proof.
  intros Hfx Hth.
  unfold score_transaction, mbind, pm_bind, lift, self, mret, pm_ret.
  rewrite (features_for_extractor _ _ _ _ Hfx).
  destruct (extract_features e t (Some (history_for t uh))) as [fs|ex] eqn:He;
    [|reflexivity].
  destruct (predict_on_extracted _ _ _ _ p _ He Hth) as [[[b q] x] Hp].
  destruct (risk_score_on_extracted _ _ _ _ q He) as [rs Hrs].
  rewrite Hp, Hrs.
  eexists. split; [reflexivity|].
  repeat match goal with
         | |- context [match ?d with _ => _ end] => destruct d
         end; reflexivity.
Qed.

(** X7.  With a feature extractor held and a threshold configured, scoring
    a transaction fails exactly when extracting its features fails, and
    then with the exception of the extraction. *)
Theorem scoring_fails_only_in_extraction e i t uh (p : predictor) (th : Q) :
  feature_extractor p = true ->
  threshold (config p) = Some th ->
  match extract_features e t (Some (history_for t uh)) with
  | Ok fs =>
      exists r, score_transaction e i t uh p = (Ok r, p) /\
                r_features r = _sanitize_features fs
  | Raise ex => score_transaction e i t uh p = (Raise ex, p)
  end.
Proof. apply score_on_extracted. Qed.

Lemma Qgtb_false (a b : Q) : Qgtb a b = false <-> (a <= b)%Q.
Proof.
  unfold Qgtb. rewrite negb_false_iff. apply Qle_bool_iff.
Qed.

Lemma Qltb_false (a b : Q) : Qltb a b = false <-> (b <= a)%Q.
Proof.
  unfold Qltb. rewrite negb_false_iff. apply Qle_bool_iff.
Qed.

Lemma predict_without_model (fs : featmap) (p : predictor) r :
  model_loaded p = false ->
  _rule_based_prediction fs p = (Ok r, p) ->
  predict fs p = (Ok r, p).
Proof.
  intros Hl Hrb. unfold predict, try_except, mbind, pm_bind, self.
  now rewrite Hl, Hrb.
Qed.

(** X8.  A quiet transaction is allowed.  When no model is loaded and the
    threshold is positive, a transaction whose extraction succeeds and for
    which none of the six tests holds (deviation ratio at most 3, hourly
    velocity at most 5, failure rate at most 0.3, not at night, a session
    of 60 s or more, and not a first transaction above 100) has composite
    risk score 0 and is scored with probability 0, no risk factor, risk
    score 0, level LOW and action ALLOW. *)
Theorem quiet_transaction_is_allowed
    e i t uh (p : predictor) (th : Q) (fs : featmap)
    (ratio velocity failure_rate : Q) (dt : datetime) :
  model_loaded p = false ->
  feature_extractor p = true ->
  threshold (config p) = Some th -> (0 < th)%Q ->
  extract_features e t (Some (history_for t uh)) = Ok fs ->
  num_of (dget fs "amount_deviation_ratio" (VInt 1)) = Some ratio ->
  num_of (dget fs "hourly_velocity" (VInt 0)) = Some velocity ->
  num_of (dget fs "previous_failure_rate" (VInt 0)) = Some failure_rate ->
  fromtimestamp e (default (TsNum (now e)) (tx_timestamp t)) = Ok dt ->
  (ratio <= 3)%Q -> (velocity <= 5)%Q -> (failure_rate <= 3 # 10)%Q ->
  is_night dt = false ->
  (60 <= qnum (tx_session_duration t))%Q ->
  default false (tx_is_first t) = false \/ (qnum (tx_amount t) <= 100)%Q ->
  fs !! "composite_risk_score" = Some (VInt 0) /\
  exists r,
    score_transaction e i t uh p = (Ok r, p) /\
    (p_probability (r_prediction r) == 0)%Q /\
    p_is_fraud (r_prediction r) = false /\
    ex_risk_factors (r_explanation r) = [] /\
    (ra_score (r_risk_assessment r) == 0)%Q /\
    ra_level (r_risk_assessment r) = "LOW" /\
    act_action (r_recommended_action r) = "ALLOW".
Proof.
  intros Hl Hfx Hth Hpos He Hr' Hv' Hf' Hdt' Cr Cv Cf Cn Cs Ca.
  destruct (extracted_view _ _ _ _ He)
    as (r & v & f & ratio0 & vel0 & fr0 & dt0 & Hr & Hv & Hf & Hdt & V).
  view_equations V.
  unfold dget in Hr', Hv', Hf'. rewrite V1 in Hr'. rewrite V2 in Hv'.
  rewrite V3 in Hf'. rewrite Hr in Hr'. rewrite Hv in Hv'. rewrite Hf in Hf'.
  rewrite Hdt in Hdt'.
  injection Hr' as ->. injection Hv' as ->. injection Hf' as ->.
  injection Hdt' as ->.
  assert (Qgtb ratio 3 = false) as G1 by (apply Qgtb_false; exact Cr).
  assert (Qgtb ratio 5 = false) as G1' by (apply Qgtb_false; lra).
  assert (Qgtb velocity 5 = false) as G2 by (apply Qgtb_false; exact Cv).
  assert (Qgtb velocity 10 = false) as G2' by (apply Qgtb_false; lra).
  assert (Qgtb failure_rate (3 # 10) = false) as G5 by (apply Qgtb_false; exact Cf).
  assert (Qgtb failure_rate (5 # 10) = false) as G5' by (apply Qgtb_false; lra).
  assert (Qltb (qnum (tx_session_duration t)) 60 = false) as G4
    by (apply Qltb_false; exact Cs).
  assert (default false (tx_is_first t) && Qgtb (qnum (tx_amount t)) 100 = false)
    as G6.
  { destruct Ca as [-> | Ca]; [reflexivity|].
    apply andb_false_intro2. apply Qgtb_false. exact Ca. }
  rewrite G1, G2, G4, G5, G6, Cn in *.
  split; [exact V16|].
  assert (exists x,
             _rule_based_prediction fs p = (Ok (false, Qmin (inject_Z 0 / 100) 1, x), p)
             /\ ex_risk_factors x = []) as (x & Hrb & Hx).
  { unfold _rule_based_prediction, config_threshold, dget.
    rewrite V1, V2, V3, V4, V5, V6, V7. cbn [default from_option id].
    rewrite !py_eq1_flag, truthy_VBool.
    rewrite !(py_gt_num _ _ _ Hr), !(py_gt_num _ _ _ Hv), !(py_gt_num _ _ _ Hf).
    rewrite !(py_gt_num _ _ _ (num_of_vnum _)).
    rewrite G1, G1', G2, G2', G5'.
    unfold mbind, pm_bind, lift, self, mret, pm_ret.
    assert (Qgeb (Qmin (inject_Z 0 / 100) 1) th = false) as Gth
      by (apply Qgeb_false;
          assert (Qmin (inject_Z 0 / 100) 1 == 0)%Q as -> by reflexivity;
          exact Hpos).
    destruct (default false (tx_is_first t)); cbn [andb] in G6;
      rewrite ?G6; cbv beta iota; rewrite Hth; cbv beta iota; rewrite Gth;
      eexists; split; reflexivity. }
  pose proof (predict_without_model _ _ _ Hl Hrb) as Hp.
  pose proof (score_on_extracted e i t uh p th Hfx Hth) as Hs.
  rewrite He in Hs. destruct Hs as (res & Hs & _).
  destruct (scored_inv _ _ _ _ _ _ _ Hs)
    as (fs' & b & q & x' & rs & Hff & Hp' & Hrs & Rp & Ra & Rc & Rx & _).
  rewrite (features_for_extractor _ _ _ _ Hfx), He in Hff.
  injection Hff as <-. rewrite Hp in Hp'. injection Hp' as <- <- <-.
  assert (rs == 0)%Q as Hz.
  { revert Hrs. unfold _calculate_risk_score, dget. rewrite V6, V7.
    cbn [default from_option id].
    rewrite !(py_gt_num _ _ _ (num_of_vnum _)), py_eq1_VBool.
    unfold mbind, res_bind.
    destruct (Qgtb (qnum (tx_amount t)) 1000), (Qgtb (qnum (tx_amount t)) 500),
      (default false (tx_is_first t));
      intros [= <-]; reflexivity. }
  exists res. split; [exact Hs|].
  rewrite Rp, Ra, Rc, Rx. cbn [p_probability p_is_fraud ra_score ra_level].
  split; [reflexivity|]. split; [reflexivity|]. split; [exact Hx|].
  split; [exact Hz|].
  assert (_determine_risk_level rs = "LOW") as ->.
  { apply level_cases. rewrite Hz. reflexivity. }
  split; reflexivity.
Qed.

Lemma quiet_transaction_witness :
  MoreSamples.quiet_features !! "composite_risk_score" = Some (VInt 0) /\
  exists r,
    score_transaction Samples.utc 0 MoreSamples.quiet_tx None Samples.no_model
      = (Ok r, Samples.no_model) /\
    (p_probability (r_prediction r) == 0)%Q /\
    p_is_fraud (r_prediction r) = false /\
    ex_risk_factors (r_explanation r) = [] /\
    (ra_score (r_risk_assessment r) == 0)%Q /\
    ra_level (r_risk_assessment r) = "LOW" /\
    act_action (r_recommended_action r) = "ALLOW".
Proof.
  refine (quiet_transaction_is_allowed Samples.utc 0 MoreSamples.quiet_tx None
            Samples.no_model (8 # 10) MoreSamples.quiet_features 1 0 0
            MoreSamples.noon eq_refl eq_refl eq_refl eq_refl
            _ _ _ _ _ _ _ _ eq_refl _ (or_introl eq_refl));
    try by_evaluation; vm_compute; discriminate.
Defined.

Lemma scoring_fails_only_in_extraction_witness :
  match extract_features Samples.utc Samples.night_tx
          (Some (history_for Samples.night_tx None)) with
  | Ok fs =>
      exists r,
        score_transaction Samples.utc 0 Samples.night_tx None Samples.no_model
          = (Ok r, Samples.no_model) /\
        r_features r = _sanitize_features fs
  | Raise ex =>
      score_transaction Samples.utc 0 Samples.night_tx None Samples.no_model
        = (Raise ex, Samples.no_model)
  end.
Proof.
  exact (scoring_fails_only_in_extraction Samples.utc 0 Samples.night_tx None
           Samples.no_model (8 # 10) eq_refl eq_refl).
Defined.

End ScoreExtracted.

(** ** When feature extraction fails *)

Section ExtractionFailures.

Import FeatureExtractor Predictor.

Lemma extract_features_eq e t h :
  extract_features e t h =
  (beh ← behavior_features e t h;
   tmp ← _extract_temporal_features e t;
   d ← _calculate_derived_features (base_features t beh tmp);
   Ok (dupdate (base_features t beh tmp) d)).
Proof.
  unfold extract_features, base_features, mbind, res_bind.
  destruct h as [[|x l]|]; cbn [behavior_features]; rewrite ?dupdate_empty;
    try reflexivity.
  destruct (_extract_user_behavior_features e t (x :: l)); reflexivity.
Qed.

Lemma derived_total e t h (beh tmp : featmap) :
  behavior_features e t h = Ok beh ->
  _extract_temporal_features e t = Ok tmp ->
  exists d, _calculate_derived_features (base_features t beh tmp) = Ok d.
Proof.
  intros Hb Ht.
  destruct (base_reads _ _ _ _ _ Hb Ht)
    as (r & v & f & ratio & vel & fr & dt & Hr & Hv & Hf & _ & _ & R).
  unfold reads in R. cbn [map read_keys] in R.
  injection R as R1 R2 R3 R4 R5 R6 R7 _ _.
  unfold _calculate_derived_features, dget.
  rewrite R1, R2, R3, R4, R5, R6, R7. cbn [default from_option id].
  rewrite (py_gt_num _ _ _ Hr), (py_gt_num _ _ _ Hv), (py_gt_num _ _ _ Hf).
  rewrite (py_gt_num _ _ _ (num_of_vnum _)), !py_eq1_flag.
  unfold mbind, res_bind. cbn [truthy].
  destruct (Qgtb ratio 3), (Qgtb vel 5), (is_night dt),
    (Qltb (qnum (tx_session_duration t)) 60), (Qgtb fr (3 # 10)),
    (default false (tx_is_first t)), (Qgtb (qnum (tx_amount t)) 100);
    eexists; reflexivity.
Qed.

Lemma behavior_of_history e t (x : hist_entry) (l : list hist_entry) :
  if negb (has_column h_amount (x :: l))
  then _extract_user_behavior_features e t (x :: l) = Raise (KeyError "amount")
  else
    match (if has_column h_timestamp (x :: l)
           then to_datetime e (map h_timestamp (x :: l)) else Ok tt) with
    | Raise ex => _extract_user_behavior_features e t (x :: l) = Raise ex
    | Ok _ =>
        if negb (has_column h_status (x :: l))
        then _extract_user_behavior_features e t (x :: l)
             = Raise (KeyError "status")
        else if existsb (fun h => is_text (h_timestamp h)) (x :: l)
        then _extract_user_behavior_features e t (x :: l)
             = Raise (TypeError
                        "'>' not supported between instances of 'str' and 'float'")
        else exists beh, _extract_user_behavior_features e t (x :: l) = Ok beh
    end.
Proof.
  unfold _extract_user_behavior_features, column, compare_timestamps, has_column,
    mbind, res_bind.
  destruct (existsb _ (x :: l)); cbn [negb]; [|reflexivity].
  destruct (existsb _ (x :: l));
    [destruct (to_datetime e _) as [[]|]; [|reflexivity]|];
    (destruct (existsb _ (x :: l)); cbn [negb]; [|reflexivity]);
    (destruct (existsb _ (x :: l)); [reflexivity|]);
    eexists; reflexivity.
Qed.

Lemma extraction_after_history e t h (beh : featmap) :
  behavior_features e t h = Ok beh ->
  match fromtimestamp e (default (TsNum (now e)) (tx_timestamp t)) with
  | Ok _ => exists fs, extract_features e t h = Ok fs
  | Raise ex => extract_features e t h = Raise ex
  end.
Proof.
  intros Hb. rewrite extract_features_eq, Hb. unfold mbind at 1, res_bind at 1.
  destruct (_extract_temporal_features e t) as [tmp|ex] eqn:Ht.
  - destruct (derived_total _ _ _ _ _ Hb Ht) as [d Hd].
    revert Ht. unfold _extract_temporal_features at 1, mbind at 1, res_bind at 1.
    destruct (fromtimestamp e _); [|discriminate]. intros _.
    unfold mbind, res_bind. rewrite Hd. eauto.
  - revert Ht. unfold _extract_temporal_features at 1, mbind at 1, res_bind at 1.
    destruct (fromtimestamp e _); [discriminate|]. now intros [= ->].
Qed.

(** X9.  The ways feature extraction fails, for a transaction and a
    history whose present fields hold numbers and texts as the records
    type them.  With a non-empty history it raises, in this order:
    [KeyError: 'amount'] when no entry has an amount; what
    [pd.to_datetime] raises on the timestamps, when an entry has one;
    [KeyError: 'status'] when no entry has a status; a [TypeError] when
    the timestamp of an entry is a text.  Otherwise, and without a
    history, it raises exactly when the timestamp of the transaction is
    refused by [datetime.fromtimestamp], with that exception, and returns
    the features in every other case. *)
Theorem extraction_fails_exactly_when e t h :
  match h with
  | Some ((_ :: _) as history) =>
      if negb (has_column h_amount history)
      then extract_features e t h = Raise (KeyError "amount")
      else
        match (if has_column h_timestamp history
               then to_datetime e (map h_timestamp history) else Ok tt) with
        | Raise ex => extract_features e t h = Raise ex
        | Ok _ =>
            if negb (has_column h_status history)
            then extract_features e t h = Raise (KeyError "status")
            else if existsb (fun entry => is_text (h_timestamp entry)) history
            then extract_features e t h
                 = Raise (TypeError
                            "'>' not supported between instances of 'str' and 'float'")
            else outcome_after_history e t h
        end
  | _ => outcome_after_history e t h
  end.
Proof.
  unfold outcome_after_history.
  destruct h as [[|x l]|];
    try (apply (extraction_after_history e t _ ∅); reflexivity).
  pose proof (behavior_of_history e t x l) as B.
  assert (forall ex, _extract_user_behavior_features e t (x :: l) = Raise ex ->
                     extract_features e t (Some (x :: l)) = Raise ex) as Hraise.
  { intros ex Hex. rewrite extract_features_eq. cbn [behavior_features].
    now rewrite Hex. }
  destruct (negb (has_column h_amount (x :: l))); [now apply Hraise|].
  destruct (if has_column h_timestamp (x :: l)
            then to_datetime e (map h_timestamp (x :: l)) else Ok tt)
    as [[]|ex]; [|now apply Hraise].
  destruct (negb (has_column h_status (x :: l))); [now apply Hraise|].
  destruct (existsb _ (x :: l)); [now apply Hraise|].
  destruct B as [beh Hb]. now apply (extraction_after_history e t _ beh).
Qed.

Lemma text_timestamp_extraction e t h (s : string) (iso : option Q) :
  tx_timestamp t = Some (TsStr s iso) ->
  exists ex, extract_features e t h = Raise ex.
Proof.
  intros Hts. rewrite extract_features_eq.
  destruct (behavior_features e t h) as [beh|ex]; [|eauto].
  unfold mbind at 1, res_bind at 1.
  unfold _extract_temporal_features. rewrite Hts. cbn. eauto.
Qed.

(** X10.  A predictor that holds a feature extractor cannot score a
    transaction whose timestamp is a text, parsable or not: in the batch
    its entry is a failure. *)
Theorem text_timestamp_is_a_failed_entry
    e txs uh (p : predictor) (i : nat) (t : transaction) (s : string) (iso : option Q) :
  feature_extractor p = true ->
  txs !! i = Some t ->
  tx_timestamp t = Some (TsStr s iso) ->
  exists results message,
    predict_batch e txs uh p = (Ok results, p) /\
    results !! i = Some (Failed (transaction_id i t) message).
Proof.
  intros Hfx Hi Hts.
  destruct (text_timestamp_extraction e t (Some (history_for t uh)) s iso Hts)
    as [ex Hex].
  unfold predict_batch. rewrite batch_loop_spec. cbn [app].
  eexists. exists (exn_str ex). split; [reflexivity|].
  rewrite list_lookup_imap, Hi. cbn [fmap option_fmap option_map Nat.add].
  unfold entry_of, score_transaction, features_for, mbind, pm_bind, self, lift.
  now rewrite Hfx, Hex.
Qed.

Lemma text_timestamp_witness :
  exists results message,
    predict_batch Samples.utc [MoreSamples.text_tx] None Samples.no_model
      = (Ok results, Samples.no_model) /\
    results !! 0%nat = Some (Failed (transaction_id 0 MoreSamples.text_tx) message).
Proof.
  exact (text_timestamp_is_a_failed_entry Samples.utc [MoreSamples.text_tx] None
           Samples.no_model 0 MoreSamples.text_tx "1970-01-12T13:46:40"
           (Some 1000000%Q) eq_refl eq_refl eq_refl).
Defined.

End ExtractionFailures.

(** ** The behaviour of a user in the extracted features *)

Section Behaviour.

Import FeatureExtractor.

Lemma column_length {A} name (f : hist_entry -> option A) history values :
  column name f history = Ok values -> length values = length history.
Proof.
  unfold column. destruct (existsb _ history); [|discriminate].
  intros [= <-]. apply length_map.
Qed.

Lemma count_recent_le_length history since :
  (count_recent history since <= length history)%nat.
Proof. unfold count_recent. apply length_filter. Qed.

Lemma count_recent_antitone history since since' :
  (since' <= since)%Q ->
  (count_recent history since <= count_recent history since')%nat.
Proof.
  intros Hle. unfold count_recent.
  induction history as [|h history IH]; [reflexivity|].
  rewrite !filter_cons.
  destruct (decide (Qgtb (seconds (h_timestamp h)) since = true)) as [H1|H1];
    destruct (decide (Qgtb (seconds (h_timestamp h)) since' = true)) as [H2|H2];
    cbn [length]; try lia.
  exfalso. apply H2. apply Qgtb_true. apply Qgtb_true in H1. lra.
Qed.

Lemma behaviour_kept e t (beh tmp d : featmap) (k : string) :
  _extract_temporal_features e t = Ok tmp ->
  _calculate_derived_features (base_features t beh tmp) = Ok d ->
  In k [ "transactions_last_hour"; "transactions_last_24h";
         "total_transaction_count"; "hourly_velocity"; "daily_velocity";
         "previous_failure_rate" ] ->
  dupdate (base_features t beh tmp) d !! k
  = match beh !! k with
    | Some v => Some v
    | None => _extract_transaction_features t !! k
    end.
Proof.
  intros Ht Hd Hk.
  destruct (derived_inv _ _ Hd) as (c1 & c2 & c5 & c6 & _ & _ & _ & _ & ->).
  assert (tmp !! k = None) as T.
  { revert Ht. unfold _extract_temporal_features, mbind, res_bind.
    destruct (fromtimestamp e _); [|discriminate]. intros [= <-].
    cbn [In] in Hk. repeat (destruct Hk as [<- | Hk]); try reflexivity.
    contradiction. }
  assert (_extract_technical_features t !! k = None) as C.
  { unfold _extract_technical_features.
    cbn [In] in Hk.
    destruct (negb (String.eqb _ ""));
      repeat (destruct Hk as [<- | Hk]); try reflexivity; contradiction. }
  assert (derived_of c1 c2
            (py_eq1 (dget (base_features t beh tmp) "is_night_hours" (VInt 0)))
            (py_eq1 (dget (base_features t beh tmp) "short_session" (VInt 0)))
            c5 c6 !! k = None) as D.
  { cbn [In] in Hk. repeat (destruct Hk as [<- | Hk]); try reflexivity.
    contradiction. }
  rewrite dupdate_lookup, D. unfold base_features.
  rewrite !dupdate_lookup, C, T. destruct (beh !! k); [reflexivity|].
  destruct (_extract_transaction_features t !! k); [reflexivity|].
  apply lookup_empty.
Qed.

(** X11.  For a user with a history the extracted counts are nested: the
    transactions of the last hour are among those of the last 24 hours,
    which are among all of the history; the hourly velocity is the first
    count, and the failure rate lies between 0 and 1. *)
Theorem behaviour_counts_are_nested e t (x : hist_entry) (l : list hist_entry)
    (fs : featmap) :
  extract_features e t (Some (x :: l)) = Ok fs ->
  exists (hour day : nat) (rate : Q),
    fs !! "transactions_last_hour" = Some (VInt (Z.of_nat hour)) /\
    fs !! "transactions_last_24h" = Some (VInt (Z.of_nat day)) /\
    fs !! "total_transaction_count" = Some (VInt (Z.of_nat (S (length l)))) /\
    fs !! "hourly_velocity" = Some (VFloat (inject_Z (Z.of_nat hour) / 1)) /\
    fs !! "daily_velocity" = Some (VFloat (inject_Z (Z.of_nat day) / 24)) /\
    fs !! "previous_failure_rate" = Some (VNpFloat rate) /\
    (hour <= day <= S (length l))%nat /\
    (0 <= rate <= 1)%Q.
Proof.
  intros H.
  destruct (extract_features_inv _ _ _ _ H) as (beh & tmp & d & Hb & Ht & Hd & ->).
  cbn [behavior_features] in Hb.
  pose proof (fun k => behaviour_kept e t beh tmp d k Ht Hd) as K.
  destruct (behavior_ok _ _ _ _ _ Hb) as (amounts & statuses & _ & Hst & _ & _ & ->).
  apply column_length in Hst. cbv zeta in K |- *.
  exists (count_recent (x :: l) (now e - 3600)),
         (count_recent (x :: l) (now e - 86400)),
         (inject_Z (Z.of_nat (length (filter (fun s => s = Some "failed") statuses)))
          / inject_Z (Z.of_nat (length (x :: l))))%Q.
  repeat (split; [rewrite K by (cbn; tauto);
                  match goal with
                  | |- context [if ?b then <[ "avg_time_between_transactions" := _ ]> _
                                else _] => destruct b
                  end; reflexivity|]).
  split.
  - split; [apply count_recent_antitone; lra | apply count_recent_le_length].
  - pose proof (length_filter (fun s => s = Some "failed") statuses) as Hf.
    rewrite Hst in Hf. cbn [length] in *.
    set (n := length (filter (fun s => s = Some "failed") statuses)) in *.
    assert (0 < inject_Z (Z.of_nat (S (length l))))%Q as Hpos.
    { change 0%Q with (inject_Z 0). rewrite <- Zlt_Qlt. lia. }
    split.
    + apply Qle_shift_div_l; [exact Hpos|]. rewrite Qmult_0_l.
      change 0%Q with (inject_Z 0). rewrite <- Zle_Qle. lia.
    + apply Qle_shift_div_r; [exact Hpos|]. rewrite Qmult_1_l.
      rewrite <- Zle_Qle. lia.
Qed.

Lemma behaviour_counts_witness :
  exists (hour day : nat) (rate : Q),
    Samples.features_of (Some Samples.sample_history) !! "transactions_last_hour"
      = Some (VInt (Z.of_nat hour)) /\
    Samples.features_of (Some Samples.sample_history) !! "transactions_last_24h"
      = Some (VInt (Z.of_nat day)) /\
    Samples.features_of (Some Samples.sample_history) !! "total_transaction_count"
      = Some (VInt (Z.of_nat (S (length (tl Samples.sample_history))))) /\
    Samples.features_of (Some Samples.sample_history) !! "hourly_velocity"
      = Some (VFloat (inject_Z (Z.of_nat hour) / 1)) /\
    Samples.features_of (Some Samples.sample_history) !! "daily_velocity"
      = Some (VFloat (inject_Z (Z.of_nat day) / 24)) /\
    Samples.features_of (Some Samples.sample_history) !! "previous_failure_rate"
      = Some (VNpFloat rate) /\
    (hour <= day <= S (length (tl Samples.sample_history)))%nat /\
    (0 <= rate <= 1)%Q.
Proof.
  apply (behaviour_counts_are_nested Samples.utc Samples.night_tx
           MoreSamples.latest (tl Samples.sample_history)).
  by_evaluation.
Defined.

End Behaviour.

(** ** Saving and loading artifacts *)

Section Artifacts.

Import Predictor Persistence.

Lemma drop_while_nil {A} (f : A -> bool) (l : list A) :
  drop_while f l = [] <-> forallb f l = true.
Proof.
  induction l as [|x l IH]; cbn; [tauto|].
  destruct (f x); cbn; [exact IH|]. split; discriminate.
Qed.

Lemma string_of_list_ascii_nil (l : list ascii) :
  string_of_list_ascii l = "" <-> l = [].
Proof. destruct l; cbn; split; congruence. Qed.

Lemma rev_nil_iff {A} (l : list A) : rev l = [] <-> l = [].
Proof.
  split; [|intros ->; reflexivity].
  intros H. apply (f_equal (@rev A)) in H. now rewrite rev_involutive in H.
Qed.

(** [os.path.dirname] is empty exactly for a path without a separator. *)
Lemma dirname_empty (path : string) :
  dirname path = "" <-> ~ In "/"%char (list_ascii_of_string path).
Proof.
  unfold dirname. rewrite string_of_list_ascii_nil, rev_nil_iff.
  set (l := rev (list_ascii_of_string path)).
  assert (~ In "/"%char (list_ascii_of_string path)
          <-> forallb (fun c => negb (is_sep c)) l = true) as ->.
  { subst l. rewrite forallb_forall. split.
    - intros H c Hc. apply in_rev in Hc. unfold is_sep.
      destruct (Ascii.eqb_spec c "/"); [subst; tauto | reflexivity].
    - intros H Hin. apply in_rev in Hin. apply H in Hin. discriminate. }
  rewrite <- drop_while_nil.
  destruct (forallb is_sep (drop_while (fun c => negb (is_sep c)) l)) eqn:Hall;
    [tauto|].
  rewrite drop_while_nil, Hall. split; [discriminate|].
  intros H. rewrite H in Hall. discriminate.
Qed.

Lemma dump_ok fs path obj fs' :
  dump fs path obj = (Ok tt, fs') ->
  pickle_error fs obj = None /\ writable fs path = true.
Proof.
  unfold dump.
  destruct (is_dir fs path); [discriminate|].
  destruct (negb _); [discriminate|].
  destruct (writable fs path); [|discriminate].
  destruct (pickle_error fs obj); [discriminate|]. auto.
Qed.

(** X12.  [save_model] never raises and leaves the predictor as it was.
    When it answers [True] a model was held that [pickle.dump] accepts,
    and the file holds its pickle.  It answers [False] and touches
    nothing when no model is held, and when the path is a bare file name
    ([os.makedirs] refuses the empty directory name).  In every case no
    other file is changed and no directory removed; after a [False]
    answer the file at the path is as before or, when the dump raised on
    the opened file, left empty, the previous artifact being lost. *)
Theorem save_model_outcome fs path (p : predictor) :
  exists ok fs',
    save_model fs path p = (Ok (ok, fs'), p) /\
    (ok = true ->
     exists obj,
       model p = Some obj /\ pickle_error fs obj = None /\
       files fs' !! path = Some (Pickled obj)) /\
    (model p = None \/ ~ In "/"%char (list_ascii_of_string path) ->
     ok = false /\ fs' = fs) /\
    (forall other, other <> path -> files fs' !! other = files fs !! other) /\
    dirs fs ⊆ dirs fs' /\
    (ok = false ->
     files fs' !! path = files fs !! path \/
     exists obj ex,
       model p = Some obj /\ pickle_error fs obj = Some ex /\
       files fs' !! path = Some (Unloadable (EOFError "Ran out of input"))).
Proof.
  unfold save_model, mbind, pm_bind, self, mret, pm_ret.
  destruct (model p) as [obj|] eqn:Hm.
  2:{ exists false, fs. repeat split; try discriminate; auto. }
  pose proof (dirname_empty path) as Hde.
  destruct (makedirs fs (dirname path)) as [r1 fs1] eqn:Hmk.
  destruct (makedirs_inv _ _ _ _ Hmk) as (Hf1 & Hs1 & Hw1 & Hp1 & Hempty & _).
  assert (~ In "/"%char (list_ascii_of_string path) -> fs1 = fs /\ r1 <> Ok tt)
    as Hbare by (intros Hn; apply Hempty, Hde, Hn).
  destruct r1 as [[]|ex1].
  2:{ exists false, fs1. split; [reflexivity|].
      split; [discriminate|]. split.
      { intros [Hn | Hn]; [discriminate|]. split; [reflexivity|].
        now apply Hbare. }
      split; [intros other _; now rewrite Hf1|].
      split; [exact Hs1|]. intros _. left. now rewrite Hf1. }
  destruct (dump fs1 path obj) as [r2 fs2] eqn:Hd.
  destruct (dump_inv _ _ _ _ _ Hd) as (Hd2 & Ho2 & Hok2 & Hfail2).
  destruct r2 as [[]|ex2].
  - exists true, fs2. split; [reflexivity|]. split.
    { intros _. exists obj. destruct (dump_ok _ _ _ _ Hd) as [Hpe _].
      rewrite Hp1 in Hpe. auto. }
    split.
    { intros [Hn | Hn]; [discriminate|]. destruct (Hbare Hn) as [_ Hc].
      now contradiction Hc. }
    split; [intros other Ho; rewrite (Ho2 _ Ho); now rewrite Hf1|].
    split; [rewrite Hd2; exact Hs1 | discriminate].
  - exists false, fs2. split; [reflexivity|]. split; [discriminate|]. split.
    { intros [Hn | Hn]; [discriminate|]. destruct (Hbare Hn) as [_ Hc].
      now contradiction Hc. }
    split; [intros other Ho; rewrite (Ho2 _ Ho); now rewrite Hf1|].
    split; [rewrite Hd2; exact Hs1|]. intros _.
    destruct Hfail2 as [-> | (ex & Hpe & Hfile)]; [discriminate | |].
    + left. now rewrite Hf1.
    + right. exists obj, ex. rewrite Hp1 in Hpe. auto.
Qed.

(** When pickling fails, the artifact that was at the path is lost: the
    save answers [False], and a later load finds a file it cannot read. *)
Example failed_save_destroys_artifact :
  load_model MoreSamples.stale_fs "models/fraud_model.pkl" Samples.no_model
    = (Ok true, Samples.with_model Samples.steady_clf) /\
  exists fs',
    save_model MoreSamples.stale_fs "models/fraud_model.pkl"
      (Samples.with_model Samples.broken_clf)
      = (Ok (false, fs'), Samples.with_model Samples.broken_clf) /\
    files fs' !! "models/fraud_model.pkl"
      = Some (Unloadable (EOFError "Ran out of input")) /\
    fst (load_model fs' "models/fraud_model.pkl" Samples.no_model) = Ok false.
Proof.
  split; [by_evaluation|].
  exists (set_file "models/fraud_model.pkl"
            (Unloadable (EOFError "Ran out of input")) MoreSamples.stale_fs).
  split; [by_evaluation|]. split; by_evaluation.
Qed.

Lemma predict_unloaded (features : featmap) (s : predictor) :
  model_loaded s = false ->
  predict features s = _rule_based_prediction features s.
Proof.
  intros Hl. unfold predict, try_except, mbind, pm_bind, self. rewrite Hl.
  destruct (_rule_based_prediction features s) as [[a|ex] s'] eqn:E;
    [reflexivity|].
  pose proof (rule_based_read_only features s) as R. rewrite E in R.
  cbn in R. subst s'. exact E.
Qed.

Lemma load_model_cases fs path (p : predictor) :
  exists ok p',
    load_model fs path p = (Ok ok, p') /\
    (ok = true <-> exists obj, files fs !! path = Some (Pickled obj)) /\
    model_loaded p' = ok /\
    config p' = config p /\
    feature_extractor p' = feature_extractor p /\
    anomaly_detector p' = anomaly_detector p /\
    (forall obj, files fs !! path = Some (Pickled obj) ->
                 model p' = Some obj /\ model_path p' = Some path) /\
    (ok = false ->
       model p' = model p /\ model_path p' = model_path p /\
       forall features,
         predict features p' = _rule_based_prediction features p').
Proof.
  unfold load_model, try_except, mbind, pm_bind, lift, load, assign, mret, pm_ret.
  destruct (files fs !! path) as [[obj|why]|] eqn:Hf.
  - eexists true, _. split; [reflexivity|]. cbn.
    split; [split; eauto|]. do 4 (split; [reflexivity|]).
    split; [intros ? [= <-]; auto | discriminate].
  - eexists false, _. split; [reflexivity|]. cbn.
    split; [split; [discriminate | intros [? [=]]]|].
    do 4 (split; [reflexivity|]). split; [discriminate|].
    intros _. do 2 (split; [reflexivity|]).
    intros features. now apply predict_unloaded.
  - assert (exists ex,
               (if is_dir fs path
                then Raise (OSError ("[Errno 21] Is a directory: '" +:+ path +:+ "'"))
                else Raise (FileNotFoundError
                              ("[Errno 2] No such file or directory: '"
                               +:+ path +:+ "'"))) = @Raise pyobj ex) as [ex ->]
      by (destruct (is_dir fs path); eauto).
    eexists false, _. split; [reflexivity|]. cbn.
    split; [split; [discriminate | intros [? [=]]]|].
    do 4 (split; [reflexivity|]). split; [discriminate|].
    intros _. do 2 (split; [reflexivity|]).
    intros features. now apply predict_unloaded.
Qed.

(** X13.  [load_model] never raises.  It answers [True] exactly when the
    path holds a file that can be opened and unpickled, and then holds
    the stored object, marked as loaded, and remembers the path.  For a
    missing path, a directory, or a file that cannot be read it answers
    [False]: it keeps the model it held but marks it as not loaded, so
    that every later prediction is made by the rules, whatever was loaded
    before. *)
Theorem load_model_outcome fs path (p : predictor) :
  exists ok p',
    load_model fs path p = (Ok ok, p') /\
    (ok = true <-> exists obj, files fs !! path = Some (Pickled obj)) /\
    model_loaded p' = ok /\
    config p' = config p /\
    feature_extractor p' = feature_extractor p /\
    anomaly_detector p' = anomaly_detector p /\
    (forall obj, files fs !! path = Some (Pickled obj) ->
                 model p' = Some obj /\ model_path p' = Some path) /\
    (ok = false ->
       model p' = model p /\ model_path p' = model_path p /\
       forall features,
         predict features p' = _rule_based_prediction features p').
Proof. apply load_model_cases. Qed.

Lemma predict_with_dictionary (features : featmap) (s : predictor) info :
  model s = Some (ObjModelInfo info) ->
  predict features s = _rule_based_prediction features s.
Proof.
  intros Hm. unfold predict, try_except, mbind, pm_bind, self, lift. rewrite Hm.
  destruct (model_loaded s); cbn [model_probability].
  - reflexivity.
  - destruct (_rule_based_prediction features s) as [[a|ex] s'] eqn:E;
      [reflexivity|].
    pose proof (rule_based_read_only features s) as R. rewrite E in R.
    cbn in R. subst s'. exact E.
Qed.

(** X14.  The artifacts of the trainer and of the predictor are not
    interchangeable.  A predictor loads the file written by the trainer's
    [_save_model] and reports success, yet it holds a dictionary and
    makes every prediction by the rules; the trainer's [load_model]
    answers with an error for the file written by a predictor that holds
    a classifier, and leaves the trainer as it was. *)
Theorem artifacts_are_not_interchangeable :
  (forall e tr fs fs' clf path names (q : predictor),
      _save_model e tr fs clf path names = (true, fs') ->
      exists q',
        load_model fs' path q = (Ok true, q') /\
        model_loaded q' = true /\
        forall features,
          predict features q' = _rule_based_prediction features q') /\
  (forall fs fs' path (p p' : predictor) clf (tr : trainer),
      model p = Some (ObjClassifier clf) ->
      save_model fs path p = (Ok (true, fs'), p') ->
      exists error, trainer_load_model fs' path tr = (LoadError error, tr)).
Proof.
  split.
  - intros e tr fs fs' clf path names q H.
    apply trainer_save_inv in H.
    eexists. split; [exact (load_model_stored _ _ _ q H)|].
    split; [reflexivity|]. intros features.
    eapply predict_with_dictionary. reflexivity.
  - intros fs fs' path p p' clf tr Hm H.
    destruct (save_model_inv _ _ _ _ _ H) as (_ & obj & Hm' & Hf).
    rewrite Hm in Hm'. injection Hm' as <-.
    unfold trainer_load_model, mbind, res_bind, load.
    rewrite Hf. eexists. reflexivity.
Qed.

End Artifacts.

(** ** Scoring without a feature extractor *)

Section BasicScoring.

Import FeatureExtractor Predictor.

Lemma rule_based_extreme_deviation (fs : featmap) (p s : predictor) b q x :
  fs !! "amount_deviation_ratio" = Some (VInt 10) ->
  _rule_based_prediction fs p = (Ok (b, q, x), s) ->
  (4 # 10 <= q)%Q /\ In "EXTREME_AMOUNT_DEVIATION" (ex_risk_factors x).
Proof.
  intros Hr. unfold _rule_based_prediction, config_threshold, dget.
  rewrite Hr. cbn [default from_option id].
  change (py_gt (VInt 10) 5) with (Ok true).
  unfold mbind, pm_bind, lift, self, mret, pm_ret.
  repeat match goal with
         | |- context [py_gt ?a ?c] => destruct (py_gt a c) as [[|]|?]
         | |- context [py_eq1 ?a] => destruct (py_eq1 a)
         | |- context [truthy ?a] => destruct (truthy a)
         | |- context [threshold ?a] => destruct (threshold a)
         end;
    try discriminate;
    intros [= <- <- <- <-]; (split; [vm_compute; discriminate | cbn; tauto]).
Qed.

(** X15.  Without a feature extractor and without a model, a transaction
    of a user for whom no history is found is never allowed: the built-in
    extraction gives it the deviation sentinel, the rules answer with a
    probability of at least 0.4, and the risk score is at least 40. *)
Theorem new_user_without_extractor_is_never_allowed
    e i t uh (p p' : predictor) (r : scored) :
  feature_extractor p = false ->
  model_loaded p = false ->
  history_for t uh = [] ->
  score_transaction e i t uh p = (Ok r, p') ->
  (4 # 10 <= p_probability (r_prediction r))%Q /\
  (40 <= ra_score (r_risk_assessment r))%Q /\
  In "EXTREME_AMOUNT_DEVIATION" (ra_factors (r_risk_assessment r)) /\
  ra_level (r_risk_assessment r) <> "LOW" /\
  act_action (r_recommended_action r) <> "ALLOW".
Proof.
  intros Hfx Hl Hh Hs.
  destruct (scored_inv _ _ _ _ _ _ _ Hs)
    as (fs & b & q & x & rs & Hff & Hp & Hrs & Rp & Ra & Rc & _).
  rewrite Hh in Hff. unfold features_for, mbind, pm_bind, self, lift in Hff.
  rewrite Hfx in Hff. injection Hff as Hb.
  destruct (basic_first_time_sentinel _ _ _ Hb) as [Hratio _].
  rewrite (predict_unloaded _ _ Hl) in Hp.
  destruct (rule_based_extreme_deviation _ _ _ _ _ _ Hratio Hp) as [Hq Hin].
  assert (40 <= rs)%Q as H40.
  { destruct (risk_score_shape fs) as [[ex He] | (m & Hm & Hsh)].
    - rewrite He in Hrs. discriminate.
    - destruct (Hsh q) as (y & E & Hy). rewrite Hrs in E. injection E as <-.
      rewrite Hy. apply Q.min_glb; [|discriminate]. nra. }
  assert (30 <= rs)%Q as H40' by lra.
  rewrite Rp, Ra, Rc. cbn [p_probability ra_score ra_factors ra_level].
  split; [exact Hq|]. split; [exact H40|]. split; [exact Hin|].
  split.
  - intros HL. apply level_cases in HL. lra.
  - change (action_for b rs <> "ALLOW"). intros HA.
    rewrite action_for_cases in HA.
    apply Qgeb_true in H40'. rewrite H40' in HA.
    destruct (b || Qgeb rs 90), (Qgeb rs 70); discriminate.
Qed.

Lemma new_user_without_extractor_witness :
  (4 # 10 <= p_probability (r_prediction MoreSamples.bare_scored))%Q /\
  (40 <= ra_score (r_risk_assessment MoreSamples.bare_scored))%Q /\
  In "EXTREME_AMOUNT_DEVIATION"
     (ra_factors (r_risk_assessment MoreSamples.bare_scored)) /\
  ra_level (r_risk_assessment MoreSamples.bare_scored) <> "LOW" /\
  act_action (r_recommended_action MoreSamples.bare_scored) <> "ALLOW".
Proof.
  apply (new_user_without_extractor_is_never_allowed Samples.utc 0
           Samples.night_tx None MoreSamples.bare MoreSamples.bare);
    [exact eq_refl | exact eq_refl | exact eq_refl | by_evaluation].
Defined.

End BasicScoring.

(** ** Anomaly detection in a scored transaction *)

Section AnomalyDetection.

Import Predictor Standalone.

Lemma detector_blind_ret {A} (a : A) : detector_blind (mret a).
Proof. intros s1 s2 _. reflexivity. Qed.

Lemma detector_blind_lift {A} (r : res A) : detector_blind (lift r).
Proof. intros s1 s2 _. reflexivity. Qed.

Lemma detector_blind_raise {A} (e : exn) : detector_blind (@raise A e).
Proof. intros s1 s2 _. reflexivity. Qed.

Lemma detector_blind_self {A} (f : predictor -> A) :
  (forall a b, same_scoring_view a b -> f a = f b) -> detector_blind (self f).
Proof. intros Hf a b Hab. cbn. f_equal. now apply Hf. Qed.

Lemma detector_blind_bind {A B} (m : pm A) (k : A -> pm B) :
  read_only m -> detector_blind m -> (forall x, detector_blind (k x)) ->
  detector_blind (m ≫= k).
Proof.
  intros Hro Hm Hk a b Hab. unfold mbind, pm_bind.
  pose proof (Hro a) as Ha. pose proof (Hro b) as Hb. specialize (Hm a b Hab).
  destruct (m a) as [ra sa], (m b) as [rb sb]; simpl in *; subst.
  destruct rb; [now apply Hk | reflexivity].
Qed.

Lemma detector_blind_try_except {A} (body : pm A) (handler : exn -> pm A) :
  read_only body -> detector_blind body -> (forall e, detector_blind (handler e)) ->
  detector_blind (try_except body handler).
Proof.
  intros Hro Hm Hk a b Hab. unfold try_except.
  pose proof (Hro a) as Ha. pose proof (Hro b) as Hb. specialize (Hm a b Hab).
  destruct (body a) as [ra sa], (body b) as [rb sb]; simpl in *; subst.
  destruct rb; [reflexivity | now apply Hk].
Qed.

Ltac keeps_state :=
  repeat first
    [ apply config_threshold_read_only | apply rule_based_read_only
    | apply predict_read_only | apply features_for_read_only
    | apply read_only_ret | apply read_only_self | apply read_only_lift
    | apply read_only_raise
    | apply read_only_bind; [|intros ?]
    | apply read_only_try_except; [|intros ?]
    | match goal with
      | |- read_only (match ?x with _ => _ end) => destruct x
      end ].

Ltac detector_blind_step :=
  first
    [ apply detector_blind_ret | apply detector_blind_lift
    | apply detector_blind_raise
    | apply detector_blind_self; intros ? ? (? & ? & ? & ?); assumption
    | apply detector_blind_bind; [keeps_state | | intros ?]
    | apply detector_blind_try_except; [keeps_state | | intros ?]
    | match goal with
      | |- detector_blind (match ?x with _ => _ end) => destruct x
      end ].

Lemma config_threshold_detector_blind : detector_blind config_threshold.
Proof. unfold config_threshold. repeat detector_blind_step. Qed.

Lemma rule_based_detector_blind (features : featmap) :
  detector_blind (_rule_based_prediction features).
Proof.
  unfold _rule_based_prediction.
  repeat first [ apply config_threshold_detector_blind | detector_blind_step ].
Qed.

Lemma predict_detector_blind (features : featmap) :
  detector_blind (predict features).
Proof.
  unfold predict.
  repeat first [ apply config_threshold_detector_blind
               | apply rule_based_detector_blind | detector_blind_step ].
Qed.

Lemma predict_detector (fs : featmap) det (p : predictor) :
  predict fs (set_anomaly_detector det p) = (fst (predict fs p), set_anomaly_detector det p).
Proof.
  pose proof (predict_read_only fs (set_anomaly_detector det p)) as R.
  pose proof (predict_detector_blind fs (set_anomaly_detector det p) p) as B.
  destruct (predict fs (set_anomaly_detector det p)) as [a s]. cbn [fst snd] in *.
  subst s. f_equal. apply B. repeat split.
Qed.

Lemma score_anomaly_inv e i t uh (p p' : predictor) (r : scored) a :
  score_transaction e i t uh p = (Ok r, p') ->
  r_anomaly_detection r = Some a ->
  model_loaded p = true /\
  exists d features,
    anomaly_detector p = Some d /\ is_fitted d = true /\
    det_detect d features = Ok a.
Proof.
  unfold score_transaction, mbind, pm_bind, lift, self, mret, pm_ret.
  pose proof (features_for_read_only e t (history_for t uh) p) as Rf.
  destruct (features_for e t (history_for t uh) p) as [[fs|ex] s] eqn:Hf;
    cbn [fst snd] in *; [subst s | discriminate].
  pose proof (predict_read_only fs p) as Rp.
  destruct (predict fs p) as [[[[b pr] x]|ex] s] eqn:Hp;
    cbn [fst snd] in *; [subst s | discriminate].
  destruct (_calculate_risk_score fs pr) as [rs|ex]; [|discriminate].
  intros [= <- <-].
  destruct (anomaly_detector p) as [d|]; [|discriminate].
  destruct (model_loaded p); [|discriminate].
  destruct (_features_to_array fs) as [arr|]; [|discriminate].
  unfold detect. destruct (is_fitted d) eqn:Hfit; [|discriminate].
  destruct (det_detect d arr) as [a'|] eqn:Hd; [|discriminate].
  cbn. intros [= <-]. split; [reflexivity|]. exists d, arr. auto.
Qed.

(** X16.  The anomaly detector decides nothing.  A scored transaction
    reports an anomaly only when a model is loaded and a fitted detector
    is held, and what it reports is the detector's answer; the prediction,
    the risk assessment, the explanation, the action and the features of
    the result are those of the same predictor without a detector, and a
    detector that raises does not make the scoring fail. *)
Theorem anomaly_detection_decides_nothing
    e i t uh (p : predictor) (det : option detector) :
  match fst (score_transaction e i t uh p),
        fst (score_transaction e i t uh (set_anomaly_detector det p)) with
  | Ok r, Ok r' =>
      forget_anomaly r = forget_anomaly r' /\
      (forall a, r_anomaly_detection r = Some a ->
         model_loaded p = true /\
         exists d features,
           anomaly_detector p = Some d /\ is_fitted d = true /\
           det_detect d features = Ok a)
  | Raise ex, Raise ex' => ex = ex'
  | _, _ => False
  end.
Proof.
  cbv zeta.
  unfold score_transaction, mbind, pm_bind, lift, self, mret, pm_ret.
  assert (forall h, features_for e t h (set_anomaly_detector det p)
                    = (fst (features_for e t h p), set_anomaly_detector det p)) as Ef.
  { intros h. unfold features_for, mbind, pm_bind, self, lift. reflexivity. }
  pose proof (features_for_read_only e t (history_for t uh) p) as Rf.
  rewrite Ef.
  destruct (features_for e t (history_for t uh) p) as [[fs|ex] s] eqn:Hf;
    cbn [fst snd] in *; [subst s | reflexivity].
  pose proof (predict_read_only fs p) as Rp. rewrite predict_detector.
  destruct (predict fs p) as [[[[b pr] x]|ex] s] eqn:Hp;
    cbn [fst snd] in *; [subst s | reflexivity].
  destruct (_calculate_risk_score fs pr) as [rs|ex]; [|reflexivity].
  cbn [fst anomaly_detector set_anomaly_detector model_loaded].
  split.
  - repeat match goal with
           | |- context [match ?d with _ => _ end] => destruct d
           end; reflexivity.
  - intros a.
    destruct (anomaly_detector p) as [d|]; [|discriminate].
    destruct (model_loaded p); [|discriminate].
    destruct (_features_to_array fs) as [arr|]; [|discriminate].
    unfold detect. destruct (is_fitted d) eqn:Hfit; [|discriminate].
    destruct (det_detect d arr) as [a'|] eqn:Hd; [|discriminate].
    cbn. intros [= <-]. split; [reflexivity|]. exists d, arr. auto.
Qed.

End AnomalyDetection.

(** ** Constructing a predictor, and [predict_fraud] *)

Section Construction.

Import FeatureExtractor Predictor Persistence Standalone.

Lemma load_attempt fs path (s : predictor) :
  exists s',
    (_ ← load_model fs path; mret tt) s = (Ok tt, s') /\
    config s' = config s /\ feature_extractor s' = feature_extractor s /\
    anomaly_detector s' = anomaly_detector s /\
    ((exists obj,
         files fs !! path = Some (Pickled obj) /\ model s' = Some obj /\
         model_loaded s' = true /\ model_path s' = Some path) \/
     ((forall obj, files fs !! path <> Some (Pickled obj)) /\
      model s' = model s /\ model_loaded s' = false /\
      model_path s' = model_path s)).
Proof.
  destruct (load_model_cases fs path s)
    as (ok & s' & E & Hok & Hl & Hc & Hf & Hd & Hfound & Hmiss).
  exists s'. unfold mbind, pm_bind. rewrite E. split; [reflexivity|].
  do 3 (split; [assumption|]).
  destruct ok.
  - left. destruct Hok as [Hok _]. destruct (Hok eq_refl) as [obj Hobj].
    exists obj. destruct (Hfound _ Hobj). auto.
  - right. destruct (Hmiss eq_refl) as (Hm & Hp & _).
    repeat split; try assumption.
    intros obj Hobj. destruct Hok as [_ Hok].
    assert (false = true) by (apply Hok; eauto). discriminate.
Qed.

Lemma load_first_cases fs (paths : list string) (s : predictor) :
  exists s',
    load_first fs paths s = (Ok tt, s') /\
    config s' = config s /\ feature_extractor s' = feature_extractor s /\
    anomaly_detector s' = anomaly_detector s /\
    ((exists before path after,
         paths = (before ++ path :: after)%list /\
         (forall other, In other before -> path_exists fs other = false) /\
         path_exists fs path = true /\
         ((exists obj,
              files fs !! path = Some (Pickled obj) /\ model s' = Some obj /\
              model_loaded s' = true /\ model_path s' = Some path) \/
          ((forall obj, files fs !! path <> Some (Pickled obj)) /\
           model s' = model s /\ model_loaded s' = false /\
           model_path s' = model_path s))) \/
     ((forall path, In path paths -> path_exists fs path = false) /\ s' = s)).
Proof.
  induction paths as [|path rest IH]; cbn [load_first].
  - exists s. repeat split. right. split; [intros ? []|reflexivity].
  - destruct (path_exists fs path) eqn:Hp.
    + destruct (load_attempt fs path s) as (s' & E & Hc & Hf & Hd & Hout).
      exists s'. repeat split; try assumption. left.
      exists [], path, rest. repeat split; try assumption. intros ? [].
    + destruct IH as (s' & E & Hc & Hf & Hd & Hcases).
      exists s'. repeat split; try assumption.
      destruct Hcases as [(before & p1 & after & -> & Hb & Hrest) | [Hnone ->]].
      * left. exists (path :: before), p1, after. split; [reflexivity|].
        split; [|exact Hrest].
        intros other [<- | Hin]; [exact Hp | now apply Hb].
      * right. split; [|reflexivity].
        intros other [<- | Hin]; [exact Hp | now apply Hnone].
Qed.

Lemma initialize_components_eq inst fs (model_path0 : option string) (s : predictor) :
  _initialize_components inst fs model_path0 s =
  match model_path0 with
  | Some path =>
      if negb (String.eqb path "") && path_exists fs path
      then _ ← load_model fs path; mret tt
      else load_first fs (default_paths inst)
  | None => load_first fs (default_paths inst)
  end
    match components inst with
    | NoComponent => s
    | ExtractorOnly => set_feature_extractor true s
    | BothComponents =>
        set_anomaly_detector (Some new_detector) (set_feature_extractor true s)
    end.
Proof.
  unfold _initialize_components. destruct (components inst); reflexivity.
Qed.

(** The configuration and the components of a constructed predictor. *)
Lemma constructed_components inst fs (model_path0 : option string) :
  config (FraudPredictor inst fs model_path0) = default_config /\
  feature_extractor (FraudPredictor inst fs model_path0)
    = match components inst with NoComponent => false | _ => true end /\
  anomaly_detector (FraudPredictor inst fs model_path0)
    = match components inst with BothComponents => Some new_detector | _ => None end.
Proof.
  unfold FraudPredictor. rewrite initialize_components_eq.
  match goal with
  | |- context [?k (match components inst with
                     | NoComponent => ?a | ExtractorOnly => ?b
                     | BothComponents => ?c end)] =>
      set (s2 := match components inst with
                 | NoComponent => a | ExtractorOnly => b | BothComponents => c end);
      assert (exists s', k s2 = (Ok tt, s') /\ config s' = config s2 /\
                feature_extractor s' = feature_extractor s2 /\
                anomaly_detector s' = anomaly_detector s2)
        as (s' & E & Hc & Hf & Hd)
  end.
  { destruct model_path0 as [path|];
      [destruct (negb (String.eqb path "") && path_exists fs path)|].
    - destruct (load_attempt fs path s2) as (s' & E & ? & ? & ? & _). eauto.
    - destruct (load_first_cases fs (default_paths inst) s2)
        as (s' & E & ? & ? & ? & _). eauto.
    - destruct (load_first_cases fs (default_paths inst) s2)
        as (s' & E & ? & ? & ? & _). eauto. }
  rewrite E. cbn [snd]. rewrite Hc, Hf, Hd.
  subst s2. destruct (components inst); repeat split.
Qed.

(** X17.  A predictor constructed with the default configuration holds
    that configuration, a feature extractor when the class could be
    imported, and an untrained anomaly detector when that class could be
    imported too.  It tries to load one path at most: the given path
    when that is not empty and exists, otherwise the first of the three
    default paths that exists, the earlier ones being absent.  The model
    is loaded exactly when that path holds a file that can be unpickled;
    an existing path that cannot be loaded leaves the predictor without
    a model, and no further path is tried.  When no path exists it holds
    no model. *)
Theorem constructed_predictor_tries_first_existing_path
    inst fs (model_path0 : option string) :
  config (FraudPredictor inst fs model_path0) = default_config /\
  feature_extractor (FraudPredictor inst fs model_path0)
    = match components inst with NoComponent => false | _ => true end /\
  anomaly_detector (FraudPredictor inst fs model_path0)
    = match components inst with BothComponents => Some new_detector | _ => None end /\
  ((exists path,
       ((model_path0 = Some path /\ path <> "" /\ path_exists fs path = true) \/
        ((forall given, model_path0 = Some given ->
                        given = "" \/ path_exists fs given = false) /\
         exists before after,
           default_paths inst = (before ++ path :: after)%list /\
           (forall other, In other before -> path_exists fs other = false) /\
           path_exists fs path = true)) /\
       ((exists obj,
            files fs !! path = Some (Pickled obj) /\
            model (FraudPredictor inst fs model_path0) = Some obj /\
            model_loaded (FraudPredictor inst fs model_path0) = true /\
            model_path (FraudPredictor inst fs model_path0) = Some path) \/
        ((forall obj, files fs !! path <> Some (Pickled obj)) /\
         model (FraudPredictor inst fs model_path0) = None /\
         model_loaded (FraudPredictor inst fs model_path0) = false /\
         model_path (FraudPredictor inst fs model_path0) = None))) \/
   ((forall given, model_path0 = Some given ->
                   given = "" \/ path_exists fs given = false) /\
    (forall path, In path (default_paths inst) -> path_exists fs path = false) /\
    model (FraudPredictor inst fs model_path0) = None /\
    model_loaded (FraudPredictor inst fs model_path0) = false /\
    model_path (FraudPredictor inst fs model_path0) = None)).
Proof.
  destruct (constructed_components inst fs model_path0) as (Hc & Hf & Hd).
  do 3 (split; [assumption|]). clear Hc Hf Hd.
  unfold FraudPredictor. rewrite initialize_components_eq.
  match goal with
  | |- context [?k (match components inst with
                     | NoComponent => ?a | ExtractorOnly => ?b
                     | BothComponents => ?c end)] =>
      set (s2 := match components inst with
                 | NoComponent => a | ExtractorOnly => b | BothComponents => c end)
  end.
  assert (model s2 = None /\ model_loaded s2 = false /\ model_path s2 = None)
    as (Hm & Hl & Hp) by (subst s2; destruct (components inst); repeat split).
  clearbody s2.
  assert ((forall given, model_path0 = Some given ->
                         given = "" \/ path_exists fs given = false) ->
          let P := snd (load_first fs (default_paths inst) s2) in
          (exists path,
              ((model_path0 = Some path /\ path <> "" /\ path_exists fs path = true) \/
               ((forall given, model_path0 = Some given ->
                               given = "" \/ path_exists fs given = false) /\
                exists before after,
                  default_paths inst = (before ++ path :: after)%list /\
                  (forall other, In other before -> path_exists fs other = false) /\
                  path_exists fs path = true)) /\
              ((exists obj,
                   files fs !! path = Some (Pickled obj) /\ model P = Some obj /\
                   model_loaded P = true /\ model_path P = Some path) \/
               ((forall obj, files fs !! path <> Some (Pickled obj)) /\
                model P = None /\ model_loaded P = false /\ model_path P = None))) \/
          ((forall given, model_path0 = Some given ->
                          given = "" \/ path_exists fs given = false) /\
           (forall path, In path (default_paths inst) -> path_exists fs path = false) /\
           model P = None /\ model_loaded P = false /\ model_path P = None))
    as Hdefaults.
  { intros Hgiven. cbv zeta.
    destruct (load_first_cases fs (default_paths inst) s2)
      as (s' & E & _ & _ & _ & Hcases).
    rewrite E. cbn [snd].
    destruct Hcases as [(before & path & after & Hdp & Hb & He & Hout)
                       | [Hnone ->]].
    - left. exists path.
      split; [right; split; [exact Hgiven | exists before, after; auto]|].
      destruct Hout as [Hout | (Hno & Hm' & Hl' & Hp')]; [left; exact Hout|].
      right. rewrite Hm', Hp', Hm, Hp. auto.
    - right. auto. }
  destruct model_path0 as [path|]; [|apply Hdefaults; discriminate].
  destruct (negb (String.eqb path "") && path_exists fs path) eqn:Hg.
  - apply andb_prop in Hg. destruct Hg as [Hne Hg].
    apply negb_true_iff, String.eqb_neq in Hne.
    destruct (load_attempt fs path s2) as (s' & E & _ & _ & _ & Hout).
    rewrite E. cbn [snd]. left. exists path. split; [left; auto|].
    destruct Hout as [Hout | (Hno & Hm' & Hl' & Hp')]; [left; exact Hout|].
    right. rewrite Hm', Hp', Hm, Hp. auto.
  - apply Hdefaults. intros given [= <-].
    apply andb_false_iff in Hg. destruct Hg as [Hg | Hg]; [left | now right].
    now apply negb_false_iff, String.eqb_eq in Hg.
Qed.

End Construction.

(** ** [predict_fraud] *)

Section PredictFraud.

Import FeatureExtractor Predictor Persistence Standalone.

Lemma score_transaction_history e i t uh uh' (p : predictor) :
  history_for t uh = history_for t uh' ->
  score_transaction e i t uh p = score_transaction e i t uh' p.
Proof. intros H. unfold score_transaction. now rewrite H. Qed.

Lemma scored_id e i t uh (p p' : predictor) (r : scored) :
  score_transaction e i t uh p = (Ok r, p') ->
  r_transaction_id r = transaction_id i t.
Proof.
  unfold score_transaction, mbind, pm_bind, lift, self, mret, pm_ret.
  destruct (features_for e t (history_for t uh) p) as [[fs|ex] s];
    [|discriminate].
  destruct (predict fs s) as [[[[b pr] x]|ex] s']; [|discriminate].
  destruct (_calculate_risk_score fs pr) as [rs|ex]; [|discriminate].
  intros [= <- <-].
  repeat match goal with
         | |- context [match ?d with _ => _ end] => destruct d
         end; reflexivity.
Qed.

Lemma predict_fraud_eq e inst fs t (h : option (list hist_entry)) :
  predict_fraud e inst fs t h =
  Ok match fst (score_transaction e 0 t
                  (Some {[ default "unknown" (tx_user_id t) := default [] h ]})
                  (FraudPredictor inst fs None)) with
     | Ok r => Result r
     | Raise _ => PredictionFailed (default "unknown" (tx_id t))
     end.
Proof.
  unfold predict_fraud, predict_batch. rewrite batch_loop_spec.
  cbn [fst app imap mbind res_bind Nat.add]. unfold entry_of.
  destruct (score_transaction e 0 t _ _) as [[r|ex] s]; reflexivity.
Qed.

Lemma history_of_supplied t (h : option (list hist_entry)) :
  history_for t (Some {[ default "unknown" (tx_user_id t) := default [] h ]})
  = supplied_history t h.
Proof.
  unfold history_for, supplied_history.
  destruct (tx_user_id t) as [uid|]; [|reflexivity].
  cbn [default from_option id]. rewrite map_size_singleton.
  destruct (String.eqb_spec uid ""); [reflexivity|].
  cbn. now rewrite lookup_singleton_eq.
Qed.

(** X18.  [predict_fraud] reads the supplied history only for a transaction
    that names its user: without a [user_id], or with an empty one, the
    answer is the one for no history at all. *)
Theorem predict_fraud_ignores_history_without_user_id
    e inst fs t (h : option (list hist_entry)) :
  tx_user_id t = None \/ tx_user_id t = Some "" ->
  predict_fraud e inst fs t h = predict_fraud e inst fs t None.
Proof.
  intros Hu. rewrite !predict_fraud_eq.
  rewrite (score_transaction_history e 0 t
             (Some {[ default "unknown" (tx_user_id t) := default [] h ]})
             (Some {[ default "unknown" (tx_user_id t) := default [] None ]}));
    [reflexivity|].
  rewrite !history_of_supplied.
  unfold supplied_history. destruct Hu as [-> | ->]; reflexivity.
Qed.

(** X19.  Where the feature extractor could be imported, [predict_fraud]
    never raises, whatever artifact the constructor finds: it answers with
    the scored transaction when the extraction of the features succeeds,
    and with the failure dictionary when it raises.  The result holds the
    sanitized extracted features and never an anomaly entry, the detector
    of a fresh predictor being untrained. *)
Theorem predict_fraud_outcome e inst fs t (h : option (list hist_entry)) :
  components inst <> NoComponent ->
  match extract_features e t (Some (supplied_history t h)) with
  | Ok features =>
      exists r,
        predict_fraud e inst fs t h = Ok (Result r) /\
        r_features r = _sanitize_features features /\
        r_anomaly_detection r = None /\
        r_transaction_id r = transaction_id 0 t
  | Raise _ =>
      predict_fraud e inst fs t h
        = Ok (PredictionFailed (default "unknown" (tx_id t)))
  end.
Proof.
  intros Hc. rewrite predict_fraud_eq.
  destruct (constructed_components inst fs None) as (Hcfg & Hfx & Hdet).
  set (p := FraudPredictor inst fs None) in *.
  assert (feature_extractor p = true) as Hfx'
    by (rewrite Hfx; destruct (components inst); congruence).
  assert (threshold (config p) = Some (8 # 10)) as Hth by now rewrite Hcfg.
  pose proof (score_on_extracted e 0 t
                (Some {[ default "unknown" (tx_user_id t) := default [] h ]})
                p (8 # 10) Hfx' Hth) as Hs.
  rewrite history_of_supplied in Hs.
  destruct (extract_features e t (Some (supplied_history t h))) as [fs'|ex].
  - destruct Hs as (r & Hs & Hr). rewrite Hs. cbn [fst].
    exists r. split; [reflexivity|]. split; [exact Hr|]. split.
    + destruct (r_anomaly_detection r) as [a|] eqn:Ha; [|reflexivity].
      destruct (score_anomaly_inv _ _ _ _ _ _ _ _ Hs Ha)
        as (_ & d & arr & Hd & Hfit & _).
      rewrite Hdet in Hd. destruct (components inst); try discriminate.
      injection Hd as <-. discriminate.
    + exact (scored_id _ _ _ _ _ _ _ Hs).
  - rewrite Hs. reflexivity.
Qed.

Lemma predict_fraud_ignores_history_witness :
  predict_fraud Samples.utc MoreSamples.installed Samples.empty_fs
    Samples.night_tx (Some Samples.sample_history)
  = predict_fraud Samples.utc MoreSamples.installed Samples.empty_fs
      Samples.night_tx None.
Proof.
  exact (predict_fraud_ignores_history_without_user_id Samples.utc
           MoreSamples.installed Samples.empty_fs Samples.night_tx
           (Some Samples.sample_history) (or_introl eq_refl)).
Defined.

Lemma predict_fraud_outcome_witness :
  match extract_features Samples.utc MoreSamples.text_tx
          (Some (supplied_history MoreSamples.text_tx
                   (Some Samples.sample_history))) with
  | Ok features =>
      exists r,
        predict_fraud Samples.utc MoreSamples.installed Samples.empty_fs
          MoreSamples.text_tx (Some Samples.sample_history) = Ok (Result r) /\
        r_features r = _sanitize_features features /\
        r_anomaly_detection r = None /\
        r_transaction_id r = transaction_id 0 MoreSamples.text_tx
  | Raise _ =>
      predict_fraud Samples.utc MoreSamples.installed Samples.empty_fs
        MoreSamples.text_tx (Some Samples.sample_history)
      = Ok (PredictionFailed (default "unknown" (tx_id MoreSamples.text_tx)))
  end.
Proof.
  apply (predict_fraud_outcome Samples.utc MoreSamples.installed
           Samples.empty_fs MoreSamples.text_tx (Some Samples.sample_history)).
  discriminate.
Defined.

End PredictFraud.

(** ** The risk level of an anomaly score *)

Section AnomalyLevels.

Import Anomaly.

(** X20.  The risk level of an anomaly score.  Before training the call
    raises; after it, a score is graded MEDIUM or worse exactly when it
    lies below the threshold of the training, CRITICAL exactly when it is
    more than 1 below it, and a lower score never gets a milder level. *)
Theorem anomaly_risk_level_bands (th score : Q) :
  (exists ex, calculate_risk_level None score = Raise ex) /\
  exists level,
    calculate_risk_level (Some th) score = Ok level /\
    ((2 <= anomaly_rank level)%nat <-> (score < th)%Q) /\
    (level = "CRITICAL" <-> score < th - 1)%Q /\
    (level = "NORMAL" <-> th + (5 # 10) <= score)%Q /\
    forall score' level',
      (score <= score')%Q ->
      calculate_risk_level (Some th) score' = Ok level' ->
      (anomaly_rank level' <= anomaly_rank level)%nat.
Proof.
  split; [eexists; reflexivity|].
  unfold calculate_risk_level. eexists. split; [reflexivity|].
  destruct (Qltb score (th - 1)) eqn:A1;
    [apply Qltb_true in A1 | apply Qltb_false in A1];
  (destruct (Qltb score (th - (5 # 10))) eqn:A2;
    [apply Qltb_true in A2 | apply Qltb_false in A2]);
  (destruct (Qltb score th) eqn:A3;
    [apply Qltb_true in A3 | apply Qltb_false in A3]);
  (destruct (Qltb score (th + (5 # 10))) eqn:A4;
    [apply Qltb_true in A4 | apply Qltb_false in A4]);
  try (exfalso; lra);
  (split; [cbn; split; intros; first [lia | lra]|]);
  (split; [split; intros; first [discriminate | reflexivity | lra]|]);
  (split; [split; intros; first [discriminate | reflexivity | lra]|]);
  intros score' level' Hle [= <-];
  (destruct (Qltb score' (th - 1)) eqn:B1;
    [apply Qltb_true in B1 | apply Qltb_false in B1]);
  (destruct (Qltb score' (th - (5 # 10))) eqn:B2;
    [apply Qltb_true in B2 | apply Qltb_false in B2]);
  (destruct (Qltb score' th) eqn:B3;
    [apply Qltb_true in B3 | apply Qltb_false in B3]);
  (destruct (Qltb score' (th + (5 # 10))) eqn:B4;
    [apply Qltb_true in B4 | apply Qltb_false in B4]);
  cbn; try lia; exfalso; lra.
Qed.

End AnomalyLevels.

(** ** The training report *)

Section TrainingReport.

Import Report.

Lemma find_best_fold (l : list training) :
  forall (seen : list training) (r : Q) (b : option training),
    match b with
    | Some t => r = roc_auc t /\ (0 < r)%Q /\ In t seen
    | None => r = 0%Q
    end ->
    (forall t, In t seen -> (roc_auc t <= r)%Q) ->
    match fold_left
            (fun '(best_roc_auc, best_training) training =>
               if Qgtb (roc_auc training) best_roc_auc
               then (roc_auc training, Some training)
               else (best_roc_auc, best_training))
            l (r, b) with
    | (r', b') =>
        match b' with
        | Some t => r' = roc_auc t /\ (0 < r')%Q /\ In t (seen ++ l)
        | None => r' = 0%Q
        end /\
        forall t, In t (seen ++ l) -> (roc_auc t <= r')%Q
    end.
Proof.
  induction l as [|x l IH]; intros seen r b Hb Hmax; cbn [fold_left].
  - rewrite app_nil_r. split; assumption.
  - replace (seen ++ x :: l)%list with ((seen ++ [x]) ++ l)%list
      by (rewrite <- app_assoc; reflexivity).
    destruct (Qgtb (roc_auc x) r) eqn:Hg;
      [apply Qgtb_true in Hg | apply Qgtb_false in Hg]; apply IH.
    + split; [reflexivity|]. split.
      * destruct b as [t|]; [destruct Hb as (-> & Hpos & _); lra | subst r; exact Hg].
      * apply in_or_app. right. now left.
    + intros t Ht. apply in_app_or in Ht. destruct Ht as [Ht | [<- | []]].
      * apply Hmax in Ht. lra.
      * lra.
    + destruct b as [t|]; [|exact Hb]. destruct Hb as (Hr & Hpos & Hin).
      repeat split; try assumption. apply in_or_app. now left.
    + intros t Ht. apply in_app_or in Ht. destruct Ht as [Ht | [<- | []]].
      * now apply Hmax.
      * exact Hg.
Qed.

Lemma find_best_spec (history : list training) :
  match snd (find_best history) with
  | Some t =>
      In t history /\ (0 < roc_auc t)%Q /\
      forall t', In t' history -> (roc_auc t' <= roc_auc t)%Q
  | None => forall t, In t history -> (roc_auc t <= 0)%Q
  end.
Proof.
  unfold find_best.
  pose proof (find_best_fold history [] 0%Q None eq_refl) as H.
  destruct (fold_left _ history (0%Q, None)) as [r b]. cbn [snd app] in *.
  destruct H as [Hb Hmax]; [intros ? []|].
  destruct b as [t|].
  - destruct Hb as (-> & Hpos & Hin). auto.
  - subst r. exact Hmax.
Qed.

(** X21.  The training report.  With an empty history it is the failure
    answer.  Otherwise the best model it names is a training of the
    history whose ROC-AUC is positive and is not exceeded by any other;
    when no training has a positive ROC-AUC the report names none and
    recommends nothing.  The report is produced only when the best
    training carries a feature importance: for a best model without one
    the call raises. *)
Theorem training_report_outcome e (history : list training) :
  match generate_training_report e history with
  | Ok NoHistory => history = []
  | Ok (Report r) =>
      history <> [] /\
      rp_total_trainings r = length history /\
      length (rp_model_comparison r) = length history /\
      match rp_best_model r with
      | Some b =>
          (0 < bs_roc_auc b)%Q /\
          (forall t, In t history -> (roc_auc t <= bs_roc_auc b)%Q) /\
          (exists t names,
              In t history /\ tr_roc_auc t = Some (bs_roc_auc b) /\
              tr_model_type t = bs_model_type b /\
              tr_feature_importance t = Some names /\
              rp_top_features r = Some (take 5 names)) /\
          (In "HIGH" (rp_recommendations r) <-> (bs_roc_auc b < 8 # 10)%Q)
      | None =>
          (forall t, In t history -> (roc_auc t <= 0)%Q) /\
          rp_recommendations r = [] /\ rp_top_features r = None
      end
  | Raise _ =>
      exists t,
        In t history /\ (0 < roc_auc t)%Q /\
        (forall t', In t' history -> (roc_auc t' <= roc_auc t)%Q) /\
        tr_feature_importance t = None
  end.
Proof.
  unfold generate_training_report.
  destruct history as [|x l]; [reflexivity|].
  set (history := x :: l).
  pose proof (find_best_spec history) as Hbest.
  destruct (snd (find_best history)) as [t|]; cbn [mbind res_bind].
  - destruct Hbest as (Hin & Hpos & Hmax).
    destruct (tr_roc_auc t) as [roc|] eqn:Hroc.
    2:{ exfalso. unfold roc_auc in Hpos. rewrite Hroc in Hpos.
        cbn in Hpos. lra. }
    assert (roc_auc t = roc) as Er by (unfold roc_auc; now rewrite Hroc).
    cbn [mbind res_bind bs_roc_auc].
    destruct (tr_feature_importance t) as [names|] eqn:Hfi; cbn [mbind res_bind].
    + split; [discriminate|]. split; [reflexivity|].
      split; [cbn [rp_model_comparison]; apply length_map|].
      cbn [rp_best_model bs_roc_auc rp_top_features rp_recommendations bs_model_type].
      rewrite <- Er. split; [exact Hpos|]. split; [exact Hmax|]. split.
      * exists t, names. rewrite Er. auto.
      * destruct (Qltb (roc_auc t) (8 # 10)) eqn:Hlt;
          [apply Qltb_true in Hlt | apply Qltb_false in Hlt];
          destruct (Qltb (tr_fraud_ratio t) (1 # 10)); cbn;
          split; intros H; try lra; try tauto;
          repeat (destruct H as [H|H]; try discriminate H; try contradiction).
    + exists t. auto.
  - split; [discriminate|]. split; [reflexivity|].
    split; [cbn [rp_model_comparison]; apply length_map|].
    cbn. repeat split. exact Hbest.
Qed.

End TrainingReport.
